(** * data-quality-saas: the analysis-and-cleaning pipeline

    A shallow embedding of [backend/modules/duplicates.py],
    [inconsistencies.py], [drift.py], [cleaning.py] and of
    [calculate_quality_score] in [run_pipeline.py], followed by the
    properties of the pipeline that the specification states.

    Conventions of the embedding:
    - a pandas [DataFrame] is a schema (column names with their dtypes)
      and a list of rows; the index is positional, so [reset_index(drop=True)]
      is the identity;
    - the numbers of a dataset are finite and are taken as exact
      rationals ([Q]); a missing value ([NaN], [None], [NaT]) is the cell
      [NaN].  Rounding to 53 bits is not modelled.  Where the drift
      analyzer computes with them, a result that leaves the range of
      float64 is an infinity or NaN ([Float64]); the other statistics are
      exact, and what is proved of them that rests on a sum, difference
      or square is stated for values of moderate size;
    - text is ASCII ([string]);
    - a report is a record; a key that the code reads with [.get(key, default)]
      or tests with [in] is an [option] field, [None] meaning the key is absent;
    - a Python [dict] is an association list in insertion order. *)

From Stdlib Require Import List String Ascii Bool Arith ZArith QArith Qabs Qround Lia Lqa Sorted.
Import ListNotations.

Local Open Scope string_scope.
Local Open Scope list_scope.

(** ** Python helpers *)

Module Py.

(** [d.get(key, default)] on a key that may be absent. *)
Definition get {A : Type} (o : option A) (default : A) : A :=
  match o with Some x => x | None => default end.

Definition dict (V : Type) : Type := list (string * V).

Fixpoint dict_mem {V : Type} (k : string) (d : dict V) : bool :=
  match d with
  | [] => false
  | (k', _) :: d' => String.eqb k k' || dict_mem k d'
  end.

Fixpoint dict_get {V : Type} (k : string) (d : dict V) : option V :=
  match d with
  | [] => None
  | (k', v) :: d' => if String.eqb k k' then Some v else dict_get k d'
  end.

(** [d[k] = v]: overwrite in place, or append a new key. *)
Fixpoint dict_set {V : Type} (k : string) (v : V) (d : dict V) : dict V :=
  match d with
  | [] => [(k, v)]
  | (k', v') :: d' =>
      if String.eqb k k' then (k, v) :: d' else (k', v') :: dict_set k v d'
  end.

Definition values {V : Type} (d : dict V) : list V := map snd d.

Definition len {A : Type} (l : list A) : Z := Z.of_nat (List.length l).

Definition Qlt_bool (a b : Q) : bool := negb (Qle_bool b a).

(** [sum()] of a boolean series. *)
Definition count_true (l : list bool) : Z := len (filter (fun b => b) l).

(** [str.lower()] on ASCII. *)
Definition lower_ascii (c : ascii) : ascii :=
  let n := nat_of_ascii c in
  if (65 <=? n)%nat && (n <=? 90)%nat then ascii_of_nat (n + 32) else c.

Fixpoint lower (s : string) : string :=
  match s with
  | EmptyString => EmptyString
  | String c s' => String (lower_ascii c) (lower s')
  end.

(** [pat in s] for strings. *)
Fixpoint contains (pat s : string) : bool :=
  match s with
  | EmptyString => String.prefix pat EmptyString
  | String _ s' => String.prefix pat s || contains pat s'
  end.

(** [str.isspace()] on ASCII, which is also what [\s] matches. *)
Definition isspace (c : ascii) : bool :=
  let n := nat_of_ascii c in
  ((9 <=? n)%nat && (n <=? 13)%nat) || ((28 <=? n)%nat && (n <=? 32)%nat).

Definition isalpha (c : ascii) : bool :=
  let n := nat_of_ascii c in
  ((65 <=? n)%nat && (n <=? 90)%nat) || ((97 <=? n)%nat && (n <=? 122)%nat).

Definition isdigit (c : ascii) : bool :=
  let n := nat_of_ascii c in (48 <=? n)%nat && (n <=? 57)%nat.

Fixpoint lstrip (s : string) : string :=
  match s with
  | EmptyString => EmptyString
  | String c s' => if isspace c then lstrip s' else s
  end.

(** Drops the trailing white space: a character is kept when it is not
    white space or when something is kept after it. *)
Fixpoint rstrip (s : string) : string :=
  match s with
  | EmptyString => EmptyString
  | String c s' =>
      match rstrip s' with
      | EmptyString => if isspace c then EmptyString else String c EmptyString
      | t => String c t
      end
  end.

Definition strip (s : string) : string := rstrip (lstrip s).

Fixpoint any_char (p : ascii -> bool) (s : string) : bool :=
  match s with
  | EmptyString => false
  | String c s' => p c || any_char p s'
  end.

Fixpoint filter_chars (p : ascii -> bool) (s : string) : string :=
  match s with
  | EmptyString => EmptyString
  | String c s' => if p c then String c (filter_chars p s') else filter_chars p s'
  end.

(** [round(x, 2)] of the exact value: to the nearest hundredth, ties to
    the even one.  The code rounds the binary float that its arithmetic
    produced, which can lie just off the exact value, so that the two can
    differ by one hundredth where the exact value is a tie; what is proved
    of a rounded value uses only that rounding keeps the order. *)
Definition round2 (x : Q) : Q :=
  let y := (x * 100)%Q in
  let f := Qfloor y in
  let r := (y - inject_Z f)%Q in
  let n := if Qlt_bool r (1 # 2) then f
           else if Qlt_bool (1 # 2) r then (f + 1)%Z
           else if Z.even f then f else (f + 1)%Z in
  (inject_Z n / 100)%Q.

End Py.

(** ** The tabular dataset *)

Module Pandas.

Inductive dtype : Type :=
| int64 | float64 | Int64 | Float64 | object | category | boolean | datetime64.

Definition dtype_eqb (a b : dtype) : bool :=
  match a, b with
  | int64, int64 | float64, float64 | Int64, Int64 | Float64, Float64
  | object, object | category, category | boolean, boolean
  | datetime64, datetime64 => true
  | _, _ => false
  end.

(** [dtype in ['int64', 'float64', 'Int64', 'Float64']] *)
Definition is_numeric (d : dtype) : bool :=
  match d with int64 | float64 | Int64 | Float64 => true | _ => false end.

Inductive cell : Type :=
| NaN
| Num (q : Q)
| Str (s : string)
| Bool (b : bool)
| Timestamp (t : Z).

(** Equality of two cells as [duplicated] and [nunique] see it: missing
    values are equal to each other. *)
Definition cell_eqb (a b : cell) : bool :=
  match a, b with
  | NaN, NaN => true
  | Num p, Num q => Qeq_bool p q
  | Str s, Str t => String.eqb s t
  | Bool x, Bool y => Bool.eqb x y
  | Timestamp x, Timestamp y => Z.eqb x y
  | _, _ => false
  end.

Definition isna (c : cell) : bool :=
  match c with NaN => true | _ => false end.

Definition row : Type := list cell.

Fixpoint row_eqb (r s : row) : bool :=
  match r, s with
  | [], [] => true
  | a :: r', b :: s' => cell_eqb a b && row_eqb r' s'
  | _, _ => false
  end.

Record DataFrame : Type := mkDataFrame {
  columns : list (string * dtype);
  rows : list row
}.

Definition len (df : DataFrame) : Z := Py.len (rows df).

Definition column_names (df : DataFrame) : list string := map fst (columns df).

Fixpoint index_of (name : string) (names : list string) : option nat :=
  match names with
  | [] => None
  | n :: names' =>
      if String.eqb name n then Some 0%nat
      else option_map S (index_of name names')
  end.

(** [col in df.columns] *)
Definition has_column (df : DataFrame) (name : string) : bool :=
  match index_of name (column_names df) with Some _ => true | None => false end.

Definition cell_at (i : nat) (r : row) : cell := nth i r NaN.

(** [df[col]]: the values of a column, top to bottom. *)
Definition get_col (df : DataFrame) (name : string) : list cell :=
  match index_of name (column_names df) with
  | Some i => map (cell_at i) (rows df)
  | None => []
  end.

Definition col_dtype (df : DataFrame) (name : string) : dtype :=
  match index_of name (column_names df) with
  | Some i => snd (nth i (columns df) (name, object))
  | None => object
  end.

Fixpoint replace_nth {A : Type} (i : nat) (x : A) (l : list A) : list A :=
  match i, l with
  | _, [] => []
  | O, _ :: l' => x :: l'
  | S i', y :: l' => y :: replace_nth i' x l'
  end.

Definition put (i : option nat) (v : cell) (r : row) : row :=
  match i with
  | Some k => replace_nth k v r
  | None => r ++ [v]
  end.

(** One value per row, in order.  The series assigned at every call site
    is computed from the frame itself and has one value per row. *)
Fixpoint assign_rows (i : option nat) (rs : list row) (vals : list cell) : list row :=
  match rs with
  | [] => []
  | r :: rs' => put i (hd NaN vals) r :: assign_rows i rs' (tl vals)
  end.

(** [df[name] = vals]: overwrite the column, or add it at the right. *)
Definition assign (df : DataFrame) (name : string) (dt : dtype) (vals : list cell)
  : DataFrame :=
  let i := index_of name (column_names df) in
  {| columns := match i with
                | Some k => replace_nth k (name, dt) (columns df)
                | None => columns df ++ [(name, dt)]
                end;
     rows := assign_rows i (rows df) vals |}.

(** [df[mask]] *)
Fixpoint mask_filter {A : Type} (mask : list bool) (rs : list A) : list A :=
  match mask, rs with
  | b :: mask', r :: rs' =>
      if b then r :: mask_filter mask' rs' else mask_filter mask' rs'
  | _, _ => []
  end.

Definition reset_index (df : DataFrame) : DataFrame := df.

Definition copy (df : DataFrame) : DataFrame := df.

(** [df.duplicated()] with the default [keep='first']: a row is marked
    when an equal row stands above it. *)
Fixpoint duplicated_from (seen : list row) (rs : list row) : list bool :=
  match rs with
  | [] => []
  | r :: rs' => existsb (row_eqb r) seen :: duplicated_from (r :: seen) rs'
  end.

Definition duplicated_rows (rs : list row) : list bool := duplicated_from [] rs.

Definition duplicated (df : DataFrame) : list bool := duplicated_rows (rows df).

Definition occurrences (r : row) (rs : list row) : nat :=
  List.length (filter (row_eqb r) rs).

(** [keep=False]: every row that has an equal row elsewhere is marked. *)
Definition duplicated_keep_false_rows (rs : list row) : list bool :=
  map (fun r => (1 <? occurrences r rs)%nat) rs.

(** [df.duplicated(subset=cols, keep=False)] *)
Definition project (df : DataFrame) (cols : list string) (r : row) : row :=
  map (fun name =>
         match index_of name (column_names df) with
         | Some i => cell_at i r
         | None => NaN
         end) cols.

Definition duplicated_subset_keep_false (df : DataFrame) (cols : list string)
  : list bool :=
  duplicated_keep_false_rows (map (project df cols) (rows df)).

(** [df.drop_duplicates()] *)
Definition drop_duplicates (df : DataFrame) : DataFrame :=
  {| columns := columns df;
     rows := mask_filter (map negb (duplicated df)) (rows df) |}.

(** The exact full-row duplicate count, [df.duplicated().sum()]. *)
Definition duplicate_count (df : DataFrame) : Z := Py.count_true (duplicated df).

(** *** Series reductions

    The reductions below are pandas' own; they are written out over exact
    rationals so that the pipeline can be run. *)

Definition dropna (cs : list cell) : list cell :=
  filter (fun c => negb (isna c)) cs.

(** The non-missing values of a numeric series; [None] when some value is
    not a number, where pandas' numeric reductions raise [TypeError]. *)
Fixpoint numeric_values (cs : list cell) : option (list Q) :=
  match cs with
  | [] => Some []
  | NaN :: cs' => numeric_values cs'
  | Num q :: cs' => option_map (cons q) (numeric_values cs')
  | _ :: _ => None
  end.

Fixpoint insert_sorted (x : Q) (l : list Q) : list Q :=
  match l with
  | [] => [x]
  | y :: l' => if Qle_bool x y then x :: l else y :: insert_sorted x l'
  end.

Definition sort (l : list Q) : list Q := fold_right insert_sorted [] l.

Definition Qsum (l : list Q) : Q := fold_right Qplus 0%Q l.

(** [Series.quantile(p)] with linear interpolation; [None] is [NaN], the
    quantile of an empty series. *)
Definition quantile_sorted (p : Q) (xs : list Q) : option Q :=
  match xs with
  | [] => None
  | x0 :: _ =>
      let n := List.length xs in
      let pos := (p * inject_Z (Z.of_nat (n - 1)))%Q in
      let i := Z.to_nat (Qfloor pos) in
      let frac := (pos - inject_Z (Qfloor pos))%Q in
      let lo := nth i xs x0 in
      let hi := nth (Nat.min (i + 1) (n - 1)) xs x0 in
      Some (lo + (hi - lo) * frac)%Q
  end.

Definition quantile (p : Q) (xs : list Q) : option Q := quantile_sorted p (sort xs).

Definition median (xs : list Q) : option Q := quantile (1 # 2) xs.

Definition mean (xs : list Q) : option Q :=
  match xs with
  | [] => None
  | _ => Some (Qsum xs / inject_Z (Z.of_nat (List.length xs)))%Q
  end.

Definition Qmin_list (x0 : Q) (xs : list Q) : Q :=
  fold_right (fun x m => if Qle_bool x m then x else m) x0 xs.

Definition Qmax_list (x0 : Q) (xs : list Q) : Q :=
  fold_right (fun x m => if Qle_bool m x then x else m) x0 xs.

(** The distinct values in order of first appearance. *)
Fixpoint unique (cs : list cell) : list cell :=
  match cs with
  | [] => []
  | c :: cs' => c :: filter (fun d => negb (cell_eqb c d)) (unique cs')
  end.

(** [Series.nunique()], which leaves missing values out. *)
Definition nunique (cs : list cell) : nat := List.length (unique (dropna cs)).

Definition count_of (c : cell) (cs : list cell) : nat :=
  List.length (filter (cell_eqb c) cs).

(** [Series.value_counts()] as a set of (value, count) pairs; the order
    of the pairs is not used. *)
Definition value_counts (cs : list cell) : list (cell * nat) :=
  map (fun c => (c, count_of c cs)) (unique (dropna cs)).

(** The order in which [mode] lists equally frequent values. *)
Definition cell_leb (a b : cell) : bool :=
  match a, b with
  | Num p, Num q => Qle_bool p q
  | Str s, Str t => String.leb s t
  | Bool x, Bool y => implb x y
  | Timestamp x, Timestamp y => Z.leb x y
  | _, _ => true
  end.

(** [Series.mode(dropna=True)[0]]: the smallest of the most frequent
    values; [None] when the series has no value at all. *)
Definition mode0 (cs : list cell) : option cell :=
  let vc := value_counts cs in
  let top := fold_right (fun p m => Nat.max (snd p) m) 0%nat vc in
  let best := map fst (filter (fun p => (snd p =? top)%nat) vc) in
  match best with
  | [] => None
  | b :: bs => Some (fold_right (fun c m => if cell_leb c m then c else m) b bs)
  end.

Definition fillna (v : cell) (cs : list cell) : list cell :=
  map (fun c => if isna c then v else c) cs.

(** [fillna(method='ffill')]: a missing value takes the last value above. *)
Fixpoint ffill_from (last : cell) (cs : list cell) : list cell :=
  match cs with
  | [] => []
  | c :: cs' =>
      if isna c then last :: ffill_from last cs' else c :: ffill_from c cs'
  end.

Definition ffill (cs : list cell) : list cell := ffill_from NaN cs.

Definition bfill (cs : list cell) : list cell := rev (ffill (rev cs)).

(** [Series.clip(lower, upper)]; a missing bound does not clip. *)
Definition clip (lower upper : option Q) (c : cell) : cell :=
  match c with
  | Num q =>
      let q1 := match lower with
                | Some lo => if Py.Qlt_bool q lo then lo else q
                | None => q
                end in
      Num (match upper with
           | Some hi => if Py.Qlt_bool hi q1 then hi else q1
           | None => q1
           end)
  | _ => c
  end.

(** [astype(str)] of one value.  Text columns hold text, booleans or
    missing values; the decimal rendering of a number or an instant is not
    modelled and is left empty, and the one missing value [NaN] is
    rendered as pandas renders a float NaN (a [None] object would give
    "None"). *)
Definition astype_str (c : cell) : string :=
  match c with
  | Str s => s
  | NaN => "nan"
  | Bool true => "True"
  | Bool false => "False"
  | Num _ | Timestamp _ => ""
  end.

Definition is_integral (q : Q) : bool := Qeq_bool (inject_Z (Qfloor q)) q.

(** No number of the series has a fractional part. *)
Definition whole (series : list cell) : bool :=
  forallb (fun c => match c with Num q => is_integral q | _ => true end) series.

(** The dtype that pandas gives the values of an object column once
    [fillna] has filled it (it converts the objects "softly"): booleans
    only give [bool], numbers only [float64] (a cell does not tell an
    [int] object from a [float]), timestamps only [datetime64]; anything
    else, text above all, stays [object]. *)
Definition infer_objects (series : list cell) : dtype :=
  match series with
  | [] => object
  | _ =>
      if forallb (fun c => match c with Bool _ => true | _ => false end) series
      then boolean
      else if forallb (fun c => match c with Num _ => true | _ => false end) series
      then float64
      else if forallb (fun c => match c with Timestamp _ => true | _ => false end) series
      then datetime64
      else object
  end.

(** The elements of [set(names)], each once. *)
Fixpoint unique_names (names : list string) : list string :=
  match names with
  | [] => []
  | n :: names' => n :: filter (fun m => negb (String.eqb n m)) (unique_names names')
  end.

(** [select_dtypes(include=kinds).columns] *)
Definition select_dtypes (include : dtype -> bool) (df : DataFrame) : list string :=
  map fst (filter (fun c => include (snd c)) (columns df)).

End Pandas.

(** ** [modules/duplicates.py] *)

Module duplicates.

Record subset_info : Type := {
  columns_checked : list string;
  subset_duplicate_count : Z;
  note : string
}.

(** The report; [duplicate_groups] (the five largest groups with sample
    indices) is left out.  [subset_duplicates] is [None] for the empty
    dict. *)
Record report : Type := {
  duplicate_count : option Z;
  duplicate_percent : option Q;
  total_rows : Z;
  unique_rows : Z;
  severity : option string;
  subset_duplicates : option subset_info;
  suggestions : list string
}.

Definition get_severity (pct : Q) : string :=
  if Qeq_bool pct 0 then "None"
  else if Py.Qlt_bool pct 1 then "Low"
  else if Py.Qlt_bool pct 5 then "Medium"
  else "High".

Definition important_cols (df : Pandas.DataFrame) : list string :=
  filter (fun col => negb (Py.contains "id" (Py.lower col))
                     && negb (Py.contains "index" (Py.lower col)))
         (Pandas.column_names df).

(** [df.duplicated(subset=important_cols, keep=False).sum()] *)
Definition subset_dup_count (df : Pandas.DataFrame) : Z :=
  Py.count_true (Pandas.duplicated_subset_keep_false df (important_cols df)).

Definition analyze_duplicates (df : Pandas.DataFrame) : report :=
  let total_rows := Pandas.len df in
  let duplicate_count := Py.count_true (Pandas.duplicated df) in
  let duplicate_percent :=
    if (0 <? total_rows)%Z
    then (inject_Z duplicate_count / inject_Z total_rows * 100)%Q
    else 0%Q in
  let subset_duplicates :=
    if (0 <? Py.len (important_cols df))%Z then
      if (duplicate_count <? subset_dup_count df)%Z then
        Some {| columns_checked := important_cols df;
                subset_duplicate_count := subset_dup_count df;
                note := "More duplicates found when ignoring ID columns" |}
      else None
    else None in
  let severity := get_severity duplicate_percent in
  let suggestions :=
    (if (duplicate_count =? 0)%Z then
       ["No duplicate rows detected. Dataset is clean."]
     else if Py.Qlt_bool duplicate_percent 1 then
       ["Very few duplicates. Safe to remove using drop_duplicates()"]
     else if Py.Qlt_bool duplicate_percent 5 then
       ["Moderate duplicates found. Review if data represents transactions or events."]
     else
       ["High duplicate rate detected. Investigate data collection process.";
        "Check if duplicates are legitimate (e.g., repeated measurements) or errors."])
    ++ (match subset_duplicates with
        | Some _ => ["Found more duplicates when ignoring ID columns. Consider subset-based deduplication."]
        | None => []
        end) in
  {| duplicate_count := Some duplicate_count;
     duplicate_percent := Some (Py.round2 duplicate_percent);
     total_rows := total_rows;
     unique_rows := (total_rows - duplicate_count)%Z;
     severity := Some severity;
     subset_duplicates := subset_duplicates;
     suggestions := suggestions |}.

End duplicates.

(** ** The reports that the scorer and the cleaning stage read *)

Module missing_values.

Record detail : Type := {
  count : Z;
  percentage : option Q
}.

Record report : Type := {
  details : option (Py.dict detail)
}.

End missing_values.

Module outliers.

Record report : Type := {
  numeric_columns : option (list string);
  total_outliers : option Z
}.

End outliers.

Module data_types.

Record report : Type := {
  possible_date_columns : option (list string);
  float_int_candidates : option (list string)
}.

End data_types.

(** ** [modules/inconsistencies.py] *)

Module inconsistencies.

Record strip_info : Type := {
  strip_count : Z;
  strip_percentage : Q;
  strip_examples : list string
}.

Record case_info : Type := {
  unique_original : Z;
  unique_normalized : Z;
  potential_duplicates : Z
}.

Record special_info : Type := {
  special_count : Z;
  special_percentage : Q;
  special_examples : list string
}.

Record mixed_info : Type := {
  mixed_count : Z;
  mixed_percentage : Q
}.

(** The [examples] of the rare categories are left out. *)
Record rare_info : Type := {
  rare_count : Z;
  total_unique : Z;
  percentage_rare : Q
}.

(** [std_length], a square root, is left out. *)
Record format_info : Type := {
  min_length : Z;
  max_length : Z;
  mean_length : Q
}.

(** ["summary"] is a sentence when there is no categorical column and a
    dict otherwise. *)
Inductive summary_t : Type :=
| NoCategorical (text : string)
| Summary (total_categorical_columns columns_with_issues : Z) (severity : string).

(** ["inconsistent_formats"] is absent from the early return. *)
Record report : Type := {
  summary : summary_t;
  strip_issues : option (Py.dict strip_info);
  case_issues : option (Py.dict case_info);
  special_char_issues : option (Py.dict special_info);
  mixed_alphanumeric : Py.dict mixed_info;
  rare_categories : Py.dict rare_info;
  inconsistent_formats : option (Py.dict format_info);
  suggestions : Py.dict (list string)
}.

(** The six dicts that the loop over the columns fills. *)
Record findings : Type := {
  f_strip : Py.dict strip_info;
  f_case : Py.dict case_info;
  f_special : Py.dict special_info;
  f_mixed : Py.dict mixed_info;
  f_rare : Py.dict rare_info;
  f_formats : Py.dict format_info
}.

Definition no_findings : findings :=
  {| f_strip := []; f_case := []; f_special := []; f_mixed := [];
     f_rare := []; f_formats := [] |}.

(** A match of [[^a-zA-Z0-9\s]]. *)
Definition is_special (c : ascii) : bool :=
  negb (Py.isalpha c || Py.isdigit c || Py.isspace c).

Definition count_if {A : Type} (p : A -> bool) (l : list A) : Z :=
  Py.len (filter p l).

Definition percent_of (k n : Z) : Q :=
  Py.round2 (inject_Z k / inject_Z n * 100)%Q.

Definition nunique_str (l : list string) : Z :=
  Z.of_nat (Pandas.nunique (map Pandas.Str l)).

(** [lengths.std() > lengths.mean() * 0.5], decided on the squares: both
    sides are non-negative, and the sample variance of fewer than two
    values is [NaN], which compares false. *)
Definition std_exceeds_half_mean (lengths : list Q) : bool :=
  let n := List.length lengths in
  if (n <? 2)%nat then false
  else
    let m := (Pandas.Qsum lengths / inject_Z (Z.of_nat n))%Q in
    let var := (Pandas.Qsum (map (fun x => (x - m) * (x - m)) lengths)
                / inject_Z (Z.of_nat (n - 1)))%Q in
    Py.Qlt_bool ((m * (1 # 2)) * (m * (1 # 2))) var.

(** The body of [for col in categorical_cols]. *)
Definition scan_column (df : Pandas.DataFrame) (st : findings) (col : string)
  : findings :=
  let col_series := map Pandas.astype_str (Pandas.dropna (Pandas.get_col df col)) in
  let n := Py.len col_series in
  if (n =? 0)%Z then st
  else
    let differs := fun s => negb (String.eqb s (Py.strip s)) in
    let n_strip := count_if differs col_series in
    let strip' :=
      if (0 <? n_strip)%Z then
        Py.dict_set col {| strip_count := n_strip;
                           strip_percentage := percent_of n_strip n;
                           strip_examples := firstn 3 (filter differs col_series) |}
                    (f_strip st)
      else f_strip st in
    let n_original := nunique_str col_series in
    let n_lower := nunique_str (map Py.lower col_series) in
    let case' :=
      if (n_lower <? n_original)%Z then
        Py.dict_set col {| unique_original := n_original;
                           unique_normalized := n_lower;
                           potential_duplicates := (n_original - n_lower)%Z |}
                    (f_case st)
      else f_case st in
    let has_special := Py.any_char is_special in
    let n_special := count_if has_special col_series in
    let special' :=
      if (0 <? n_special)%Z then
        Py.dict_set col {| special_count := n_special;
                           special_percentage := percent_of n_special n;
                           special_examples := firstn 3 (filter has_special col_series) |}
                    (f_special st)
      else f_special st in
    let n_mixed :=
      count_if (fun s => Py.any_char Py.isalpha s && Py.any_char Py.isdigit s)
               col_series in
    let mixed' :=
      if (0 <? n_mixed)%Z && Py.Qlt_bool (inject_Z n_mixed) (inject_Z n * (9 # 10))
      then Py.dict_set col {| mixed_count := n_mixed;
                              mixed_percentage := percent_of n_mixed n |}
                       (f_mixed st)
      else f_mixed st in
    let value_counts := Pandas.value_counts (map Pandas.Str col_series) in
    let rare := filter (fun p => (snd p <? 5)%nat) value_counts in
    let rare' :=
      if (0 <? Py.len rare)%Z
         && Py.Qlt_bool (inject_Z (Py.len rare))
                        (inject_Z (Py.len value_counts) * (1 # 2))
      then Py.dict_set col {| rare_count := Py.len rare;
                              total_unique := Py.len value_counts;
                              percentage_rare :=
                                percent_of (Py.len rare) (Py.len value_counts) |}
                       (f_rare st)
      else f_rare st in
    let lengths := map (fun s => Z.of_nat (String.length s)) col_series in
    let qlengths := map inject_Z lengths in
    let formats' :=
      if std_exceeds_half_mean qlengths && (10 <? Py.len value_counts)%Z
      then Py.dict_set col
             {| min_length := fold_right Z.min (hd 0%Z lengths) lengths;
                max_length := fold_right Z.max (hd 0%Z lengths) lengths;
                mean_length := Py.round2 (Pandas.Qsum qlengths / inject_Z n) |}
             (f_formats st)
      else f_formats st in
    {| f_strip := strip'; f_case := case'; f_special := special';
       f_mixed := mixed'; f_rare := rare'; f_formats := formats' |}.

(** [suggestions[col] = suggestions.get(col, []); suggestions[col].append(msg)] *)
Definition suggest {V : Type} (msg : string) (found : Py.dict V)
    (sugg : Py.dict (list string)) : Py.dict (list string) :=
  fold_left
    (fun acc col => Py.dict_set col (Py.get (Py.dict_get col acc) [] ++ [msg]) acc)
    (map fst found) sugg.

Definition severity_of (total_issues : Z) : string :=
  if (total_issues =? 0)%Z then "None"
  else if (total_issues <=? 2)%Z then "Low"
  else if (total_issues <=? 5)%Z then "Medium"
  else "High".

Definition is_categorical (d : Pandas.dtype) : bool :=
  match d with Pandas.object | Pandas.category => true | _ => false end.

Definition analyze_inconsistencies (df : Pandas.DataFrame) : report :=
  let categorical_cols := Pandas.select_dtypes is_categorical df in
  if (Py.len categorical_cols =? 0)%Z then
    {| summary := NoCategorical "No categorical columns found";
       strip_issues := Some [];
       case_issues := Some [];
       special_char_issues := Some [];
       mixed_alphanumeric := [];
       rare_categories := [];
       inconsistent_formats := None;
       suggestions := [] |}
  else
    let st := fold_left (scan_column df) categorical_cols no_findings in
    let sugg :=
      suggest "Inconsistent value lengths detected. Standardize format if possible"
        (f_formats st)
      (suggest "Group rare categories into 'Other' or investigate data quality"
        (f_rare st)
      (suggest "Mixed alphanumeric values detected. Validate format consistency"
        (f_mixed st)
      (suggest "Review special characters. Remove if not needed for business logic"
        (f_special st)
      (suggest "Normalize text case to lowercase or title case"
        (f_case st)
      (suggest "Remove leading/trailing whitespace with str.strip()"
        (f_strip st) []))))) in
    let total_issues :=
      (Py.len (f_strip st) + Py.len (f_case st) + Py.len (f_special st)
       + Py.len (f_mixed st) + Py.len (f_rare st))%Z in
    {| summary := Summary (Py.len categorical_cols) total_issues
                          (severity_of total_issues);
       strip_issues := Some (f_strip st);
       case_issues := Some (f_case st);
       special_char_issues := Some (f_special st);
       mixed_alphanumeric := f_mixed st;
       rare_categories := f_rare st;
       inconsistent_formats := Some (f_formats st);
       suggestions := sugg |}.

End inconsistencies.

(** ** float64 results that leave the finite range *)

Module Float64.

(** The result of an operation on float64 values.  A finite value is taken
    as the exact rational: rounding to 53 bits is not modelled, leaving
    the finite range is.  There is one zero. *)
Inductive float : Type :=
| Finite (q : Q)
| Inf (negative : bool)
| NaN.

(** The largest float64, [(2 - 2^-52) * 2^1023]. *)
Definition max : Q := inject_Z (2 ^ 1024 - 2 ^ 971).

(** An exact result as a float64: beyond [max] it is an infinity. *)
Definition round (q : Q) : float :=
  if Py.Qlt_bool max q then Inf false
  else if Py.Qlt_bool q (- max) then Inf true
  else Finite q.

Definition add (x y : float) : float :=
  match x, y with
  | NaN, _ | _, NaN => NaN
  | Inf a, Inf b => if Bool.eqb a b then Inf a else NaN
  | Inf a, Finite _ | Finite _, Inf a => Inf a
  | Finite p, Finite q => round (p + q)
  end.

Definition opp (x : float) : float :=
  match x with
  | Finite q => Finite (- q)
  | Inf a => Inf (negb a)
  | NaN => NaN
  end.

Definition sub (x y : float) : float := add x (opp y).

Definition mul (x y : float) : float :=
  match x, y with
  | NaN, _ | _, NaN => NaN
  | Inf a, Inf b => Inf (xorb a b)
  | Inf a, Finite q | Finite q, Inf a =>
      if Qeq_bool q 0 then NaN else Inf (xorb a (Py.Qlt_bool q 0))
  | Finite p, Finite q => round (p * q)
  end.

(** Division of NumPy scalars: dividing by zero gives an infinity or
    NaN, not an exception. *)
Definition div (x y : float) : float :=
  match x, y with
  | NaN, _ | _, NaN => NaN
  | Inf _, Inf _ => NaN
  | Inf a, Finite q => Inf (xorb a (Py.Qlt_bool q 0))
  | Finite _, Inf _ => Finite 0
  | Finite p, Finite q =>
      if Qeq_bool q 0
      then if Qeq_bool p 0 then NaN else Inf (Py.Qlt_bool p 0)
      else round (p / q)
  end.

Definition abs (x : float) : float :=
  match x with
  | Finite q => Finite (Qabs q)
  | Inf _ => Inf false
  | NaN => NaN
  end.

(** [x < y]; false when either side is NaN. *)
Definition ltb (x y : float) : bool :=
  match x, y with
  | NaN, _ | _, NaN => false
  | Finite p, Finite q => Py.Qlt_bool p q
  | Finite _, Inf b => negb b
  | Inf a, Finite _ => a
  | Inf a, Inf b => a && negb b
  end.

(** [x == y]; false when either side is NaN. *)
Definition eqb (x y : float) : bool :=
  match x, y with
  | Finite p, Finite q => Qeq_bool p q
  | Inf a, Inf b => Bool.eqb a b
  | _, _ => false
  end.

(** [sum] of an array, taken from the left. *)
Definition sum (xs : list float) : float := fold_left add xs (Finite 0).

(** [round(x, 2)] *)
Definition round2 (x : float) : float :=
  match x with
  | Finite q => Finite (Py.round2 q)
  | _ => x
  end.

End Float64.

(** ** [modules/drift.py] *)

Module drift.

(** *** The two scipy statistics *)

(** The empirical distribution function, [searchsorted(.., 'right') / size]. *)
Definition cdf (xs : list Q) (t : Q) : Q :=
  (inject_Z (Py.len (filter (fun x => Qle_bool x t) xs))
   / inject_Z (Py.len xs))%Q.

(** [sum(|u_cdf - v_cdf| * deltas)] over the sorted union of the samples;
    [deltas] are the gaps [np.diff(all_values)], which can overflow. *)
Fixpoint cdf_distance (u v : list Q) (all_values : list Q) : Float64.float :=
  match all_values with
  | a :: (b :: _) as rest =>
      Float64.add
        (Float64.mul (Float64.Finite (Qabs (cdf u a - cdf v a)))
                     (Float64.sub (Float64.Finite b) (Float64.Finite a)))
        (cdf_distance u v rest)
  | _ => Float64.Finite 0
  end.

Definition wasserstein_distance (u v : list Q) : Float64.float :=
  cdf_distance u v (Pandas.sort (u ++ v)).

Definition Qclip (x lo hi : Q) : Q :=
  if Py.Qlt_bool x lo then lo else if Py.Qlt_bool hi x then hi else x.

Definition Qmax (a b : Q) : Q := if Qle_bool a b then b else a.

(** The two-sided statistic of [ks_2samp]; it is made of counts and
    cannot overflow. *)
Definition ks_statistic (data1 data2 : list Q) : Q :=
  let data_all := (data1 ++ data2)%list in
  let cddiffs := map (fun t => (cdf data1 t - cdf data2 t)%Q) data_all in
  match cddiffs with
  | [] => 0%Q
  | d0 :: _ =>
      let minS := Qclip (- Pandas.Qmin_list d0 cddiffs) 0 1 in
      let maxS := Pandas.Qmax_list d0 cddiffs in
      Qmax minS maxS
  end.

(** [Series.mean()]: the sum over the count. *)
Definition mean (xs : list Q) : Float64.float :=
  Float64.div (Float64.sum (map Float64.Finite xs))
              (Float64.Finite (inject_Z (Py.len xs))).

(** [Series.median()]: the middle value, or the mean of the two middle
    values. *)
Definition median (xs : list Q) : Float64.float :=
  let sorted := Pandas.sort xs in
  let n := List.length sorted in
  match sorted with
  | [] => Float64.NaN
  | x0 :: _ =>
      if Nat.even n
      then Float64.div
             (Float64.add (Float64.Finite (nth (n / 2 - 1) sorted x0))
                          (Float64.Finite (nth (n / 2) sorted x0)))
             (Float64.Finite 2)
      else Float64.Finite (nth (n / 2) sorted x0)
  end.

Section KolmogorovSmirnov.

(** The tail probability of the two-sample statistic for sample sizes
    [n1], [n2] and a positive statistic, as scipy computes it. *)
Variable ks_sf : nat -> nat -> Q -> Q.

(** scipy returns the probability 1 at once when the statistic is 0. *)
Definition ks_pvalue (n1 n2 : nat) (d : Q) : Q :=
  if Qeq_bool d 0 then 1%Q else ks_sf n1 n2 d.

Definition ks_2samp (data1 data2 : list Q) : Q * Q :=
  let d := ks_statistic data1 data2 in
  (d, ks_pvalue (List.length data1) (List.length data2) d).

(** One entry of ["drift_details"]; the three standard-deviation
    fields, square roots, are left out. *)
Record drift_info : Type := {
  mean_old : Float64.float;
  mean_new : Float64.float;
  mean_drift : Float64.float;
  mean_drift_percent : Float64.float;
  median_old : Float64.float;
  median_new : Float64.float;
  median_drift : Float64.float;
  range_old : Q * Q;
  range_new : Q * Q;
  wasserstein : Float64.float;
  normalized_drift : Float64.float;
  ks_stat : Q;
  ks_pval : Q;
  distribution_changed : bool;
  severity : string
}.

(** The categorical part of the report (population stability index, a
    logarithm) and the suggestions are left out. *)
Record report : Type := {
  error : option string;
  columns_checked : list string;
  drift_details : Py.dict drift_info;
  overall_severity : option string;
  high_drift_columns : list string
}.

Definition id_patterns : list string := ["id"; "key"; "index"; "number"; "code"].

Definition is_identifier (col : string) : bool :=
  existsb (fun pattern => Py.contains pattern (Py.lower col)) id_patterns.

(** Every comparison with NaN is false, which leaves ["High"]. *)
Definition classify_severity (val : Float64.float) : string :=
  if Float64.ltb val (Float64.Finite (1 # 10)) then "None"
  else if Float64.ltb val (Float64.Finite (3 # 10)) then "Low"
  else if Float64.ltb val (Float64.Finite (7 # 10)) then "Medium"
  else "High".

(** The columns that are numeric on both sides and not identifiers.
    Python builds the list from a set; the order taken here is the one
    of the old frame. *)
Definition numeric_cols (df_old df_new : Pandas.DataFrame) : list string :=
  let old := Pandas.select_dtypes Pandas.is_numeric df_old in
  let new := Pandas.select_dtypes Pandas.is_numeric df_new in
  filter (fun col => negb (is_identifier col))
         (filter (fun col => existsb (String.eqb col) new) (Pandas.unique_names old)).

(** What is computed for one column once both samples are long enough. *)
Definition column_drift (old_data new_data : list Q) : option drift_info :=
  match old_data, new_data with
  | o0 :: _, n0 :: _ =>
      let mean_old := mean old_data in
      let mean_new := mean new_data in
      let mean_drift := Float64.abs (Float64.sub mean_new mean_old) in
      let mean_drift_pct :=
        if negb (Float64.eqb mean_old (Float64.Finite 0))
        then Float64.mul (Float64.div mean_drift (Float64.abs mean_old))
                         (Float64.Finite 100)
        else Float64.Finite 0 in
      let median_old := median old_data in
      let median_new := median new_data in
      let median_drift := Float64.abs (Float64.sub median_new median_old) in
      let min_old := Pandas.Qmin_list o0 old_data in
      let max_old := Pandas.Qmax_list o0 old_data in
      let min_new := Pandas.Qmin_list n0 new_data in
      let max_new := Pandas.Qmax_list n0 new_data in
      let wasserstein_dist := wasserstein_distance old_data new_data in
      let '(ks_stat, ks_pvalue) := ks_2samp old_data new_data in
      let range := Float64.sub (Float64.Finite max_old) (Float64.Finite min_old) in
      let normalized_drift :=
        if Float64.ltb (Float64.Finite 0) range
        then Float64.div wasserstein_dist range else Float64.Finite 0 in
      Some {| mean_old := mean_old;
              mean_new := mean_new;
              mean_drift := mean_drift;
              mean_drift_percent := Float64.round2 mean_drift_pct;
              median_old := median_old;
              median_new := median_new;
              median_drift := median_drift;
              range_old := (min_old, max_old);
              range_new := (min_new, max_new);
              wasserstein := wasserstein_dist;
              normalized_drift := normalized_drift;
              ks_stat := ks_stat;
              ks_pval := ks_pvalue;
              distribution_changed := Py.Qlt_bool ks_pvalue (5 # 100);
              severity := classify_severity normalized_drift |}
  | _, _ => None
  end.

(** The body of [for col in numeric_cols], with its [try]: a column
    that cannot be reduced as numbers is skipped. *)
Definition check_column (df_old df_new : Pandas.DataFrame)
    (drift_details : Py.dict drift_info) (col : string) : Py.dict drift_info :=
  match Pandas.numeric_values (Pandas.get_col df_old col),
        Pandas.numeric_values (Pandas.get_col df_new col) with
  | Some old_data, Some new_data =>
      if (List.length old_data <? 10)%nat || (List.length new_data <? 10)%nat
      then drift_details
      else match column_drift old_data new_data with
           | Some info => Py.dict_set col info drift_details
           | None => drift_details
           end
  | _, _ => drift_details
  end.

Definition analyze_drift (df_old df_new : Pandas.DataFrame) : report :=
  let cols := numeric_cols df_old df_new in
  if (Py.len cols =? 0)%Z then
    {| error := Some "No common numeric columns for drift analysis";
       columns_checked := [];
       drift_details := [];
       overall_severity := None;
       high_drift_columns := [] |}
  else
    let drift_details := fold_left (check_column df_old df_new) cols [] in
    let high_drift_cols :=
      map fst (filter (fun e => String.eqb (severity (snd e)) "High") drift_details) in
    let overall_severity :=
      if Py.Qlt_bool (inject_Z (Py.len cols) * (3 # 10))
                     (inject_Z (Py.len high_drift_cols))
      then "High"
      else if (0 <? Py.len high_drift_cols)%Z then "Medium"
      else "Low" in
    {| error := None;
       columns_checked := cols;
       drift_details := drift_details;
       overall_severity := Some overall_severity;
       high_drift_columns := high_drift_cols |}.

End KolmogorovSmirnov.

End drift.

(** ** [modules/cleaning.py] *)

Module cleaning.

Definition flag_duplicates (df : Pandas.DataFrame) : Pandas.DataFrame :=
  Pandas.assign df "_is_duplicate" Pandas.boolean
                (map Pandas.Bool (Pandas.duplicated df)).

(** [duplicate_report] is [None] when it is not a dict. *)
Definition handle_duplicates (df : Pandas.DataFrame)
    (duplicate_report : option duplicates.report) (strategy : string)
  : Pandas.DataFrame :=
  match duplicate_report with
  | None => flag_duplicates df
  | Some r =>
      match duplicates.duplicate_count r with
      | None => flag_duplicates df
      | Some _ =>
          let severity := Py.get (duplicates.severity r) "Low" in
          if String.eqb strategy "keep" then df
          else if String.eqb strategy "flag" then flag_duplicates df
          else if String.eqb strategy "remove" then
            Pandas.reset_index (Pandas.drop_duplicates df)
          else if String.eqb strategy "auto" then
            if existsb (String.eqb severity) ["High"; "Medium"]
            then Pandas.reset_index (Pandas.drop_duplicates df)
            else flag_duplicates df
          else df
      end
  end.

(** The value that fills a numeric column; [None] is a [NaN] fill value,
    which fills nothing. *)
Definition numeric_fill_value (strategy : string) (xs : list Q) : option Q :=
  if String.eqb strategy "median" then Pandas.median xs
  else if String.eqb strategy "mean" then Pandas.mean xs
  else if String.eqb strategy "zero" then Some 0%Q
  else Pandas.median xs.

(** The body of [for col in cleaned.columns]; an exception inside the
    [try] leaves the frame as it is.  [fillna] raises on a nullable
    [Int64] column when the fill value has a fractional part, and on a
    categorical column when the value is not one of its categories; the
    column that is stored is the one [fillna] returns, which for an
    object column has the dtype of its values. *)
Definition impute_column (strategy : string) (cleaned : Pandas.DataFrame)
    (col : string) : Pandas.DataFrame :=
  let series := Pandas.get_col cleaned col in
  let dt := Pandas.col_dtype cleaned col in
  if (Py.count_true (map Pandas.isna series) =? 0)%Z then cleaned
  else if Pandas.is_numeric dt then
    match Pandas.numeric_values series with
    | Some xs =>
        match numeric_fill_value strategy xs with
        | Some fill_value =>
            if Pandas.dtype_eqb dt Pandas.Int64
               && negb (Pandas.is_integral fill_value)
            then cleaned
            else Pandas.assign cleaned col dt
                   (Pandas.fillna (Pandas.Num fill_value) series)
        | None => cleaned
        end
    | None => cleaned
    end
  else if Pandas.dtype_eqb dt Pandas.datetime64 then
    Pandas.assign cleaned col dt (Pandas.bfill (Pandas.ffill series))
  else
    match Pandas.mode0 series with
    | Some fill_value =>
        let filled := Pandas.fillna fill_value series in
        Pandas.assign cleaned col
          (if Pandas.dtype_eqb dt Pandas.object
           then Pandas.infer_objects filled else dt)
          filled
    | None =>
        if Pandas.dtype_eqb dt Pandas.category then cleaned
        else
          let filled := Pandas.fillna (Pandas.Str "Unknown") series in
          Pandas.assign cleaned col
            (if Pandas.dtype_eqb dt Pandas.object
             then Pandas.infer_objects filled else dt)
            filled
    end.

Definition impute_missing_values (df : Pandas.DataFrame) (strategy : string)
  : Pandas.DataFrame :=
  let cleaned := Pandas.copy df in
  fold_left (impute_column strategy) (Pandas.column_names cleaned) cleaned.

Section DateParser.

(** [pd.to_datetime] on one text value: the instant it denotes, or
    [None] when it does not parse. *)
Variable to_datetime : string -> option Z.

Definition coerce_datetime (c : Pandas.cell) : Pandas.cell :=
  match c with
  | Pandas.Str s =>
      match to_datetime s with
      | Some t => Pandas.Timestamp t
      | None => Pandas.NaN
      end
  | Pandas.Timestamp t => Pandas.Timestamp t
  | _ => Pandas.NaN
  end.

(** [astype('Int64')] raises unless every value is a whole number. *)
Definition astype_Int64 (series : list Pandas.cell) : option (list Pandas.cell) :=
  match Pandas.numeric_values series with
  | Some xs => if forallb Pandas.is_integral xs then Some series else None
  | None => None
  end.

Definition fix_data_types (df : Pandas.DataFrame)
    (dtype_report : option data_types.report) : Pandas.DataFrame :=
  match dtype_report with
  | None => df
  | Some r =>
      let cleaned := Pandas.copy df in
      let date_cols := Py.get (data_types.possible_date_columns r) [] in
      let cleaned :=
        fold_left
          (fun cleaned col =>
             if Pandas.has_column cleaned col
             then Pandas.assign cleaned col Pandas.datetime64
                    (map coerce_datetime (Pandas.get_col cleaned col))
             else cleaned)
          date_cols cleaned in
      let float_int_cols := Py.get (data_types.float_int_candidates r) [] in
      fold_left
        (fun cleaned col =>
           if Pandas.has_column cleaned col
           then match astype_Int64 (Pandas.get_col cleaned col) with
                | Some series => Pandas.assign cleaned col Pandas.Int64 series
                | None => cleaned
                end
           else cleaned)
        float_int_cols cleaned
  end.

End DateParser.

(** [re.sub(r'\s+', ' ', x)] *)
Fixpoint collapse_spaces (in_run : bool) (s : string) : string :=
  match s with
  | EmptyString => EmptyString
  | String c s' =>
      if Py.isspace c
      then if in_run then collapse_spaces true s'
           else String " "%char (collapse_spaces true s')
      else String c (collapse_spaces false s')
  end.

(** [re.sub(r'[^a-zA-Z0-9\s]', '', x)] *)
Definition drop_special (s : string) : string :=
  Py.filter_chars (fun c => negb (inconsistencies.is_special c)) s.

Definition normalize_value (aggressive : bool) (c : Pandas.cell) : Pandas.cell :=
  let x := Py.strip (Pandas.astype_str c) in
  Pandas.Str (if aggressive then drop_special (Py.lower x)
              else collapse_spaces false x).

Definition is_object (d : Pandas.dtype) : bool :=
  match d with Pandas.object => true | _ => false end.

Definition normalize_text_columns (df : Pandas.DataFrame) (aggressive : bool)
  : Pandas.DataFrame :=
  let cleaned := Pandas.copy df in
  let text_cols := Pandas.select_dtypes is_object cleaned in
  fold_left
    (fun cleaned col =>
       Pandas.assign cleaned col Pandas.object
         (map (normalize_value aggressive) (Pandas.get_col cleaned col)))
    text_cols cleaned.

(** [Q1 - 1.5 * IQR] and [Q3 + 1.5 * IQR].  The outer [None] is the
    exception that [quantile] raises on a column that is not numeric,
    the inner one the [NaN] bounds of a column without values.  The
    arithmetic is exact, as it is in float64 for values whose differences
    stay within its range. *)
Definition iqr_bounds (series : list Pandas.cell) : option (option (Q * Q)) :=
  match Pandas.numeric_values series with
  | None => None
  | Some xs =>
      Some match Pandas.quantile (1 # 4) xs, Pandas.quantile (3 # 4) xs with
           | Some Q1, Some Q3 =>
               let IQR := (Q3 - Q1)%Q in
               Some ((Q1 - (3 # 2) * IQR)%Q, (Q3 + (3 # 2) * IQR)%Q)
           | _, _ => None
           end
  end.

(** [(x < lower_bound) | (x > upper_bound)]; a comparison with a
    missing value is false. *)
Definition outside (bounds : option (Q * Q)) (c : Pandas.cell) : bool :=
  match bounds, c with
  | Some (lo, hi), Pandas.Num q => Py.Qlt_bool q lo || Py.Qlt_bool hi q
  | _, _ => false
  end.

(** [(x >= lower_bound) & (x <= upper_bound)] *)
Definition inside (bounds : option (Q * Q)) (c : Pandas.cell) : bool :=
  match bounds, c with
  | Some (lo, hi), Pandas.Num q => Qle_bool lo q && Qle_bool q hi
  | _, _ => false
  end.

(** The body of [for col in numeric_cols].  [clip] puts a bound in the
    place of a value: where the bound has a fractional part, a nullable
    [Int64] column raises, which the bare [except] turns into a skipped
    column, and an [int64] column comes back as [float64]. *)
Definition handle_outlier_column (method : string) (cleaned : Pandas.DataFrame)
    (col : string) : Pandas.DataFrame :=
  if negb (Pandas.has_column cleaned col) then cleaned
  else
    let series := Pandas.get_col cleaned col in
    if String.eqb method "clip" then
      match iqr_bounds series with
      | Some bounds =>
          let dt := Pandas.col_dtype cleaned col in
          let clipped :=
            map (Pandas.clip (option_map fst bounds) (option_map snd bounds)) series in
          if Pandas.dtype_eqb dt Pandas.Int64 && negb (Pandas.whole clipped)
          then cleaned
          else Pandas.assign cleaned col
                 (if Pandas.dtype_eqb dt Pandas.int64 && negb (Pandas.whole clipped)
                  then Pandas.float64 else dt)
                 clipped
      | None => cleaned
      end
    else if String.eqb method "flag" then
      match iqr_bounds series with
      | Some bounds =>
          Pandas.assign cleaned (col ++ "_is_outlier") Pandas.boolean
            (map (fun c => Pandas.Bool (outside bounds c)) series)
      | None => cleaned
      end
    else if String.eqb method "remove" then
      match iqr_bounds series with
      | Some bounds =>
          {| Pandas.columns := Pandas.columns cleaned;
             Pandas.rows := Pandas.mask_filter (map (inside bounds) series)
                                               (Pandas.rows cleaned) |}
      | None => cleaned
      end
    else cleaned.

Definition handle_outliers (df : Pandas.DataFrame)
    (outlier_report : option outliers.report) (method : string)
  : Pandas.DataFrame :=
  match outlier_report with
  | None => df
  | Some r =>
      let cleaned := Pandas.copy df in
      let numeric_cols := Py.get (outliers.numeric_columns r) [] in
      Pandas.reset_index
        (fold_left (handle_outlier_column method) numeric_cols cleaned)
  end.

Definition remove_constant_columns (df : Pandas.DataFrame) : Pandas.DataFrame :=
  let cols_to_drop :=
    filter (fun col => (Pandas.nunique (Pandas.get_col df col) =? 1)%nat)
           (Pandas.column_names df) in
  match cols_to_drop with
  | [] => df
  | _ =>
      let keep := map (fun col => negb (existsb (String.eqb col) cols_to_drop))
                      (Pandas.column_names df) in
      {| Pandas.columns := Pandas.mask_filter keep (Pandas.columns df);
         Pandas.rows := map (Pandas.mask_filter keep) (Pandas.rows df) |}
  end.

(** [to_datetime] is pandas' date parser, see [fix_data_types].
    [if report:] is written as a test for [None]: an empty dict, which is
    false as well, makes the skipped step return the frame unchanged. *)
Definition clean_dataset (to_datetime : string -> option Z)
    (df : Pandas.DataFrame)
    (dtype_report : option data_types.report)
    (inconsistency_report : option inconsistencies.report)
    (outlier_report : option outliers.report)
    (duplicate_report : option duplicates.report)
    (duplicate_strategy missing_strategy outlier_method : string)
    (normalize_text remove_constants : bool) : Pandas.DataFrame :=
  let cleaned_df := Pandas.copy df in
  let cleaned_df := impute_missing_values cleaned_df missing_strategy in
  let cleaned_df := handle_duplicates cleaned_df duplicate_report duplicate_strategy in
  let cleaned_df :=
    match dtype_report with
    | Some _ => fix_data_types to_datetime cleaned_df dtype_report
    | None => cleaned_df
    end in
  let cleaned_df :=
    if normalize_text then normalize_text_columns cleaned_df false else cleaned_df in
  let cleaned_df :=
    match outlier_report with
    | Some _ => handle_outliers cleaned_df outlier_report outlier_method
    | None => cleaned_df
    end in
  let cleaned_df :=
    if remove_constants then remove_constant_columns cleaned_df else cleaned_df in
  Pandas.reset_index cleaned_df.


End cleaning.

(** ** [calculate_quality_score] of [modules/run_pipeline.py] *)

Module run_pipeline.

Record breakdown_t : Type := {
  missing_data_impact : Z;
  duplicate_impact : Z;
  outlier_impact : Z;
  inconsistency_impact : Z
}.

Record quality_score : Type := {
  score : Z;
  grade : string;
  breakdown : breakdown_t
}.

(** One turn of [for col_data in missing_report.get("details", {}).values()]. *)
Definition add_missing_penalty (missing_penalty : Z) (col_data : missing_values.detail)
  : Z :=
  let pct := Py.get (missing_values.percentage col_data) 0%Q in
  if Py.Qlt_bool 20 pct then (missing_penalty + 10)%Z
  else if Py.Qlt_bool 5 pct then (missing_penalty + 5)%Z
  else if Py.Qlt_bool 0 pct then (missing_penalty + 2)%Z
  else missing_penalty.

Definition dict_len {V : Type} (o : option (Py.dict V)) : Z :=
  Py.len (Py.get o []).

Definition grade_of (score : Z) : string :=
  if (90 <=? score)%Z then "Excellent"
  else if (75 <=? score)%Z then "Good"
  else if (60 <=? score)%Z then "Fair"
  else if (40 <=? score)%Z then "Poor"
  else "Critical".

Definition calculate_quality_score
    (missing_report : missing_values.report)
    (duplicate_report : duplicates.report)
    (outlier_report : outliers.report)
    (inconsistency_report : inconsistencies.report) : quality_score :=
  let score := 100%Z in
  let missing_penalty :=
    fold_left add_missing_penalty
              (Py.values (Py.get (missing_values.details missing_report) [])) 0%Z in
  let score := (score - Z.min missing_penalty 30)%Z in
  let dup_pct := Py.get (duplicates.duplicate_percent duplicate_report) 0%Q in
  let score :=
    if Py.Qlt_bool 5 dup_pct then (score - 15)%Z
    else if Py.Qlt_bool 1 dup_pct then (score - 8)%Z
    else if Py.Qlt_bool 0 dup_pct then (score - 3)%Z
    else score in
  let total_outliers := Py.get (outliers.total_outliers outlier_report) 0%Z in
  let score :=
    if (100 <? total_outliers)%Z then (score - 10)%Z
    else if (50 <? total_outliers)%Z then (score - 5)%Z
    else score in
  let inconsistency_issues :=
    (dict_len (inconsistencies.strip_issues inconsistency_report)
     + dict_len (inconsistencies.case_issues inconsistency_report)
     + dict_len (inconsistencies.special_char_issues inconsistency_report))%Z in
  let score :=
    if (5 <? inconsistency_issues)%Z then (score - 15)%Z
    else if (2 <? inconsistency_issues)%Z then (score - 8)%Z
    else if (0 <? inconsistency_issues)%Z then (score - 4)%Z
    else score in
  let score := Z.max score 0 in
  {| score := score;
     grade := grade_of score;
     breakdown :=
       {| missing_data_impact := Z.min missing_penalty 30;
          duplicate_impact :=
            if Py.Qlt_bool 5 dup_pct then 15
            else if Py.Qlt_bool 1 dup_pct then 8
            else if Py.Qlt_bool 0 dup_pct then 3 else 0;
          outlier_impact :=
            if (100 <? total_outliers)%Z then 10
            else if (50 <? total_outliers)%Z then 5 else 0;
          inconsistency_impact :=
            if (5 <? inconsistency_issues)%Z then 15
            else if (2 <? inconsistency_issues)%Z then 8
            else if (0 <? inconsistency_issues)%Z then 4 else 0 |} |}.

End run_pipeline.

(** ** The scoring rule in the words of the specification

    Start at 100; subtract the missing-data penalty (10 per column above
    20% missing, 5 per column above 5%, 2 per column above 0%, at most 30 in
    total), the duplicate penalty, the outlier penalty and the inconsistency
    penalty; floor at 0; grade by bands. *)

Module quality_spec.

Definition count_columns (p : Q -> bool) (percentages : list Q) : Z :=
  Py.len (filter p percentages).

Definition missing_penalty (percentages : list Q) : Z :=
  Z.min
    (10 * count_columns (fun pct => Py.Qlt_bool 20 pct) percentages
     + 5 * count_columns (fun pct => Py.Qlt_bool 5 pct && Qle_bool pct 20) percentages
     + 2 * count_columns (fun pct => Py.Qlt_bool 0 pct && Qle_bool pct 5) percentages)
    30.

Definition duplicate_penalty (dup_pct : Q) : Z :=
  if Py.Qlt_bool 5 dup_pct then 15
  else if Py.Qlt_bool 1 dup_pct then 8
  else if Py.Qlt_bool 0 dup_pct then 3
  else 0.

Definition outlier_penalty (total_outliers : Z) : Z :=
  if (100 <? total_outliers)%Z then 10
  else if (50 <? total_outliers)%Z then 5
  else 0.

Definition inconsistency_penalty (issues : Z) : Z :=
  if (5 <? issues)%Z then 15
  else if (2 <? issues)%Z then 8
  else if (0 <? issues)%Z then 4
  else 0.

Definition score (percentages : list Q) (dup_pct : Q) (total_outliers issues : Z) : Z :=
  Z.max 0 (100 - (missing_penalty percentages + duplicate_penalty dup_pct
                  + outlier_penalty total_outliers + inconsistency_penalty issues)).

Definition grade (score : Z) : string :=
  if (90 <=? score)%Z then "Excellent"
  else if (75 <=? score)%Z then "Good"
  else if (60 <=? score)%Z then "Fair"
  else if (40 <=? score)%Z then "Poor"
  else "Critical".

End quality_spec.

(** ** What the scorer reads from the four reports *)

Module scorer_inputs.

(** The [percentage] of every entry of ["details"], 0 where it is absent. *)
Definition percentages (m : missing_values.report) : list Q :=
  map (fun col_data => Py.get (missing_values.percentage col_data) 0%Q)
      (Py.values (Py.get (missing_values.details m) [])).

Definition dup_pct (d : duplicates.report) : Q :=
  Py.get (duplicates.duplicate_percent d) 0%Q.

Definition total_outliers (o : outliers.report) : Z :=
  Py.get (outliers.total_outliers o) 0%Z.

(** The number of columns with a strip issue, plus those with a case
    issue, plus those with a special-character issue. *)
Definition issues (i : inconsistencies.report) : Z :=
  (run_pipeline.dict_len (inconsistencies.strip_issues i)
   + run_pipeline.dict_len (inconsistencies.case_issues i)
   + run_pipeline.dict_len (inconsistencies.special_char_issues i))%Z.

(** The penalty of one column, as the loop of the scorer adds it. *)
Definition column_penalty (pct : Q) : Z :=
  if Py.Qlt_bool 20 pct then 10
  else if Py.Qlt_bool 5 pct then 5
  else if Py.Qlt_bool 0 pct then 2
  else 0.

Definition Zsum (l : list Z) : Z := fold_right Z.add 0%Z l.

End scorer_inputs.

(** ** Sample datasets *)

Module samples.

(** A dataset of one text column, not an identifier, holding the same
    value twice. *)
Definition two_equal_names : Pandas.DataFrame :=
  {| Pandas.columns := [("name", Pandas.object)];
     Pandas.rows := [[Pandas.Str "a"]; [Pandas.Str "a"]] |}.

(** One text column with eleven distinct lower-case words: ten of one
    letter and one of twenty. *)
Definition uneven_lengths : Pandas.DataFrame :=
  {| Pandas.columns := [("label", Pandas.object)];
     Pandas.rows :=
       map (fun s => [Pandas.Str s])
           ["a"; "b"; "c"; "d"; "e"; "f"; "g"; "h"; "i"; "j";
            "kkkkkkkkkkkkkkkkkkkk"] |}.

Definition three_equal_names : Pandas.DataFrame :=
  {| Pandas.columns := [("name", Pandas.object)];
     Pandas.rows := [[Pandas.Str "a"]; [Pandas.Str "a"]; [Pandas.Str "a"]] |}.

(** Two rows that differ by a leading blank only. *)
Definition padded_names : Pandas.DataFrame :=
  {| Pandas.columns := [("name", Pandas.object)];
     Pandas.rows := [[Pandas.Str "a"]; [Pandas.Str " a"]] |}.

(** A numeric column with one missing value and one far value. *)
Definition readings : Pandas.DataFrame :=
  {| Pandas.columns := [("value", Pandas.float64); ("site", Pandas.object)];
     Pandas.rows :=
       [[Pandas.Num 1; Pandas.Str "north"];
        [Pandas.NaN; Pandas.Str "north"];
        [Pandas.Num 2; Pandas.NaN];
        [Pandas.Num 4; Pandas.Str "south"];
        [Pandas.Num 3; Pandas.Str "north"];
        [Pandas.Num 100; Pandas.Str "south"]] |}.

(** Ten amounts and their order number. *)
Definition amounts : Pandas.DataFrame :=
  {| Pandas.columns := [("order_id", Pandas.int64); ("amount", Pandas.float64)];
     Pandas.rows :=
       map (fun n => [Pandas.Num (inject_Z n); Pandas.Num (inject_Z n * (5 # 2))])
           [1; 2; 3; 4; 5; 6; 7; 8; 9; 10]%Z |}.

(** The same orders with every amount raised by 5. *)
Definition raised_amounts : Pandas.DataFrame :=
  {| Pandas.columns := [("order_id", Pandas.int64); ("amount", Pandas.float64)];
     Pandas.rows :=
       map (fun n => [Pandas.Num (inject_Z n); Pandas.Num (inject_Z n * (5 # 2) + 5)])
           [1; 2; 3; 4; 5; 6; 7; 8; 9; 10]%Z |}.

(** Ten finite readings, five of [-2^1023] and five of [2^1023] (about
    9e307, both float64 values), which lie further apart than the largest
    float64. *)
Definition extremes : Pandas.DataFrame :=
  {| Pandas.columns := [("reading", Pandas.float64)];
     Pandas.rows :=
       map (fun sign : Z => [Pandas.Num (inject_Z (sign * 2 ^ 1023))])
           [-1; 1; -1; 1; -1; 1; -1; 1; -1; 1]%Z |}.

(** A stand-in for the tail probability of a positive statistic. *)
Definition small_tail (n1 n2 : nat) (d : Q) : Q := 1 # 100.

Definition missing_detail (count : Z) (pct : Q) : missing_values.detail :=
  {| missing_values.count := count; missing_values.percentage := Some pct |}.

(** Two columns with a few missing values. *)
Definition few_missing : missing_values.report :=
  {| missing_values.details :=
       Some [("value", missing_detail 10 10); ("site", missing_detail 2 2)] |}.

(** The same two columns with more of them. *)
Definition more_missing : missing_values.report :=
  {| missing_values.details :=
       Some [("value", missing_detail 25 25); ("site", missing_detail 2 2)] |}.

Definition many_missing : missing_values.report :=
  {| missing_values.details :=
       Some [("a", missing_detail 30 30); ("b", missing_detail 40 40);
             ("c", missing_detail 50 50); ("d", missing_detail 60 60)] |}.

Definition outlier_report (total : Z) : outliers.report :=
  {| outliers.numeric_columns := Some ["value"];
     outliers.total_outliers := Some total |}.

(** An inconsistency report with the given numbers of strip, case and
    special-character columns, named by their position. *)
Definition numbered {V : Type} (v : V) (n : nat) : Py.dict V :=
  map (fun k => (String (ascii_of_nat (97 + k)) EmptyString, v)) (seq 0 n).

Definition inconsistency_report (n_strip n_case n_special : nat)
  : inconsistencies.report :=
  {| inconsistencies.summary :=
       inconsistencies.Summary 9 (Z.of_nat (n_strip + n_case + n_special)) "";
     inconsistencies.strip_issues :=
       Some (numbered {| inconsistencies.strip_count := 1;
                         inconsistencies.strip_percentage := 1;
                         inconsistencies.strip_examples := [] |} n_strip);
     inconsistencies.case_issues :=
       Some (numbered {| inconsistencies.unique_original := 2;
                         inconsistencies.unique_normalized := 1;
                         inconsistencies.potential_duplicates := 1 |} n_case);
     inconsistencies.special_char_issues :=
       Some (numbered {| inconsistencies.special_count := 1;
                         inconsistencies.special_percentage := 1;
                         inconsistencies.special_examples := [] |} n_special);
     inconsistencies.mixed_alphanumeric := [];
     inconsistencies.rare_categories := [];
     inconsistencies.inconsistent_formats := Some [];
     inconsistencies.suggestions := [] |}.

(** A parser that reads no date. *)
Definition no_dates (s : string) : option Z := None.

End samples.

(** ** Well-formed frames *)

Module frames.

(** Every row has one cell per column. *)
Definition rectangular (df : Pandas.DataFrame) : Prop :=
  Forall (fun r => List.length r = List.length (Pandas.columns df)) (Pandas.rows df).

(** A series without missing value. *)
Definition no_missing (series : list Pandas.cell) : Prop :=
  Forall (fun c => Pandas.isna c = false) series.

(** The numbers of a series are of moderate size: each of them, times the
    length of the series, is at most 1e150 in magnitude, so that no sum,
    difference or square that is computed from them leaves the range of
    float64, where the arithmetic of the models is that of the code. *)
Definition moderate (series : list Pandas.cell) : Prop :=
  Forall (fun c => match c with
                   | Pandas.Num x =>
                       (Qabs x * inject_Z (Py.len series) <= 10 ^ 150)%Q
                   | _ => True
                   end) series.

End frames.

(** ** Shapes of text *)

Module text_shape.

(** No white space other than single blanks between words; [after_space]
    tells whether a blank (or the start of the text) comes just before. *)
Fixpoint collapsed (after_space : bool) (s : string) : bool :=
  match s with
  | EmptyString => true
  | String c s' =>
      if Py.isspace c
      then Ascii.eqb c " " && negb after_space && collapsed true s'
      else collapsed false s'
  end.

End text_shape.


(** ** [modules/missing_values.py]

    The analyzer reads the columns by position ([df.isna().sum()]) and
    names them in the loop that fills ["details"]; with a repeated column
    name [int(missing_count[col])] raises, so column names are distinct
    wherever a property needs the names. *)

Module missing_values_analysis.

Record detail : Type := {
  count : Z;
  percentage : Q;
  severity : string;
  dtype : Pandas.dtype;
  suggestion : string
}.

Record pattern : Type := {
  pattern_columns : list string;
  occurrences : Z;
  pattern_percentage : Q
}.

(** [overall_missing_percentage] is [None] for the [NaN] of a dataset
    without cells. *)
Record summary_t : Type := {
  total_missing_values : Z;
  overall_missing_percentage : option Q;
  columns_with_missing : Z;
  total_columns : Z;
  rows_with_any_missing : Z;
  complete_rows : Z
}.

Record report : Type := {
  summary : summary_t;
  details : Py.dict detail;
  missing_patterns : list pattern;
  recommendations : list string
}.

Definition get_severity (pct : Q) : string :=
  if Qeq_bool pct 0 then "None"
  else if Py.Qlt_bool pct 5 then "Low"
  else if Py.Qlt_bool pct 20 then "Medium"
  else "High".

Definition get_suggestion (pct : Q) (dtype : Pandas.dtype) : string :=
  if Qeq_bool pct 0 then "No action needed"
  else if Py.Qlt_bool 50 pct then
    "Consider dropping this column due to high missing rate"
  else if Pandas.is_numeric dtype then
    "Options: median imputation, mean imputation, or forward fill"
  else if Pandas.dtype_eqb dtype Pandas.datetime64 then
    "Options: forward fill, backward fill, or interpolation"
  else "Options: mode imputation, 'Unknown' category, or forward fill".

(** The column at a position, and the positions of a frame. *)
Definition column_at (df : Pandas.DataFrame) (k : nat) : list Pandas.cell :=
  map (Pandas.cell_at k) (Pandas.rows df).

Definition positions (df : Pandas.DataFrame) : list nat :=
  seq 0 (List.length (Pandas.columns df)).

(** [df.isna().sum()] at one position. *)
Definition missing_count (df : Pandas.DataFrame) (k : nat) : Z :=
  Py.count_true (map Pandas.isna (column_at df k)).

(** One row of [df.isna()]. *)
Definition missing_mask (df : Pandas.DataFrame) (r : Pandas.row) : list bool :=
  map (fun k => Pandas.isna (Pandas.cell_at k r)) (positions df).

Definition any (mask : list bool) : bool := existsb (fun b => b) mask.

(** [', '.join(names)] *)
Fixpoint join (names : list string) : string :=
  match names with
  | [] => ""
  | [n] => n
  | n :: rest => String.append n (String.append ", " (join rest))
  end.

(** One turn of [for col in df.columns]. *)
Definition add_detail (df : Pandas.DataFrame) (details : Py.dict detail)
    (col_k : string * Pandas.dtype * nat) : Py.dict detail :=
  let '(col, dt, k) := col_k in
  let count := missing_count df k in
  let pct := (inject_Z count / inject_Z (Pandas.len df) * 100)%Q in
  if (0 <? count)%Z then
    Py.dict_set col {| count := count;
                       percentage := Py.round2 pct;
                       severity := get_severity pct;
                       dtype := dt;
                       suggestion := get_suggestion pct dt |} details
  else details.

Section Patterns.

(** [missing_mask.value_counts().head(5)]: the five most frequent rows of
    the mask with their counts; pandas does not fix the order of patterns
    that are equally frequent. *)
Variable pattern_counts : list (list bool) -> list (list bool * Z).

Definition analyze_missing_values (df : Pandas.DataFrame) : report :=
  let n := Pandas.len df in
  let details :=
    fold_left (add_detail df) (combine (Pandas.columns df) (positions df)) [] in
  let total_missing_cells :=
    fold_right Z.add 0%Z (map (missing_count df) (positions df)) in
  let total_cells := (n * Py.len (Pandas.columns df))%Z in
  let overall_missing_pct :=
    if (total_cells =? 0)%Z then None
    else Some (inject_Z total_missing_cells / inject_Z total_cells * 100)%Q in
  let columns_with_missing :=
    Py.len (filter (fun k => (0 <? missing_count df k)%Z) (positions df)) in
  let mask := map (missing_mask df) (Pandas.rows df) in
  let missing_patterns :=
    if (1 <? columns_with_missing)%Z then
      flat_map
        (fun pc : list bool * Z =>
           let (pattern, count) := pc in
           if (1 <? count)%Z && any pattern then
             let missing_cols :=
               map fst (filter snd (combine (Pandas.column_names df) pattern)) in
             if (1 <? Py.len missing_cols)%Z then
               [{| pattern_columns := missing_cols;
                   occurrences := count;
                   pattern_percentage :=
                     Py.round2 (inject_Z count / inject_Z n * 100)%Q |}]
             else []
           else [])
        (pattern_counts mask)
    else [] in
  let high_missing_cols :=
    map fst (filter (fun e => Py.Qlt_bool 50 (percentage (snd e))) details) in
  {| summary :=
       {| total_missing_values := total_missing_cells;
          overall_missing_percentage := option_map Py.round2 overall_missing_pct;
          columns_with_missing := columns_with_missing;
          total_columns := Py.len (Pandas.columns df);
          rows_with_any_missing := Py.count_true (map any mask);
          complete_rows := Py.count_true (map (fun m => negb (any m)) mask) |};
     details := details;
     missing_patterns := missing_patterns;
     recommendations :=
       (match high_missing_cols with
        | [] => []
        | _ => [String.append "Consider dropping columns with >50% missing: "
                              (join high_missing_cols)]
        end)
       ++ (match overall_missing_pct with
           | Some pct =>
               if Py.Qlt_bool 30 pct
               then ["Dataset has significant missing data. Investigate data collection process."]
               else []
           | None => []
           end)
       ++ (match missing_patterns with
           | [] => []
           | _ => ["Detected patterns in missing data. Missing values may not be random."]
           end)
       ++ (if Py.Qlt_bool (inject_Z (Py.len (Pandas.columns df)) * (7 # 10))
                          (inject_Z columns_with_missing)
           then ["Most columns have missing values. Review data quality at source."]
           else []) |}.

End Patterns.

(** What the scorer reads of the report. *)
Definition for_scorer (r : report) : missing_values.report :=
  {| missing_values.details :=
       Some (map (fun e => (fst e,
                            {| missing_values.count := count (snd e);
                               missing_values.percentage := Some (percentage (snd e)) |}))
                 (details r)) |}.

End missing_values_analysis.

(** ** [modules/outliers.py] *)

Module outliers_analysis.

Record column_detail : Type := {
  sample_values : list Q;
  lower_bound : Q;
  upper_bound : Q;
  Q1 : Q;
  Q3 : Q
}.

(** ["error"] is present in the two early returns only, which in turn lack
    ["outlier_percentage"], ["severity"] and ["outlier_details"]. *)
Record report : Type := {
  error : option string;
  numeric_columns : list string;
  total_outliers : Z;
  outlier_percentage : option Q;
  severity : option string;
  outliers_per_column : Py.dict Z;
  outlier_details : option (Py.dict column_detail);
  suggestions : Py.dict string
}.

Definition id_patterns : list string := ["id"; "key"; "index"; "number"; "code"].

Definition is_identifier (col : string) : bool :=
  existsb (fun pattern => Py.contains pattern (Py.lower col)) id_patterns.

Definition numeric_cols (df : Pandas.DataFrame) : list string :=
  filter (fun col => negb (is_identifier col))
         (Pandas.select_dtypes Pandas.is_numeric df).

(** A row of [df[numeric_cols]] after [pd.to_numeric(errors='coerce')] and
    [dropna()]: its numbers, when none of them is missing. *)
Fixpoint complete_row (cells : list Pandas.cell) : option (list Q) :=
  match cells with
  | [] => Some []
  | Pandas.Num q :: cells' => option_map (cons q) (complete_row cells')
  | _ :: _ => None
  end.

Definition df_numeric (df : Pandas.DataFrame) : list (list Q) :=
  flat_map (fun r => match complete_row (Pandas.project df (numeric_cols df) r) with
                     | Some xs => [xs]
                     | None => []
                     end)
           (Pandas.rows df).

(** [(z_scores > 3).sum()] for the population standard deviation, decided
    on the squares: [|x - m| / s > 3] iff [(x - m)^2 > 9 s^2], also when
    [s] is 0 and the score is [NaN]. *)
Definition z_outliers (xs : list Q) : Z :=
  let n := inject_Z (Z.of_nat (List.length xs)) in
  let m := (Pandas.Qsum xs / n)%Q in
  let var := (Pandas.Qsum (map (fun x => (x - m) * (x - m)) xs) / n)%Q in
  Py.len (filter (fun x => Py.Qlt_bool (9 * var) ((x - m) * (x - m))) xs).

Definition outside (lower upper : Q) (x : Q) : bool :=
  Py.Qlt_bool x lower || Py.Qlt_bool upper x.

(** What the loop finds for one column: its count, and its details unless
    the column was skipped or raised.  The arithmetic is exact: for values
    so large that a difference, a product or a square leaves the range of
    float64 the code stores infinite or NaN quartiles and bounds, which
    this definition does not follow; what is proved of the bounds is
    stated for values of moderate size. *)
Definition column_outliers (df : Pandas.DataFrame) (col : string)
  : Z * option column_detail :=
  match Pandas.numeric_values (Pandas.get_col df col) with
  | None => (0%Z, None)
  | Some col_data =>
      if (List.length col_data <? 4)%nat then (0%Z, None)
      else
        match Pandas.quantile (1 # 4) col_data, Pandas.quantile (3 # 4) col_data with
        | Some q1, Some q3 =>
            let IQR := (q3 - q1)%Q in
            let lower := (q1 - (3 # 2) * IQR)%Q in
            let upper := (q3 + (3 # 2) * IQR)%Q in
            let iqr_outliers := Py.len (filter (outside lower upper) col_data) in
            (Z.max (z_outliers col_data) iqr_outliers,
             Some {| sample_values := firstn 5 (filter (outside lower upper) col_data);
                     lower_bound := lower;
                     upper_bound := upper;
                     Q1 := q1;
                     Q3 := q3 |})
        | _, _ => (0%Z, None)
        end
  end.

Definition suggest (df : Pandas.DataFrame) (count : Z) : string :=
  if (count =? 0)%Z then "No outliers detected"
  else if (count <? 10)%Z then
    "Few outliers found. Review manually or apply IQR clipping"
  else if (count <? 50)%Z then
    "Moderate outliers detected. Consider IQR clipping or winsorization"
  else if Py.Qlt_bool 10 (inject_Z count / inject_Z (Pandas.len df) * 100) then
    "High outlier rate. Investigate data source or distribution"
  else "Many outliers detected. Use robust scaling or log transformation".

Section IsolationForest.

(** [IsolationForest(contamination='auto', random_state=42,
    n_estimators=100).fit_predict]: one prediction per row, -1 for an
    outlier; [None] when it raises. *)
Variable fit_predict : list (list Q) -> option (list Z).

Definition analyze_outliers (df : Pandas.DataFrame) : report :=
  let numeric_cols := numeric_cols df in
  if (Py.len numeric_cols =? 0)%Z then
    {| error := Some "No suitable numeric columns for outlier detection";
       numeric_columns := [];
       total_outliers := 0;
       outlier_percentage := None;
       severity := None;
       outliers_per_column := [];
       outlier_details := None;
       suggestions := [] |}
  else if (Py.len (df_numeric df) <? 10)%Z then
    {| error := Some "Insufficient data for outlier detection";
       numeric_columns := numeric_cols;
       total_outliers := 0;
       outlier_percentage := None;
       severity := None;
       outliers_per_column := [];
       outlier_details := None;
       suggestions := [] |}
  else
    let total_outliers :=
      match fit_predict (df_numeric df) with
      | Some predictions => Py.len (filter (Z.eqb (-1)) predictions)
      | None => 0%Z
      end in
    let found :=
      fold_left
        (fun (st : Py.dict Z * Py.dict column_detail) col =>
           let (count, detail) := column_outliers df col in
           (Py.dict_set col count (fst st),
            match detail with
            | Some d => Py.dict_set col d (snd st)
            | None => snd st
            end))
        numeric_cols ([], []) in
    let suggestions :=
      fold_left (fun acc e => Py.dict_set (fst e) (suggest df (snd e)) acc)
                (fst found) [] in
    let total_outlier_pct :=
      if (0 <? Pandas.len df)%Z
      then (inject_Z total_outliers / inject_Z (Pandas.len df) * 100)%Q
      else 0%Q in
    let severity :=
      if Py.Qlt_bool 10 total_outlier_pct then "High"
      else if Py.Qlt_bool 5 total_outlier_pct then "Medium"
      else "Low" in
    {| error := None;
       numeric_columns := numeric_cols;
       total_outliers := total_outliers;
       outlier_percentage := Some (Py.round2 total_outlier_pct);
       severity := Some severity;
       outliers_per_column := fst found;
       outlier_details := Some (snd found);
       suggestions := suggestions |}.

End IsolationForest.

(** What the cleaning stage and the scorer read of the report. *)
Definition for_pipeline (r : report) : outliers.report :=
  {| outliers.numeric_columns := Some (numeric_columns r);
     outliers.total_outliers := Some (total_outliers r) |}.

End outliers_analysis.

(** ** [api.py] *)

Module api.

(** *** [convert_to_serializable] *)

(** A number or truth value; [Floating None] is NaN. *)
Inductive scalar : Type :=
| Integer (n : Z)
| Floating (x : option Q)
| Boolean (b : bool).

(** The Python values that a report is made of.  [Numpy s] is a NumPy
    scalar ([np.int64], [np.float64], [np.bool_]), [Python s] a built-in
    [int], [float] or [bool], [Ndarray] a one-dimensional numeric array;
    the keys of a dict are strings. *)
#[warnings="-register-all"]
Inductive value : Type :=
| PyDict (items : list (string * value))
| PyList (items : list value)
| PyTuple (items : list value)
| Numpy (s : scalar)
| Python (s : scalar)
| Ndarray (items : list scalar)
| PyNone
| PyStr (s : string).

(** The branches in the order of the source: containers, NumPy integers,
    NumPy floats, [np.bool_] and [bool], arrays ([tolist] gives built-in
    scalars), then [pd.isna], which holds of [None] and of a built-in NaN. *)
Fixpoint convert_to_serializable (obj : value) : value :=
  match obj with
  | PyDict items =>
      PyDict (map (fun item : string * value =>
                     let (key, x) := item in (key, convert_to_serializable x))
                  items)
  | PyList items => PyList (map convert_to_serializable items)
  | PyTuple items => PyTuple (map convert_to_serializable items)
  | Numpy (Integer n) => Python (Integer n)
  | Numpy (Floating x) => Python (Floating x)
  | Numpy (Boolean b) | Python (Boolean b) => Python (Boolean b)
  | Ndarray items => PyList (map Python items)
  | Python (Floating None) | PyNone => PyNone
  | Python (Integer _) | Python (Floating (Some _)) | PyStr _ => obj
  end.

(** No NumPy scalar and no array anywhere in the value. *)
Fixpoint builtin_only (v : value) : bool :=
  match v with
  | PyDict items => forallb (fun item : string * value => let (_, x) := item in builtin_only x) items
  | PyList items | PyTuple items => forallb builtin_only items
  | Numpy _ | Ndarray _ => false
  | Python _ | PyNone | PyStr _ => true
  end.

Definition is_nan (s : scalar) : bool :=
  match s with Floating None => true | _ => false end.

(** A NaN somewhere in the value, of whatever type. *)
Fixpoint has_nan (v : value) : bool :=
  match v with
  | PyDict items => existsb (fun item : string * value => let (_, x) := item in has_nan x) items
  | PyList items | PyTuple items => existsb has_nan items
  | Numpy s | Python s => is_nan s
  | Ndarray items => existsb is_nan items
  | PyNone | PyStr _ => false
  end.

(** A NaN that is a NumPy float or sits in an array. *)
Fixpoint has_numpy_nan (v : value) : bool :=
  match v with
  | PyDict items =>
      existsb (fun item : string * value => let (_, x) := item in has_numpy_nan x) items
  | PyList items | PyTuple items => existsb has_numpy_nan items
  | Numpy s => is_nan s
  | Ndarray items => existsb is_nan items
  | Python _ | PyNone | PyStr _ => false
  end.

(** *** The endpoints *)

Inductive exn : Type :=
| HTTPException (status_code : Z) (detail : string)
| Error (message : string).

Inductive result (A : Type) : Type :=
| Returns (a : A)
| Raises (e : exn).

Arguments Returns {A} a.
Arguments Raises {A} e.

Definition bind {A B : Type} (r : result A) (f : A -> result B) : result B :=
  match r with
  | Returns a => f a
  | Raises e => Raises e
  end.

(** [obj[key]] on a value: [KeyError] or [TypeError] when there is no such
    item. *)
Definition getitem (key : string) (obj : value) : result value :=
  match obj with
  | PyDict items =>
      match Py.dict_get key items with
      | Some x => Returns x
      | None => Raises (Error key)
      end
  | _ => Raises (Error "object is not subscriptable")
  end.

Definition endswith (s suffix : string) : bool :=
  let n := String.length s in
  let m := String.length suffix in
  (m <=? n)%nat && String.eqb (String.substring (n - m) m s) suffix.

(** [s.replace(old, new)] for a non-empty [old]: the occurrences are
    found from the left and do not overlap; [skip] counts the characters
    of an occurrence that are still to be passed over. *)
Fixpoint replace_from (old new : string) (skip : nat) (s : string) : string :=
  match s with
  | EmptyString => EmptyString
  | String c s' =>
      match skip with
      | S k => replace_from old new k s'
      | O =>
          if String.prefix old s
          then String.append new (replace_from old new (String.length old - 1) s')
          else String c (replace_from old new 0 s')
      end
  end.

Definition replace (old new s : string) : string := replace_from old new 0 s.

(** [del d[k]] *)
Definition dict_del {V : Type} (k : string) (d : Py.dict V) : Py.dict V :=
  filter (fun item => negb (String.eqb (fst item) k)) d.

(** [k in d] *)
Definition dict_in {V : Type} (k : string) (d : Py.dict V) : bool :=
  match Py.dict_get k d with Some _ => true | None => false end.

(** An entry of [job_storage]. *)
Record job : Type := {
  cleaned_df : Pandas.DataFrame;
  timestamp : string;
  original_filename : string
}.

Record analysis : Type := {
  analysis_status : string;
  analysis_job_id : string;
  analysis_report : value;
  analysis_message : string
}.

Record cleaning_summary : Type := {
  rows_before : value;
  rows_after : value;
  quality_score : value
}.

Record cleaning : Type := {
  cleaning_status : string;
  cleaning_job_id : string;
  cleaning_report : value;
  summary : cleaning_summary
}.

Record download : Type := {
  body : list Byte.byte;
  media_type : string;
  content_disposition : string
}.

Record job_entry : Type := {
  entry_job_id : string;
  entry_timestamp : string;
  entry_filename : string;
  entry_rows : Z
}.

Definition max_upload : Z := 100 * 1024 * 1024.

Section Endpoints.

(** [run_full_pipeline(file_bytes=..., duplicate_strategy=...)], the CSV
    writer [DataFrame.to_csv(index=False)] and [str(e)] of an exception;
    the first two may raise. *)
Variable run_full_pipeline :
  list Byte.byte -> string -> result (value * Pandas.DataFrame).
Variable to_csv : Pandas.DataFrame -> result (list Byte.byte).
Variable str : exn -> string.

(** The body of [try:] up to the call of the pipeline. *)
Definition read_and_run (content : list Byte.byte) (duplicate_strategy : string)
  : result (value * Pandas.DataFrame) :=
  if (max_upload <? Py.len content)%Z
  then Raises (HTTPException 413 "File too large. Maximum 100MB allowed")
  else run_full_pipeline content duplicate_strategy.

(** [POST /analyze].  [uuid4] and [now] are what [uuid.uuid4()] and
    [datetime.now().isoformat()] give at the call; the result is the
    response, or the exception that FastAPI answers with, and the job
    storage afterwards. *)
Definition analyze_file (filename : string) (content : list Byte.byte)
    (duplicate_strategy : string) (uuid4 now : string)
    (job_storage : Py.dict job) : result analysis * Py.dict job :=
  if negb (endswith filename ".csv") then
    (Raises (HTTPException 400 "Only CSV files are supported"), job_storage)
  else
    match read_and_run content duplicate_strategy with
    | Returns (report, cleaned_df) =>
        let report := convert_to_serializable report in
        let job_id := uuid4 in
        let job_storage :=
          Py.dict_set job_id {| cleaned_df := cleaned_df;
                                timestamp := now;
                                original_filename := filename |} job_storage in
        (Returns {| analysis_status := "success";
                    analysis_job_id := job_id;
                    analysis_report := report;
                    analysis_message :=
                      "Analysis complete. Use job_id to download cleaned data." |},
         job_storage)
    | Raises e =>
        (Raises (HTTPException 500 (String.append "Analysis failed: " (str e))),
         job_storage)
    end.

(** [POST /clean]; the job is stored before the summary is read off the
    report. *)
Definition clean_file (filename : string) (content : list Byte.byte)
    (duplicate_strategy missing_strategy outlier_method : string)
    (uuid4 now : string)
    (job_storage : Py.dict job) : result cleaning * Py.dict job :=
  if negb (endswith filename ".csv") then
    (Raises (HTTPException 400 "Only CSV files are supported"), job_storage)
  else
    match read_and_run content duplicate_strategy with
    | Returns (report, cleaned_df) =>
        let report := convert_to_serializable report in
        let job_id := uuid4 in
        let job_storage :=
          Py.dict_set job_id {| cleaned_df := cleaned_df;
                                timestamp := now;
                                original_filename := filename |} job_storage in
        let response :=
          bind (bind (getitem "summary" report) (getitem "rows_original")) (fun before =>
          bind (bind (getitem "summary" report) (getitem "rows_cleaned")) (fun after =>
          bind (bind (getitem "quality_score" report) (getitem "score")) (fun score =>
          Returns {| cleaning_status := "success";
                     cleaning_job_id := job_id;
                     cleaning_report := report;
                     summary := {| rows_before := before;
                                   rows_after := after;
                                   quality_score := score |} |}))) in
        match response with
        | Returns r => (Returns r, job_storage)
        | Raises e =>
            (Raises (HTTPException 500 (String.append "Cleaning failed: " (str e))),
             job_storage)
        end
    | Raises e =>
        (Raises (HTTPException 500 (String.append "Cleaning failed: " (str e))),
         job_storage)
    end.

(** [GET /download/{job_id}] *)
Definition download_cleaned_file (job_id : string) (job_storage : Py.dict job)
  : result download :=
  match Py.dict_get job_id job_storage with
  | None => Raises (HTTPException 404 "Job not found or expired")
  | Some job_data =>
      match to_csv (cleaned_df job_data) with
      | Returns buffer =>
          let filename := replace ".csv" "_cleaned.csv" (original_filename job_data) in
          Returns {| body := buffer;
                     media_type := "text/csv";
                     content_disposition :=
                       String.append "attachment; filename=" filename |}
      | Raises e =>
          Raises (HTTPException 500 (String.append "Download failed: " (str e)))
      end
  end.

(** [DELETE /job/{job_id}] *)
Definition delete_job (job_id : string) (job_storage : Py.dict job)
  : result (string * string) * Py.dict job :=
  if dict_in job_id job_storage
  then (Returns ("success", "Job deleted"), dict_del job_id job_storage)
  else (Raises (HTTPException 404 "Job not found"), job_storage).

(** [GET /jobs] *)
Definition list_jobs (job_storage : Py.dict job) : list job_entry * Z :=
  let jobs :=
    map (fun item : string * job =>
           let (job_id, data) := item in
           {| entry_job_id := job_id;
              entry_timestamp := timestamp data;
              entry_filename := original_filename data;
              entry_rows := Pandas.len (cleaned_df data) |})
        job_storage in
  (jobs, Py.len jobs).

End Endpoints.

End api.

(** ** More sample datasets *)

Module more_samples.

(** Weights that all carry the same unit. *)
Definition weights : Pandas.DataFrame :=
  {| Pandas.columns := [("weight", Pandas.float64); ("unit", Pandas.object)];
     Pandas.rows :=
       [[Pandas.Num 12; Pandas.Str "kg"];
        [Pandas.Num (7 # 2); Pandas.Str "kg"];
        [Pandas.NaN; Pandas.Str "kg"];
        [Pandas.Num 40; Pandas.Str "kg"]] |}.

(** Twelve daily temperatures with one spike, and the sensor number. *)
Definition temperatures : Pandas.DataFrame :=
  {| Pandas.columns := [("sensor_id", Pandas.int64); ("celsius", Pandas.float64);
                        ("room", Pandas.float64)];
     Pandas.rows :=
       map (fun t => [Pandas.Num 7; Pandas.Num t; Pandas.Num 21])
           [18; 19; 20; 19; 18; 20; 21; 19; 90; 20; 19; 18]%Q |}.

(** An isolation forest that flags nothing, and one that flags the first
    row. *)
Definition calm_forest (X : list (list Q)) : option (list Z) :=
  Some (map (fun _ => 1%Z) X).

Definition first_row_forest (X : list (list Q)) : option (list Z) :=
  Some (match X with [] => [] | _ :: rest => (-1)%Z :: map (fun _ => 1%Z) rest end).

(** A pipeline that returns the readings whatever it is given, a CSV writer
    that writes nothing and the text of an exception. *)
Definition fixed_pipeline (file_bytes : list Byte.byte) (duplicate_strategy : string)
  : api.result (api.value * Pandas.DataFrame) :=
  api.Returns (api.PyDict [("summary", api.PyDict [("rows_original", api.Numpy (api.Integer 6))])],
               samples.readings).

Definition csv_writer (df : Pandas.DataFrame) : api.result (list Byte.byte) :=
  api.Returns [].

Definition message (e : api.exn) : string :=
  match e with
  | api.HTTPException _ detail => detail
  | api.Error message => message
  end.

(** Answers read from a CSV file: a column of booleans with a blank, which
    is an object column, and a nullable integer column. *)
Definition answers : Pandas.DataFrame :=
  {| Pandas.columns := [("agreed", Pandas.object); ("visits", Pandas.Int64)];
     Pandas.rows :=
       [[Pandas.Bool true; Pandas.Num 1];
        [Pandas.NaN; Pandas.Num 4];
        [Pandas.Bool false; Pandas.NaN];
        [Pandas.Bool true; Pandas.Num 4];
        [Pandas.Bool true; Pandas.Num 1]] |}.

(** Visits as a plain and guests as a nullable integer column, each with
    one value far out, and an outlier report that lists both. *)
Definition visits : Pandas.DataFrame :=
  {| Pandas.columns := [("visits", Pandas.int64); ("guests", Pandas.Int64)];
     Pandas.rows :=
       map (fun n => [Pandas.Num n; Pandas.Num n]) [1; 2; 3; 5; 100]%Q |}.

Definition visits_report : outliers.report :=
  {| outliers.numeric_columns := Some ["visits"; "guests"];
     outliers.total_outliers := Some 1%Z |}.

End more_samples.

(** * Properties *)

(** ** Lists, masks and folds *)

Lemma fold_left_invariant {A B : Type} (P : A -> Prop) (f : A -> B -> A) :
  (forall a b, P a -> P (f a b)) ->
  forall l a, P a -> P (fold_left f l a).
Proof.
  intros step l; induction l as [|b l IH]; intros a Ha; simpl; auto.
Qed.

Lemma fold_left_pointwise {A B : Type} (f g : A -> B -> A) :
  (forall a b, f a b = g a b) ->
  forall l a, fold_left f l a = fold_left g l a.
Proof.
  intros ext l; induction l as [|b l IH]; intros a; simpl; [reflexivity|].
  rewrite ext; apply IH.
Qed.

Lemma filter_length_le {A : Type} (p : A -> bool) (l : list A) :
  (List.length (filter p l) <= List.length l)%nat.
Proof.
  induction l as [|x l IH]; simpl; [lia|]; destruct (p x); simpl; lia.
Qed.

Lemma count_true_bounds (l : list bool) :
  (0 <= Py.count_true l <= Py.len l)%Z.
Proof.
  unfold Py.count_true, Py.len.
  pose proof (filter_length_le (fun b : bool => b) l); lia.
Qed.

Lemma duplicated_from_length (rs seen : list Pandas.row) :
  List.length (Pandas.duplicated_from seen rs) = List.length rs.
Proof.
  revert seen; induction rs as [|r rs IH]; intros seen; simpl; [reflexivity|].
  now rewrite IH.
Qed.

Lemma mask_filter_length_le {A : Type} (mask : list bool) (rs : list A) :
  (List.length (Pandas.mask_filter mask rs) <= List.length rs)%nat.
Proof.
  revert rs; induction mask as [|b mask IH]; intros [|r rs]; simpl; try lia.
  specialize (IH rs); destruct b; simpl; lia.
Qed.

Lemma assign_rows_length (i : option nat) (rs : list Pandas.row) (vals : list Pandas.cell) :
  List.length (Pandas.assign_rows i rs vals) = List.length rs.
Proof.
  revert vals; induction rs as [|r rs IH]; intros vals; simpl; [reflexivity|].
  now rewrite IH.
Qed.

Lemma assign_len (df : Pandas.DataFrame) (name : string) (dt : Pandas.dtype)
    (vals : list Pandas.cell) :
  Pandas.len (Pandas.assign df name dt vals) = Pandas.len df.
Proof.
  unfold Pandas.len, Py.len, Pandas.assign; simpl.
  now rewrite assign_rows_length.
Qed.

(** ** The duplicate analyzer *)

(** C9: the report of the duplicate analyzer has [total_rows] equal to the
    number of rows of the dataset, a [duplicate_count] between 0 and
    [total_rows], and [unique_rows = total_rows - duplicate_count]. *)
Theorem analyze_duplicates_arithmetic (df : Pandas.DataFrame) :
  let r := duplicates.analyze_duplicates df in
  exists dc : Z,
    duplicates.duplicate_count r = Some dc
    /\ duplicates.unique_rows r = (duplicates.total_rows r - dc)%Z
    /\ (0 <= dc <= duplicates.total_rows r)%Z
    /\ duplicates.total_rows r = Z.of_nat (List.length (Pandas.rows df)).
Proof.
  intros r; exists (Py.count_true (Pandas.duplicated df)); subst r; simpl.
  repeat split; try reflexivity.
  - apply count_true_bounds.
  - pose proof (count_true_bounds (Pandas.duplicated df)) as [_ H].
    unfold Pandas.len, Py.len in *.
    unfold Pandas.duplicated, Pandas.duplicated_rows in H.
    now rewrite duplicated_from_length in H.
Qed.

(** C5: on a dataset without any identifier column, where leaving the
    identifier columns out cannot reveal a further duplicated row, the
    analyzer still reports the finding: it compares the count of all rows
    that have a twin ([keep=False], here 2) with the count of the repeats
    alone (here 1). *)
Theorem subset_finding_without_identifier_columns :
  let df := samples.two_equal_names in
  duplicates.important_cols df = Pandas.column_names df
  /\ duplicates.duplicate_count (duplicates.analyze_duplicates df) = Some 1%Z
  /\ duplicates.subset_duplicates (duplicates.analyze_duplicates df)
     = Some {| duplicates.columns_checked := ["name"];
               duplicates.subset_duplicate_count := 2;
               duplicates.note := "More duplicates found when ignoring ID columns" |}.
Proof.
  repeat split; vm_compute; reflexivity.
Qed.

(** The test that the analyzer makes, for every dataset. *)
Lemma subset_finding_reported_iff (df : Pandas.DataFrame) :
  duplicates.subset_duplicates (duplicates.analyze_duplicates df) <> None
  <-> (duplicates.important_cols df <> []
       /\ (Pandas.duplicate_count df < duplicates.subset_dup_count df)%Z).
Proof.
  unfold duplicates.analyze_duplicates; simpl.
  fold (Pandas.duplicate_count df).
  destruct (duplicates.important_cols df) as [|c cs] eqn:E.
  - simpl; split; [congruence | intros [H _]; congruence].
  - replace (0 <? Py.len (c :: cs))%Z with true
      by (symmetry; apply Z.ltb_lt; unfold Py.len; simpl; lia).
    destruct (Z.ltb_spec (Pandas.duplicate_count df) (duplicates.subset_dup_count df)).
    + split; [intros _; split; [discriminate | assumption] | discriminate].
    + split; [congruence | intros [_ H']; lia].
Qed.

(** ** The outlier step of the cleaning stage *)

Lemma handle_outlier_column_clip_len (cleaned : Pandas.DataFrame) (col : string) :
  Pandas.len (cleaning.handle_outlier_column "clip" cleaned col) = Pandas.len cleaned.
Proof.
  unfold cleaning.handle_outlier_column.
  destruct (negb (Pandas.has_column cleaned col)); [reflexivity|].
  simpl.
  destruct (cleaning.iqr_bounds (Pandas.get_col cleaned col)); [|reflexivity].
  destruct (_ && _); [reflexivity | apply assign_len].
Qed.

Lemma handle_outlier_column_remove_len (cleaned : Pandas.DataFrame) (col : string) :
  (Pandas.len (cleaning.handle_outlier_column "remove" cleaned col) <= Pandas.len cleaned)%Z.
Proof.
  unfold cleaning.handle_outlier_column.
  destruct (negb (Pandas.has_column cleaned col)); [lia|].
  simpl.
  destruct (cleaning.iqr_bounds (Pandas.get_col cleaned col)) as [bounds|]; [|lia].
  unfold Pandas.len, Py.len; simpl.
  pose proof (mask_filter_length_le
                (map (cleaning.inside bounds) (Pandas.get_col cleaned col))
                (Pandas.rows cleaned)).
  lia.
Qed.

(** C7: whatever the dataset and the outlier report (also when there is
    none), [handle_outliers] with [method="clip"] returns as many rows as it
    was given, and with [method="remove"] at most as many. *)
Theorem handle_outliers_row_count (df : Pandas.DataFrame)
    (outlier_report : option outliers.report) :
  Pandas.len (cleaning.handle_outliers df outlier_report "clip") = Pandas.len df
  /\ (Pandas.len (cleaning.handle_outliers df outlier_report "remove") <= Pandas.len df)%Z.
Proof.
  destruct outlier_report as [r|]; simpl; [|split; [reflexivity | lia]].
  unfold Pandas.reset_index, Pandas.copy.
  split.
  - apply (fold_left_invariant (fun d => Pandas.len d = Pandas.len df)); [|reflexivity].
    intros d col Hd; now rewrite handle_outlier_column_clip_len.
  - apply (fold_left_invariant (fun d => (Pandas.len d <= Pandas.len df)%Z)); [|lia].
    intros d col Hd.
    pose proof (handle_outlier_column_remove_len d col); lia.
Qed.

(** ** Imputation *)

Lemma numeric_fill_value_fallback (strategy : string) (xs : list Q) :
  strategy <> "median" -> strategy <> "mean" -> strategy <> "zero" ->
  cleaning.numeric_fill_value strategy xs = cleaning.numeric_fill_value "median" xs.
Proof.
  intros Hmedian Hmean Hzero; unfold cleaning.numeric_fill_value.
  apply String.eqb_neq in Hmedian, Hmean, Hzero.
  now rewrite Hmedian, Hmean, Hzero.
Qed.

(** C8: for every dataset and every strategy string other than "median",
    "mean" and "zero", [impute_missing_values] returns (it is a total
    function: nothing escapes the [try] of its loop) the very dataset that
    strategy "median" returns. *)
Theorem impute_unknown_strategy_is_median (df : Pandas.DataFrame) (strategy : string) :
  strategy <> "median" -> strategy <> "mean" -> strategy <> "zero" ->
  cleaning.impute_missing_values df strategy = cleaning.impute_missing_values df "median".
Proof.
  intros Hmedian Hmean Hzero; unfold cleaning.impute_missing_values.
  apply fold_left_pointwise; intros cleaned col.
  unfold cleaning.impute_column.
  destruct (Py.count_true _ =? 0)%Z; [reflexivity|].
  destruct (Pandas.is_numeric _); [|reflexivity].
  destruct (Pandas.numeric_values _) as [xs|]; [|reflexivity].
  now rewrite numeric_fill_value_fallback.
Qed.

(** ** The quality scorer *)

Lemma Qlt_bool_spec (a b : Q) : BoolSpec (a < b)%Q (b <= a)%Q (Py.Qlt_bool a b).
Proof.
  unfold Py.Qlt_bool.
  destruct (Qle_bool b a) eqn:E; simpl; constructor.
  - now apply Qle_bool_iff.
  - apply Qnot_le_lt; intros H; apply Qle_bool_iff in H; congruence.
Qed.

Lemma Qle_bool_spec (a b : Q) : BoolSpec (a <= b)%Q (b < a)%Q (Qle_bool a b).
Proof.
  destruct (Qle_bool a b) eqn:E; constructor.
  - now apply Qle_bool_iff.
  - apply Qnot_le_lt; intros H; apply Qle_bool_iff in H; congruence.
Qed.

Ltac by_thresholds :=
  repeat match goal with
         | |- context [Py.Qlt_bool ?a ?b] => destruct (Qlt_bool_spec a b)
         | |- context [Qle_bool ?a ?b] => destruct (Qle_bool_spec a b)
         | |- context [(?a <? ?b)%Z] => destruct (Z.ltb_spec a b)
         | |- context [(?a <=? ?b)%Z] => destruct (Z.leb_spec a b)
         end;
  cbv beta iota; try lia; try (exfalso; lra).

Lemma add_missing_penalty_eq (acc : Z) (col_data : missing_values.detail) :
  run_pipeline.add_missing_penalty acc col_data
  = (acc + scorer_inputs.column_penalty
             (Py.get (missing_values.percentage col_data) 0%Q))%Z.
Proof.
  unfold run_pipeline.add_missing_penalty, scorer_inputs.column_penalty.
  by_thresholds.
Qed.

Lemma missing_penalty_loop (l : list missing_values.detail) (acc : Z) :
  fold_left run_pipeline.add_missing_penalty l acc
  = (acc + scorer_inputs.Zsum
             (map (fun d => scorer_inputs.column_penalty
                              (Py.get (missing_values.percentage d) 0%Q)) l))%Z.
Proof.
  revert acc; induction l as [|d l IH]; intros acc; simpl; [lia|].
  rewrite IH, add_missing_penalty_eq; lia.
Qed.

(** The score as one expression over the four inputs. *)
Lemma score_formula (m : missing_values.report) (d : duplicates.report)
    (o : outliers.report) (i : inconsistencies.report) :
  run_pipeline.score (run_pipeline.calculate_quality_score m d o i)
  = Z.max (100
           - Z.min (scorer_inputs.Zsum
                      (map scorer_inputs.column_penalty (scorer_inputs.percentages m))) 30
           - quality_spec.duplicate_penalty (scorer_inputs.dup_pct d)
           - quality_spec.outlier_penalty (scorer_inputs.total_outliers o)
           - quality_spec.inconsistency_penalty (scorer_inputs.issues i)) 0.
Proof.
  unfold run_pipeline.calculate_quality_score; simpl.
  rewrite missing_penalty_loop.
  unfold scorer_inputs.percentages; rewrite map_map.
  fold (scorer_inputs.dup_pct d) (scorer_inputs.total_outliers o) (scorer_inputs.issues i).
  unfold quality_spec.duplicate_penalty, quality_spec.outlier_penalty,
    quality_spec.inconsistency_penalty.
  f_equal.
  set (mp := Z.min _ 30).
  by_thresholds.
Qed.

Lemma grade_formula (m : missing_values.report) (d : duplicates.report)
    (o : outliers.report) (i : inconsistencies.report) :
  run_pipeline.grade (run_pipeline.calculate_quality_score m d o i)
  = run_pipeline.grade_of
      (run_pipeline.score (run_pipeline.calculate_quality_score m d o i)).
Proof. reflexivity. Qed.

Lemma column_penalty_sum_by_tier (percentages : list Q) :
  scorer_inputs.Zsum (map scorer_inputs.column_penalty percentages)
  = (10 * quality_spec.count_columns (fun pct => Py.Qlt_bool 20 pct) percentages
     + 5 * quality_spec.count_columns
             (fun pct => Py.Qlt_bool 5 pct && Qle_bool pct 20) percentages
     + 2 * quality_spec.count_columns
             (fun pct => Py.Qlt_bool 0 pct && Qle_bool pct 5) percentages)%Z.
Proof.
  unfold quality_spec.count_columns, Py.len.
  induction percentages as [|pct l IH]; [reflexivity|].
  cbn [map scorer_inputs.Zsum fold_right filter].
  fold (scorer_inputs.Zsum (map scorer_inputs.column_penalty l)).
  rewrite IH; unfold scorer_inputs.column_penalty.
  destruct (Qlt_bool_spec 20 pct), (Qlt_bool_spec 5 pct), (Qlt_bool_spec 0 pct),
    (Qle_bool_spec pct 20), (Qle_bool_spec pct 5);
    cbn [andb List.length]; try lia; exfalso; lra.
Qed.

Lemma column_penalty_sum_nonneg (percentages : list Q) :
  (0 <= scorer_inputs.Zsum (map scorer_inputs.column_penalty percentages))%Z.
Proof.
  unfold scorer_inputs.Zsum.
  induction percentages as [|pct l IH]; simpl; [lia|].
  unfold scorer_inputs.column_penalty at 1; by_thresholds.
Qed.

Lemma column_penalty_monotone (a b : Q) :
  (a <= b)%Q -> (scorer_inputs.column_penalty a <= scorer_inputs.column_penalty b)%Z.
Proof.
  intros H; unfold scorer_inputs.column_penalty; by_thresholds.
Qed.

Lemma column_penalty_sum_monotone (l1 l2 : list Q) :
  Forall2 Qle l1 l2 ->
  (scorer_inputs.Zsum (map scorer_inputs.column_penalty l1)
   <= scorer_inputs.Zsum (map scorer_inputs.column_penalty l2))%Z.
Proof.
  unfold scorer_inputs.Zsum.
  induction 1 as [|a b l1 l2 Hab _ IH]; simpl; [lia|].
  pose proof (column_penalty_monotone a b Hab); lia.
Qed.

Lemma duplicate_penalty_monotone (a b : Q) :
  (a <= b)%Q -> (quality_spec.duplicate_penalty a <= quality_spec.duplicate_penalty b)%Z.
Proof.
  intros H; unfold quality_spec.duplicate_penalty; by_thresholds.
Qed.

Lemma outlier_penalty_monotone (a b : Z) :
  (a <= b)%Z -> (quality_spec.outlier_penalty a <= quality_spec.outlier_penalty b)%Z.
Proof.
  intros H; unfold quality_spec.outlier_penalty; by_thresholds.
Qed.

Lemma inconsistency_penalty_monotone (a b : Z) :
  (a <= b)%Z ->
  (quality_spec.inconsistency_penalty a <= quality_spec.inconsistency_penalty b)%Z.
Proof.
  intros H; unfold quality_spec.inconsistency_penalty; by_thresholds.
Qed.

Lemma penalty_bounds (dup_pct : Q) (total_outliers issues : Z) :
  (0 <= quality_spec.duplicate_penalty dup_pct <= 15
   /\ 0 <= quality_spec.outlier_penalty total_outliers <= 10
   /\ 0 <= quality_spec.inconsistency_penalty issues <= 15)%Z.
Proof.
  unfold quality_spec.duplicate_penalty, quality_spec.outlier_penalty,
    quality_spec.inconsistency_penalty.
  by_thresholds.
Qed.

(** C2: for all four reports the score of [calculate_quality_score] is the
    one the specification describes (100 minus the capped per-column
    missing-data penalty, the single-tier duplicate penalty, the outlier
    penalty and the inconsistency penalty over strip, case and
    special-character issue columns only, floored at 0), the grade follows
    the five bands, and the breakdown lists the four penalties. *)
Theorem calculate_quality_score_meets_spec (m : missing_values.report)
    (d : duplicates.report) (o : outliers.report) (i : inconsistencies.report) :
  let q := run_pipeline.calculate_quality_score m d o i in
  run_pipeline.score q
  = quality_spec.score (scorer_inputs.percentages m) (scorer_inputs.dup_pct d)
                       (scorer_inputs.total_outliers o) (scorer_inputs.issues i)
  /\ run_pipeline.grade q = quality_spec.grade (run_pipeline.score q)
  /\ run_pipeline.breakdown q
     = {| run_pipeline.missing_data_impact :=
            quality_spec.missing_penalty (scorer_inputs.percentages m);
          run_pipeline.duplicate_impact :=
            quality_spec.duplicate_penalty (scorer_inputs.dup_pct d);
          run_pipeline.outlier_impact :=
            quality_spec.outlier_penalty (scorer_inputs.total_outliers o);
          run_pipeline.inconsistency_impact :=
            quality_spec.inconsistency_penalty (scorer_inputs.issues i) |}.
Proof.
  intros q; subst q; split; [|split].
  - rewrite score_formula; unfold quality_spec.score, quality_spec.missing_penalty.
    rewrite <- column_penalty_sum_by_tier; lia.
  - reflexivity.
  - unfold run_pipeline.calculate_quality_score; simpl.
    rewrite missing_penalty_loop.
    unfold quality_spec.missing_penalty; rewrite <- column_penalty_sum_by_tier.
    unfold scorer_inputs.percentages; rewrite map_map.
    reflexivity.
Qed.

(** C3: when every per-column missing percentage, the duplicate percentage,
    the total outlier count and the inconsistency-issue count of a second
    set of reports are at least those of a first one (so also when a single
    one of them grows and the others stay), the second score is at most
    the first; and every score lies between 0 and 100. *)
Theorem quality_score_monotone_and_bounded
    (m1 m2 : missing_values.report) (d1 d2 : duplicates.report)
    (o1 o2 : outliers.report) (i1 i2 : inconsistencies.report) :
  Forall2 Qle (scorer_inputs.percentages m1) (scorer_inputs.percentages m2) ->
  (scorer_inputs.dup_pct d1 <= scorer_inputs.dup_pct d2)%Q ->
  (scorer_inputs.total_outliers o1 <= scorer_inputs.total_outliers o2)%Z ->
  (scorer_inputs.issues i1 <= scorer_inputs.issues i2)%Z ->
  (run_pipeline.score (run_pipeline.calculate_quality_score m2 d2 o2 i2)
   <= run_pipeline.score (run_pipeline.calculate_quality_score m1 d1 o1 i1))%Z
  /\ (0 <= run_pipeline.score (run_pipeline.calculate_quality_score m1 d1 o1 i1) <= 100)%Z.
Proof.
  intros Hm Hd Ho Hi; rewrite !score_formula.
  pose proof (column_penalty_sum_monotone _ _ Hm).
  pose proof (column_penalty_sum_nonneg (scorer_inputs.percentages m1)).
  pose proof (duplicate_penalty_monotone _ _ Hd).
  pose proof (outlier_penalty_monotone _ _ Ho).
  pose proof (inconsistency_penalty_monotone _ _ Hi).
  pose proof (penalty_bounds (scorer_inputs.dup_pct d1)
                (scorer_inputs.total_outliers o1) (scorer_inputs.issues i1)).
  lia.
Qed.

(** C10: for all four reports the four penalties add up to at most 70, the
    score is 100 minus their sum (the floor at 0 never applies) and is at
    least 30, and the grade is "Critical" exactly when the score lies in
    [30, 39]. *)
Theorem quality_score_at_least_30 (m : missing_values.report)
    (d : duplicates.report) (o : outliers.report) (i : inconsistencies.report) :
  let q := run_pipeline.calculate_quality_score m d o i in
  let b := run_pipeline.breakdown q in
  let total_penalty :=
    (run_pipeline.missing_data_impact b + run_pipeline.duplicate_impact b
     + run_pipeline.outlier_impact b + run_pipeline.inconsistency_impact b)%Z in
  (total_penalty <= 70)%Z
  /\ run_pipeline.score q = (100 - total_penalty)%Z
  /\ (30 <= run_pipeline.score q)%Z
  /\ String.eqb (run_pipeline.grade q) "Critical"
     = ((30 <=? run_pipeline.score q)%Z && (run_pipeline.score q <=? 39)%Z).
Proof.
  intros q b total_penalty.
  assert (Hs : run_pipeline.score q
               = Z.max (100
                        - Z.min (scorer_inputs.Zsum
                                   (map scorer_inputs.column_penalty
                                        (scorer_inputs.percentages m))) 30
                        - quality_spec.duplicate_penalty (scorer_inputs.dup_pct d)
                        - quality_spec.outlier_penalty (scorer_inputs.total_outliers o)
                        - quality_spec.inconsistency_penalty (scorer_inputs.issues i)) 0)
    by apply score_formula.
  assert (Hb : total_penalty
               = (Z.min (scorer_inputs.Zsum
                           (map scorer_inputs.column_penalty
                                (scorer_inputs.percentages m))) 30
                  + quality_spec.duplicate_penalty (scorer_inputs.dup_pct d)
                  + quality_spec.outlier_penalty (scorer_inputs.total_outliers o)
                  + quality_spec.inconsistency_penalty (scorer_inputs.issues i))%Z).
  { subst total_penalty b q.
    unfold run_pipeline.calculate_quality_score; simpl.
    rewrite missing_penalty_loop.
    unfold scorer_inputs.percentages; rewrite map_map.
    reflexivity. }
  assert (Hg : run_pipeline.grade q = run_pipeline.grade_of (run_pipeline.score q))
    by apply grade_formula.
  clearbody total_penalty; clear b; clearbody q.
  pose proof (column_penalty_sum_nonneg (scorer_inputs.percentages m)).
  pose proof (penalty_bounds (scorer_inputs.dup_pct d)
                (scorer_inputs.total_outliers o) (scorer_inputs.issues i)).
  destruct H0 as (Hdup & Hout & Hinc).
  revert Hs Hb H Hdup Hout Hinc.
  generalize (scorer_inputs.Zsum
                (map scorer_inputs.column_penalty (scorer_inputs.percentages m))),
    (quality_spec.duplicate_penalty (scorer_inputs.dup_pct d)),
    (quality_spec.outlier_penalty (scorer_inputs.total_outliers o)),
    (quality_spec.inconsistency_penalty (scorer_inputs.issues i)).
  intros mp dp op ip Hs Hb Hmp Hdup Hout Hinc.
  assert (Hmin : (0 <= Z.min mp 30 <= 30)%Z) by lia.
  assert (Hge : (30 <= run_pipeline.score q)%Z) by (rewrite Hs; lia).
  split; [rewrite Hb; lia|].
  split; [rewrite Hs, Hb; lia|].
  split; [exact Hge|].
  rewrite Hg; unfold run_pipeline.grade_of.
  destruct (Z.leb_spec 90 (run_pipeline.score q)),
    (Z.leb_spec 75 (run_pipeline.score q)), (Z.leb_spec 60 (run_pipeline.score q)),
    (Z.leb_spec 40 (run_pipeline.score q)), (Z.leb_spec 30 (run_pipeline.score q)),
    (Z.leb_spec (run_pipeline.score q) 39);
    try lia; reflexivity.
Qed.

Lemma quality_score_monotone_and_bounded_witness :
  (run_pipeline.score
     (run_pipeline.calculate_quality_score
        samples.more_missing (duplicates.analyze_duplicates samples.three_equal_names)
        (samples.outlier_report 120) (samples.inconsistency_report 2 1 1))
   <= run_pipeline.score
        (run_pipeline.calculate_quality_score
           samples.few_missing (duplicates.analyze_duplicates samples.padded_names)
           (samples.outlier_report 60) (samples.inconsistency_report 1 0 1)))%Z
  /\ (0 <= run_pipeline.score
             (run_pipeline.calculate_quality_score
                samples.few_missing (duplicates.analyze_duplicates samples.padded_names)
                (samples.outlier_report 60) (samples.inconsistency_report 1 0 1))
      <= 100)%Z.
Proof.
  apply quality_score_monotone_and_bounded.
  - repeat constructor; unfold Qle; simpl; lia.
  - unfold Qle; vm_compute; discriminate.
  - vm_compute; discriminate.
  - vm_compute; discriminate.
Defined.

(** The sample scores: 84 and 55 for the two sets of reports above, and the
    lowest score, 30, with every penalty at its cap. *)
Example quality_score_samples :
  run_pipeline.score
    (run_pipeline.calculate_quality_score
       samples.few_missing (duplicates.analyze_duplicates samples.padded_names)
       (samples.outlier_report 60) (samples.inconsistency_report 1 0 1)) = 84%Z
  /\ run_pipeline.score
       (run_pipeline.calculate_quality_score
          samples.more_missing (duplicates.analyze_duplicates samples.three_equal_names)
          (samples.outlier_report 120) (samples.inconsistency_report 2 1 1)) = 55%Z
  /\ (let q := run_pipeline.calculate_quality_score
                 samples.many_missing
                 (duplicates.analyze_duplicates samples.three_equal_names)
                 (samples.outlier_report 101) (samples.inconsistency_report 2 2 2) in
      (run_pipeline.score q, run_pipeline.grade q)) = (30%Z, "Critical").
Proof. repeat split; vm_compute; reflexivity. Qed.

(** ** The inconsistency analyzer *)

(** C4: on a dataset whose only text column shows one finding, the
    inconsistent value lengths (reported under ["inconsistent_formats"] and
    in the suggestions), the issue-column total is 0 and the severity is
    "None": the total adds five of the six kinds of finding and leaves this
    one out, whereas a total over every kind of finding would be 1 and the
    severity "Low". *)
Theorem length_finding_not_counted :
  let r := inconsistencies.analyze_inconsistencies samples.uneven_lengths in
  inconsistencies.summary r = inconsistencies.Summary 1 0 "None"
  /\ option_map (map fst) (inconsistencies.inconsistent_formats r) = Some ["label"]
  /\ map fst (inconsistencies.suggestions r) = ["label"]
  /\ inconsistencies.severity_of 1 = "Low".
Proof.
  repeat split; vm_compute; reflexivity.
Qed.

(** The total that the analyzer grades, for every dataset with a text or
    categorical column: strip, case, special-character, mixed-alphanumeric
    and rare-category columns, each kind counted on its own. *)
Lemma analyze_inconsistencies_total (df : Pandas.DataFrame) :
  Pandas.select_dtypes inconsistencies.is_categorical df <> [] ->
  let r := inconsistencies.analyze_inconsistencies df in
  let total :=
    (run_pipeline.dict_len (inconsistencies.strip_issues r)
     + run_pipeline.dict_len (inconsistencies.case_issues r)
     + run_pipeline.dict_len (inconsistencies.special_char_issues r)
     + Py.len (inconsistencies.mixed_alphanumeric r)
     + Py.len (inconsistencies.rare_categories r))%Z in
  inconsistencies.summary r
  = inconsistencies.Summary
      (Py.len (Pandas.select_dtypes inconsistencies.is_categorical df))
      total (inconsistencies.severity_of total).
Proof.
  intros Hcat; unfold inconsistencies.analyze_inconsistencies.
  destruct (Pandas.select_dtypes inconsistencies.is_categorical df) as [|c cs] eqn:E;
    [congruence|].
  replace (Py.len (c :: cs) =? 0)%Z with false
    by (symmetry; apply Z.eqb_neq; unfold Py.len; simpl; lia).
  reflexivity.
Qed.

(** ** Duplicate removal in the cleaning stage *)

Lemma duplicated_after_drop (rs seen seen' : list Pandas.row) :
  (forall r, existsb (Pandas.row_eqb r) seen' = true ->
             existsb (Pandas.row_eqb r) seen = true) ->
  filter (fun b : bool => b)
         (Pandas.duplicated_from seen'
            (Pandas.mask_filter (map negb (Pandas.duplicated_from seen rs)) rs))
  = [].
Proof.
  revert seen seen'; induction rs as [|r rs IH]; intros seen seen' Hcover;
    [reflexivity|].
  cbn [Pandas.duplicated_from map Pandas.mask_filter].
  destruct (existsb (Pandas.row_eqb r) seen) eqn:Er; cbn [negb].
  - apply IH; intros x Hx.
    cbn [existsb]; rewrite (Hcover x Hx); apply orb_true_r.
  - cbn [Pandas.duplicated_from filter].
    destruct (existsb (Pandas.row_eqb r) seen') eqn:Er'.
    + rewrite (Hcover r Er') in Er; discriminate.
    + apply IH; intros x; cbn [existsb].
      destruct (Pandas.row_eqb x r); [reflexivity|].
      cbn [orb]; apply Hcover.
Qed.

Lemma drop_duplicates_leaves_none (df : Pandas.DataFrame) :
  Pandas.duplicate_count (Pandas.drop_duplicates df) = 0%Z.
Proof.
  unfold Pandas.duplicate_count, Py.count_true, Pandas.drop_duplicates,
    Pandas.duplicated, Pandas.duplicated_rows; cbn [Pandas.rows].
  rewrite (duplicated_after_drop (Pandas.rows df) [] []); auto.
Qed.

(** C1, as the code has it: with [duplicate_strategy="remove"], a
    duplicate report that carries a duplicate count, text normalisation
    switched off and every other option at its default, the cleaned dataset
    has no exact full-row duplicate. *)
Theorem clean_dataset_remove_leaves_no_duplicates
    (to_datetime : string -> option Z) (df : Pandas.DataFrame)
    (duplicate_report : duplicates.report) :
  duplicates.duplicate_count duplicate_report <> None ->
  Pandas.duplicate_count
    (cleaning.clean_dataset to_datetime df None None None (Some duplicate_report)
                            "remove" "median" "clip" false false)
  = 0%Z.
Proof.
  intros Hcount; unfold cleaning.clean_dataset, cleaning.handle_duplicates.
  destruct (duplicates.duplicate_count duplicate_report); [|congruence].
  cbn [String.eqb Ascii.eqb Bool.eqb].
  unfold Pandas.reset_index, Pandas.copy.
  apply drop_duplicates_leaves_none.
Qed.

Lemma clean_dataset_remove_leaves_no_duplicates_witness :
  Pandas.duplicate_count
    (cleaning.clean_dataset samples.no_dates samples.padded_names None None None
       (Some (duplicates.analyze_duplicates samples.padded_names))
       "remove" "median" "clip" false false)
  = 0%Z.
Proof.
  apply clean_dataset_remove_leaves_no_duplicates.
  simpl; discriminate.
Defined.

(** C1 as stated fails twice.  With every other option at its default there
    is no duplicate report, and the duplicates are flagged, not removed:
    three equal rows leave one exact duplicate.  And with the report of the
    duplicate analyzer supplied, the text normalisation that follows the
    removal makes two rows equal that differed by a blank. *)
Lemma clean_dataset_remove_keeps_duplicates :
  Pandas.duplicate_count
    (cleaning.clean_dataset samples.no_dates samples.three_equal_names
                            None None None None
                            "remove" "median" "clip" true false)
  = 1%Z
  /\ Pandas.duplicate_count
       (cleaning.clean_dataset samples.no_dates samples.padded_names
          None None None
          (Some (duplicates.analyze_duplicates samples.padded_names))
          "remove" "median" "clip" true false)
     = 1%Z.
Proof.
  split; vm_compute; reflexivity.
Qed.

(** The sample runs of the imputation and of the outlier step. *)
Example impute_readings_unknown_strategy :
  Pandas.get_col (cleaning.impute_missing_values samples.readings "mode") "value"
  = [Pandas.Num 1; Pandas.Num (6 # 2); Pandas.Num 2; Pandas.Num 4; Pandas.Num 3;
     Pandas.Num 100].
Proof. vm_compute; reflexivity. Qed.

Example outliers_readings_removed :
  Pandas.len
    (cleaning.handle_outliers samples.readings
       (Some {| outliers.numeric_columns := Some ["value"; "site"; "absent"];
                outliers.total_outliers := Some 1%Z |}) "remove")
  = 4%Z.
Proof. vm_compute; reflexivity. Qed.

Lemma impute_unknown_strategy_is_median_witness :
  cleaning.impute_missing_values samples.readings "mode"
  = cleaning.impute_missing_values samples.readings "median".
Proof.
  apply impute_unknown_strategy_is_median; discriminate.
Defined.

(** ** The drift analyzer on a dataset and its copy *)

Lemma insert_sorted_In (x y : Q) (l : list Q) :
  In y (Pandas.insert_sorted x l) <-> y = x \/ In y l.
Proof.
  induction l as [|z l IH]; simpl; [intuition|].
  destruct (Qle_bool x z); simpl; [intuition|].
  rewrite IH; intuition.
Qed.

Lemma sort_In (y : Q) (l : list Q) : In y (Pandas.sort l) <-> In y l.
Proof.
  unfold Pandas.sort; induction l as [|x l IH]; simpl; [reflexivity|].
  rewrite insert_sorted_In, IH; intuition.
Qed.

(** An exact result within the finite range is the float64 result. *)
Lemma round_finite (q : Q) :
  (- Float64.max <= q)%Q -> (q <= Float64.max)%Q ->
  Float64.round q = Float64.Finite q.
Proof.
  intros Hlo Hhi; unfold Float64.round.
  destruct (Qlt_bool_spec Float64.max q); [lra|].
  destruct (Qlt_bool_spec q (- Float64.max)); [lra | reflexivity].
Qed.

Lemma max_float_positive : (0 < Float64.max)%Q.
Proof. reflexivity. Qed.

(** Two samples with the same values are at distance 0 as long as no gap
    between two neighbours of [all_values] overflows. *)
Lemma cdf_distance_self (u all_values : list Q) :
  StronglySorted Qle all_values ->
  (forall c, In c u -> In c all_values) ->
  (forall a b, In a all_values -> In b all_values ->
               (Float64.max < b - a)%Q -> exists c, In c u /\ (a < c)%Q /\ (c < b)%Q) ->
  exists z, drift.cdf_distance u u all_values = Float64.Finite z /\ (z == 0)%Q.
Proof.
  pose proof max_float_positive as Hmax.
  intros Hsorted Hall Hgap.
  assert (Hlow : forall c, In c u ->
                   In c all_values \/ Forall (fun x => (c <= x)%Q) all_values)
    by (intros c Hc; left; now apply Hall).
  assert (Hup : forall a b, In a all_values -> In b all_values ->
                  (Float64.max < b - a)%Q ->
                  exists c, In c u /\ (a < c)%Q /\ (c < b)%Q) by exact Hgap.
  clear Hall Hgap; revert Hlow Hup.
  induction Hsorted as [|a l Hl IH Ha]; intros Hlow Hup;
    [exists 0%Q; split; reflexivity|].
  destruct l as [|b l]; [exists 0%Q; split; reflexivity|].
  destruct IH as (z & Hz & Hz0).
  { intros c Hc; destruct (Hlow c Hc) as [[<-|Hin]|Hle].
    - right; exact Ha.
    - now left.
    - right; now inversion Hle. }
  { intros x y Hx Hy; apply Hup; now right. }
  change (drift.cdf_distance u u (a :: b :: l))
    with (Float64.add
            (Float64.mul (Float64.Finite (Qabs (drift.cdf u a - drift.cdf u a)))
                         (Float64.sub (Float64.Finite b) (Float64.Finite a)))
            (drift.cdf_distance u u (b :: l))).
  rewrite Hz.
  assert (Hab : (a <= b)%Q) by (inversion Ha; assumption).
  assert (Hba : (b - a <= Float64.max)%Q).
  { apply Qnot_lt_le; intros Hbig.
    destruct (Hup a b) as (c & Hc & Hac & Hcb); [now left | right; now left | exact Hbig |].
    destruct (Hlow c Hc) as [[<-|[<-|Hin]]|Hle].
    - lra.
    - lra.
    - inversion Hl as [|? ? _ Hb]; subst.
      rewrite Forall_forall in Hb; specialize (Hb c Hin); lra.
    - inversion Hle; lra. }
  assert (Hzero : (Qabs (drift.cdf u a - drift.cdf u a) == 0)%Q).
  { setoid_replace (drift.cdf u a - drift.cdf u a)%Q with 0%Q by ring; reflexivity. }
  unfold Float64.sub, Float64.opp, Float64.add at 2.
  rewrite round_finite by lra.
  unfold Float64.mul; rewrite round_finite by (rewrite Hzero; lra).
  unfold Float64.add; rewrite round_finite by (rewrite Hzero, Hz0; lra).
  eexists; split; [reflexivity|]; rewrite Hzero, Hz0; ring.
Qed.

Lemma insert_sorted_sorted (x : Q) (l : list Q) :
  StronglySorted Qle l -> StronglySorted Qle (Pandas.insert_sorted x l).
Proof.
  induction 1 as [|z l Hl IH Hz]; simpl; [repeat constructor|].
  destruct (Qle_bool_spec x z) as [Hxz|Hzx].
  - constructor; [now constructor|].
    constructor; [assumption|].
    eapply Forall_impl; [|exact Hz].
    intros a Ha; now apply Qle_trans with z.
  - constructor; [assumption|].
    apply Forall_forall; intros a Ha.
    apply insert_sorted_In in Ha as [->|Ha].
    + now apply Qlt_le_weak.
    + rewrite Forall_forall in Hz; now apply Hz.
Qed.

Lemma sort_sorted (l : list Q) : StronglySorted Qle (Pandas.sort l).
Proof.
  unfold Pandas.sort; induction l as [|x l IH]; simpl; [constructor|].
  now apply insert_sorted_sorted.
Qed.

Lemma wasserstein_distance_self (u : list Q) :
  (forall a b, In a u -> In b u -> (Float64.max < b - a)%Q ->
               exists c, In c u /\ (a < c)%Q /\ (c < b)%Q) ->
  exists z, drift.wasserstein_distance u u = Float64.Finite z /\ (z == 0)%Q.
Proof.
  intros Hgap; apply cdf_distance_self.
  - apply sort_sorted.
  - intros c Hc; apply sort_In, in_or_app; now left.
  - intros a b Ha Hb; apply sort_In, in_app_or in Ha; apply sort_In, in_app_or in Hb.
    apply Hgap; tauto.
Qed.

Lemma Qmin_list_pick (P : Q -> Prop) (x0 : Q) (xs : list Q) :
  P x0 -> Forall P xs -> P (Pandas.Qmin_list x0 xs).
Proof.
  intros H0; induction 1 as [|x xs Hx _ IH]; simpl; [assumption|].
  destruct (Qle_bool x (Pandas.Qmin_list x0 xs)); assumption.
Qed.

Lemma Qmax_list_pick (P : Q -> Prop) (x0 : Q) (xs : list Q) :
  P x0 -> Forall P xs -> P (Pandas.Qmax_list x0 xs).
Proof.
  intros H0; induction 1 as [|x xs Hx _ IH]; simpl; [assumption|].
  destruct (Qle_bool (Pandas.Qmax_list x0 xs) x); assumption.
Qed.

Lemma ks_statistic_self (u : list Q) : (drift.ks_statistic u u == 0)%Q.
Proof.
  unfold drift.ks_statistic.
  assert (Hzero : Forall (fun x => x == 0)%Q
                    (map (fun t => (drift.cdf u t - drift.cdf u t)%Q) (u ++ u))).
  { apply Forall_forall; intros x Hx; apply in_map_iff in Hx as (t & <- & _); ring. }
  destruct (map _ (u ++ u)) as [|d0 ds]; [reflexivity|].
  assert (Hd0 : (d0 == 0)%Q) by (inversion Hzero; assumption).
  pose proof (Qmin_list_pick (fun x => x == 0)%Q d0 (d0 :: ds) Hd0 Hzero) as Hmin.
  pose proof (Qmax_list_pick (fun x => x == 0)%Q d0 (d0 :: ds) Hd0 Hzero) as Hmax.
  revert Hmin Hmax.
  generalize (Pandas.Qmin_list d0 (d0 :: ds)), (Pandas.Qmax_list d0 (d0 :: ds)).
  intros lo hi Hlo Hhi; unfold drift.Qmax, drift.Qclip.
  destruct (Qlt_bool_spec (- lo) 0), (Qlt_bool_spec 1 (- lo));
    match goal with |- context [Qle_bool ?a ?b] => destruct (Qle_bool a b) end;
    lra.
Qed.

Lemma ks_pvalue_self (ks_sf : nat -> nat -> Q -> Q) (u : list Q) :
  snd (drift.ks_2samp ks_sf u u) = 1%Q.
Proof.
  unfold drift.ks_2samp, drift.ks_pvalue; simpl.
  replace (Qeq_bool (drift.ks_statistic u u) 0) with true; [reflexivity|].
  symmetry; apply Qeq_bool_iff, ks_statistic_self.
Qed.

Lemma Qmin_list_In (x0 : Q) (xs : list Q) :
  Pandas.Qmin_list x0 xs = x0 \/ In (Pandas.Qmin_list x0 xs) xs.
Proof.
  induction xs as [|x xs IH]; simpl; [now left|].
  destruct (Qle_bool x (Pandas.Qmin_list x0 xs)); [right; now left|].
  destruct IH as [->|IH]; [now left | right; now right].
Qed.

Lemma Qmax_list_In (x0 : Q) (xs : list Q) :
  Pandas.Qmax_list x0 xs = x0 \/ In (Pandas.Qmax_list x0 xs) xs.
Proof.
  induction xs as [|x xs IH]; simpl; [now left|].
  destruct (Qle_bool (Pandas.Qmax_list x0 xs) x); [right; now left|].
  destruct IH as [->|IH]; [now left | right; now right].
Qed.

Lemma column_drift_self (ks_sf : nat -> nat -> Q -> Q) (xs : list Q)
    (info : drift.drift_info) :
  (forall a b, In a xs -> In b xs -> (Float64.max < b - a)%Q ->
               exists c, In c xs /\ (a < c)%Q /\ (c < b)%Q) ->
  drift.column_drift ks_sf xs xs = Some info ->
  (exists z, drift.normalized_drift info = Float64.Finite z /\ (z == 0)%Q)
  /\ drift.distribution_changed info = false.
Proof.
  intros Hgap; unfold drift.column_drift.
  destruct xs as [|x0 xs']; [discriminate|].
  set (xs := x0 :: xs') in *.
  pose proof (ks_pvalue_self ks_sf xs) as Hp.
  destruct (drift.ks_2samp ks_sf xs xs) as [stat pval]; simpl in Hp; subst pval.
  intros Hinfo.
  apply (f_equal (fun o => match o with Some v => v | None => info end)) in Hinfo.
  cbv beta iota in Hinfo; subst info.
  cbn [drift.normalized_drift drift.distribution_changed]; split; [|reflexivity].
  destruct (wasserstein_distance_self xs Hgap) as (z & -> & Hz).
  generalize (Pandas.Qmin_list x0 xs), (Pandas.Qmax_list x0 xs); intros lo hi.
  pose proof max_float_positive as Hpos.
  unfold Float64.sub, Float64.opp, Float64.add, Float64.round.
  destruct (Qlt_bool_spec Float64.max (hi + - lo)) as [_|Hhi];
    [exists 0%Q; split; reflexivity|].
  destruct (Qlt_bool_spec (hi + - lo) (- Float64.max)) as [_|Hlo];
    [exists 0%Q; split; reflexivity|].
  unfold Float64.ltb.
  destruct (Qlt_bool_spec 0 (hi + - lo)) as [Hgt|_];
    [|exists 0%Q; split; reflexivity].
  unfold Float64.div.
  replace (Qeq_bool (hi + - lo) 0) with false
    by (symmetry; apply not_true_iff_false; intros E; apply Qeq_bool_iff in E; lra).
  assert (Hq : (z / (hi + - lo) == 0)%Q) by (rewrite Hz; field; lra).
  rewrite round_finite by (rewrite Hq; lra).
  eexists; split; [reflexivity | exact Hq].
Qed.

Lemma insert_sorted_cons (x : Q) (l : list Q) :
  exists y l', Pandas.insert_sorted x l = y :: l'.
Proof.
  destruct l as [|z l]; simpl; [eauto|]; destruct (Qle_bool x z); eauto.
Qed.

Lemma median_of_values (x : Q) (xs : list Q) :
  exists m, Pandas.median (x :: xs) = Some m.
Proof.
  unfold Pandas.median, Pandas.quantile, Pandas.sort; cbn [fold_right].
  destruct (insert_sorted_cons x (fold_right Pandas.insert_sorted [] xs))
    as (y & l' & ->).
  unfold Pandas.quantile_sorted; eauto.
Qed.

Lemma column_drift_defined (ks_sf : nat -> nat -> Q -> Q) (old_data new_data : list Q) :
  old_data <> [] -> new_data <> [] ->
  exists info, drift.column_drift ks_sf old_data new_data = Some info.
Proof.
  destruct old_data as [|o0 old']; [congruence|].
  destruct new_data as [|n0 new']; [congruence|]; intros _ _.
  unfold drift.column_drift.
  destruct (drift.ks_2samp ks_sf (o0 :: old') (n0 :: new')); eauto.
Qed.

Lemma dict_get_set_same {V : Type} (k : string) (v : V) (d : Py.dict V) :
  Py.dict_get k (Py.dict_set k v d) = Some v.
Proof.
  induction d as [|[k' v'] d IH]; simpl.
  - now rewrite String.eqb_refl.
  - destruct (String.eqb k k') eqn:E; simpl; rewrite ?String.eqb_refl, ?E; auto.
Qed.

Lemma dict_get_set_present {V : Type} (k k' : string) (v : V) (d : Py.dict V) :
  Py.dict_get k d <> None -> Py.dict_get k (Py.dict_set k' v d) <> None.
Proof.
  induction d as [|[k0 v0] d IH]; simpl; [congruence|].
  destruct (String.eqb k' k0) eqn:E'; simpl.
  - apply String.eqb_eq in E'; subst k0.
    destruct (String.eqb k k') eqn:E; [discriminate | auto].
  - destruct (String.eqb k k0); [discriminate | auto].
Qed.

Lemma dict_get_In {V : Type} (k : string) (v : V) (d : Py.dict V) :
  Py.dict_get k d = Some v -> In (k, v) d.
Proof.
  induction d as [|[k' v'] d IH]; simpl; [discriminate|].
  destruct (String.eqb k k') eqn:E.
  - apply String.eqb_eq in E; subst k'; intros [= ->]; now left.
  - intros H; right; auto.
Qed.

Lemma dict_set_Forall {V : Type} (P : string * V -> Prop) (k : string) (v : V)
    (d : Py.dict V) :
  P (k, v) -> Forall P d -> Forall P (Py.dict_set k v d).
Proof.
  intros Hkv; induction 1 as [|[k' v'] d Hx Hd IH]; simpl; [auto|].
  destruct (String.eqb k k'); constructor; assumption.
Qed.

Section DriftOnCopy.

Variable ks_sf : nat -> nat -> Q -> Q.
Variable df : Pandas.DataFrame.

(** An entry that was computed from its own column, on both sides. *)
Let from_column (entry : string * drift.drift_info) : Prop :=
  exists xs, Pandas.numeric_values (Pandas.get_col df (fst entry)) = Some xs
             /\ drift.column_drift ks_sf xs xs = Some (snd entry).

Lemma check_column_copy_from_column (details : Py.dict drift.drift_info)
    (col : string) :
  Forall from_column details ->
  Forall from_column (drift.check_column ks_sf df (Pandas.copy df) details col).
Proof.
  intros Hd; unfold drift.check_column, Pandas.copy.
  destruct (Pandas.numeric_values (Pandas.get_col df col)) as [xs|] eqn:Hxs;
    [|assumption].
  destruct (_ || _); [assumption|].
  destruct (drift.column_drift ks_sf xs xs) as [info|] eqn:E; [|assumption].
  apply dict_set_Forall; [|assumption].
  exists xs; split; assumption.
Qed.

Lemma check_column_keeps (details : Py.dict drift.drift_info) (col c : string) :
  Py.dict_get col details <> None ->
  Py.dict_get col (drift.check_column ks_sf df (Pandas.copy df) details c) <> None.
Proof.
  intros Hd; unfold drift.check_column, Pandas.copy.
  destruct (Pandas.numeric_values (Pandas.get_col df c)) as [xs|]; [|assumption].
  destruct (_ || _); [assumption|].
  destruct (drift.column_drift ks_sf xs xs); [|assumption].
  now apply dict_get_set_present.
Qed.

Lemma check_column_adds (details : Py.dict drift.drift_info) (col : string)
    (xs : list Q) :
  Pandas.numeric_values (Pandas.get_col df col) = Some xs ->
  (10 <= List.length xs)%nat ->
  Py.dict_get col (drift.check_column ks_sf df (Pandas.copy df) details col) <> None.
Proof.
  intros Hxs Hlen; unfold drift.check_column, Pandas.copy; rewrite Hxs.
  replace (List.length xs <? 10)%nat with false
    by (symmetry; apply Nat.ltb_ge; exact Hlen).
  cbn [orb].
  destruct (column_drift_defined ks_sf xs xs) as (info & ->);
    try (intros ->; simpl in Hlen; lia).
  rewrite dict_get_set_same; discriminate.
Qed.

Lemma drift_loop_keeps (cols : list string) (details : Py.dict drift.drift_info)
    (col : string) :
  Py.dict_get col details <> None ->
  Py.dict_get col
    (fold_left (drift.check_column ks_sf df (Pandas.copy df)) cols details) <> None.
Proof.
  revert details; induction cols as [|c cols IH]; intros details Hd; simpl; [assumption|].
  now apply IH, check_column_keeps.
Qed.

Lemma drift_loop_adds (cols : list string) (details : Py.dict drift.drift_info)
    (col : string) (xs : list Q) :
  In col cols ->
  Pandas.numeric_values (Pandas.get_col df col) = Some xs ->
  (10 <= List.length xs)%nat ->
  Py.dict_get col
    (fold_left (drift.check_column ks_sf df (Pandas.copy df)) cols details) <> None.
Proof.
  intros Hin Hxs Hlen; revert details.
  induction cols as [|c cols IH]; intros details; [contradiction|].
  simpl; destruct Hin as [-> | Hin]; [|now apply IH].
  apply drift_loop_keeps, (check_column_adds details col xs Hxs Hlen).
Qed.

(** C6, as amended: the drift analyzer on a dataset of finite values and
    an identical copy reports, for every qualifying numeric column
    (numeric on both sides, not an identifier by name, at least 10 values
    that are not missing) in which no two neighbouring values lie further
    apart than the largest float64 (any two values further apart have a
    value of the column between them), an entry whose [normalized_drift]
    is 0 (the zero-range case included) and whose [distribution_changed]
    is false. *)
Theorem analyze_drift_of_copy (col : string) (xs : list Q) :
  In col (drift.numeric_cols df (Pandas.copy df)) ->
  Pandas.numeric_values (Pandas.get_col df col) = Some xs ->
  (10 <= List.length xs)%nat ->
  (forall a b, In a xs -> In b xs -> (Float64.max < b - a)%Q ->
               exists c, In c xs /\ (a < c)%Q /\ (c < b)%Q) ->
  exists info : drift.drift_info,
    Py.dict_get col (drift.drift_details (drift.analyze_drift ks_sf df (Pandas.copy df)))
    = Some info
    /\ (exists z, drift.normalized_drift info = Float64.Finite z /\ (z == 0)%Q)
    /\ drift.distribution_changed info = false.
Proof.
  intros Hin Hxs Hlen Hgap; unfold drift.analyze_drift.
  destruct (drift.numeric_cols df (Pandas.copy df)) as [|c cols] eqn:Ecols;
    [contradiction|].
  replace (Py.len (c :: cols) =? 0)%Z with false
    by (symmetry; apply Z.eqb_neq; unfold Py.len; simpl; lia).
  cbn [drift.drift_details].
  pose proof (drift_loop_adds (c :: cols) [] col xs Hin Hxs Hlen) as Hsome.
  assert (Hall : Forall from_column
                   (fold_left (drift.check_column ks_sf df (Pandas.copy df))
                              (c :: cols) [])).
  { apply (fold_left_invariant (Forall from_column)); [|constructor].
    intros details c' Hd; now apply check_column_copy_from_column. }
  destruct (Py.dict_get col _) as [info|] eqn:E; [|congruence].
  exists info; split; [reflexivity|].
  apply dict_get_In in E.
  destruct (proj1 (Forall_forall _ _) Hall _ E) as (ys & Hys & Hinfo).
  cbn [fst snd] in Hys, Hinfo.
  assert (ys = xs) by congruence; subst ys.
  exact (column_drift_self ks_sf xs info Hgap Hinfo).
Qed.

End DriftOnCopy.

Lemma analyze_drift_of_copy_witness :
  exists info : drift.drift_info,
    Py.dict_get "amount"
      (drift.drift_details
         (drift.analyze_drift samples.small_tail samples.amounts
                              (Pandas.copy samples.amounts)))
    = Some info
    /\ (exists z, drift.normalized_drift info = Float64.Finite z /\ (z == 0)%Q)
    /\ drift.distribution_changed info = false.
Proof.
  apply (analyze_drift_of_copy samples.small_tail samples.amounts "amount"
           (map (fun n => inject_Z n * (5 # 2))%Q [1; 2; 3; 4; 5; 6; 7; 8; 9; 10]%Z)).
  - vm_compute; left; reflexivity.
  - vm_compute; reflexivity.
  - simpl; lia.
  - intros a b Ha Hb Hbig; exfalso.
    assert (Hsmall : (25 <= Float64.max)%Q) by (vm_compute; discriminate).
    assert (Hrange : forall x,
               In x (map (fun n => inject_Z n * (5 # 2))%Q
                         [1; 2; 3; 4; 5; 6; 7; 8; 9; 10]%Z) ->
               (0 <= x)%Q /\ (x <= 25)%Q).
    { intros x Hx; simpl in Hx.
      repeat (destruct Hx as [<-|Hx]; [split; vm_compute; discriminate|]).
      destruct Hx. }
    destruct (Hrange a Ha), (Hrange b Hb); lra.
Defined.

(** C6 as stated fails where float64 arithmetic leaves the finite range:
    the readings are finite, the column qualifies, but its largest gap
    overflows to infinity, 0 times infinity is NaN, and the entry of the
    dataset against its own copy has a [normalized_drift] of NaN, not 0,
    and the severity "High", NaN being below no threshold. *)
Lemma drift_of_copy_overflows :
  In "reading" (drift.numeric_cols samples.extremes (Pandas.copy samples.extremes))
  /\ option_map (@List.length Q)
       (Pandas.numeric_values (Pandas.get_col samples.extremes "reading"))
     = Some 10%nat
  /\ option_map (fun info => (drift.normalized_drift info,
                              drift.distribution_changed info,
                              drift.severity info))
       (Py.dict_get "reading"
          (drift.drift_details
             (drift.analyze_drift samples.small_tail samples.extremes
                                  (Pandas.copy samples.extremes))))
     = Some (Float64.NaN, false, "High").
Proof.
  repeat split; vm_compute; auto.
Qed.

(** The analyzer does report drift between two datasets that differ. *)
Example drift_of_raised_amounts :
  option_map (fun info => (Float64.eqb (drift.normalized_drift info)
                                       (Float64.Finite (2 # 9)),
                           drift.distribution_changed info,
                           drift.severity info))
    (Py.dict_get "amount"
       (drift.drift_details
          (drift.analyze_drift samples.small_tail samples.amounts
                               samples.raised_amounts)))
  = Some (true, true, "Low").
Proof. vm_compute; reflexivity. Qed.

(** * Further properties of the pipeline *)

(** ** Equality of rows *)

Lemma cell_eqb_refl (c : Pandas.cell) : Pandas.cell_eqb c c = true.
Proof.
  destruct c as [|q|s|b|t]; simpl; auto using Qeq_bool_refl, String.eqb_refl, Z.eqb_refl.
  now destruct b.
Qed.

Lemma cell_eqb_sym (a b : Pandas.cell) : Pandas.cell_eqb a b = Pandas.cell_eqb b a.
Proof.
  destruct a, b; simpl; auto using Qeq_bool_comm, String.eqb_sym, Z.eqb_sym.
  now destruct b0, b.
Qed.

Lemma cell_eqb_trans (a b c : Pandas.cell) :
  Pandas.cell_eqb a b = true -> Pandas.cell_eqb b c = true -> Pandas.cell_eqb a c = true.
Proof.
  destruct a, b; simpl; try discriminate; destruct c; simpl; try discriminate; auto.
  - apply Qeq_bool_trans.
  - intros H1 H2; apply String.eqb_eq in H1, H2; subst; apply String.eqb_refl.
  - intros H1 H2; apply Bool.eqb_prop in H1, H2; subst; apply Bool.eqb_reflx.
  - intros H1 H2; apply Z.eqb_eq in H1, H2; subst; apply Z.eqb_refl.
Qed.

Lemma row_eqb_refl (r : Pandas.row) : Pandas.row_eqb r r = true.
Proof.
  induction r as [|c r IH]; simpl; [reflexivity|].
  now rewrite cell_eqb_refl, IH.
Qed.

Lemma row_eqb_sym (r s : Pandas.row) : Pandas.row_eqb r s = Pandas.row_eqb s r.
Proof.
  revert s; induction r as [|a r IH]; intros [|b s]; simpl; auto.
  now rewrite cell_eqb_sym, IH.
Qed.

Lemma row_eqb_trans (r s t : Pandas.row) :
  Pandas.row_eqb r s = true -> Pandas.row_eqb s t = true -> Pandas.row_eqb r t = true.
Proof.
  revert s t; induction r as [|a r IH]; intros [|b s] [|c t]; simpl;
    try discriminate; auto.
  intros H1 H2; apply andb_true_iff in H1 as [H1 H1'], H2 as [H2 H2'].
  apply andb_true_iff; split; [eapply cell_eqb_trans | eapply IH]; eassumption.
Qed.

(** ** Removing duplicates *)

Lemma count_true_app (l1 l2 : list bool) :
  Py.count_true (l1 ++ l2) = (Py.count_true l1 + Py.count_true l2)%Z.
Proof.
  unfold Py.count_true, Py.len; rewrite filter_app, length_app; lia.
Qed.

Lemma mask_filter_complement {A : Type} (flags : list bool) (rs : list A) :
  List.length flags = List.length rs ->
  (Py.len (Pandas.mask_filter (map negb flags) rs) = Py.len rs - Py.count_true flags)%Z.
Proof.
  unfold Py.count_true, Py.len.
  revert rs; induction flags as [|b flags IH]; intros [|r rs] Hlen;
    try discriminate.
  - reflexivity.
  - injection Hlen as Hlen; specialize (IH rs Hlen).
    cbn [map Pandas.mask_filter filter List.length] in *.
    destruct b; cbn [negb List.length]; lia.
Qed.

Lemma drop_duplicates_len (df : Pandas.DataFrame) :
  Pandas.len (Pandas.drop_duplicates df)
  = (Pandas.len df - Pandas.duplicate_count df)%Z.
Proof.
  unfold Pandas.len, Pandas.drop_duplicates, Pandas.duplicate_count; simpl.
  apply mask_filter_complement.
  unfold Pandas.duplicated, Pandas.duplicated_rows; apply duplicated_from_length.
Qed.

(** X1: removing duplicates with the report of the duplicate analyzer
    leaves exactly the [unique_rows] that this report announces. *)
Theorem remove_leaves_unique_rows (df : Pandas.DataFrame) :
  Pandas.len (cleaning.handle_duplicates df (Some (duplicates.analyze_duplicates df))
                                         "remove")
  = duplicates.unique_rows (duplicates.analyze_duplicates df).
Proof.
  unfold cleaning.handle_duplicates; cbn.
  unfold Pandas.reset_index; rewrite drop_duplicates_len; reflexivity.
Qed.

Lemma flag_duplicates_len (df : Pandas.DataFrame) :
  Pandas.len (cleaning.flag_duplicates df) = Pandas.len df.
Proof. apply assign_len. Qed.

Lemma drop_duplicates_len_le (df : Pandas.DataFrame) :
  (Pandas.len (Pandas.drop_duplicates df) <= Pandas.len df)%Z.
Proof.
  rewrite drop_duplicates_len.
  pose proof (count_true_bounds (Pandas.duplicated df)).
  unfold Pandas.duplicate_count; lia.
Qed.

Lemma handle_duplicates_len_le (df : Pandas.DataFrame)
    (duplicate_report : option duplicates.report) (strategy : string) :
  (Pandas.len (cleaning.handle_duplicates df duplicate_report strategy)
   <= Pandas.len df)%Z.
Proof.
  unfold cleaning.handle_duplicates, Pandas.reset_index.
  pose proof (flag_duplicates_len df); pose proof (drop_duplicates_len_le df).
  destruct duplicate_report as [r|]; [|lia].
  destruct (duplicates.duplicate_count r); [|lia].
  repeat match goal with
         | |- context [if ?b then _ else _] => destruct b
         end; lia.
Qed.

(** X2: whatever the report and the strategy, [handle_duplicates] returns at
    most as many rows as it was given, and exactly as many unless the
    strategy is "remove" or "auto". *)
Theorem handle_duplicates_row_count (df : Pandas.DataFrame)
    (duplicate_report : option duplicates.report) (strategy : string) :
  (Pandas.len (cleaning.handle_duplicates df duplicate_report strategy)
   <= Pandas.len df)%Z
  /\ (Pandas.len (cleaning.handle_duplicates df duplicate_report strategy)
      = Pandas.len df
      \/ strategy = "remove" \/ strategy = "auto").
Proof.
  split; [apply handle_duplicates_len_le|].
  unfold cleaning.handle_duplicates.
  pose proof (flag_duplicates_len df).
  destruct duplicate_report as [r|]; [|now left].
  destruct (duplicates.duplicate_count r); [|now left].
  destruct (String.eqb_spec strategy "keep"); [now left|].
  destruct (String.eqb_spec strategy "flag"); [now left|].
  destruct (String.eqb_spec strategy "remove"); [now right; left|].
  destruct (String.eqb_spec strategy "auto"); [now right; right|].
  now left.
Qed.

(** ** Severity of duplicates in whole numbers *)

Lemma ratio_percent_lt (k n c : Z) :
  (0 < n)%Z -> (0 < c)%Z ->
  (inject_Z k / inject_Z n * 100 < inject_Z c)%Q <-> (100 * k < c * n)%Z.
Proof.
  intros Hn Hc.
  destruct n as [|p|p]; try lia.
  rewrite <- Qmake_Qdiv.
  unfold Qlt, Qmult, inject_Z; cbn [Qnum Qden].
  rewrite Pos.mul_1_r; lia.
Qed.

Lemma ratio_percent_zero (k n : Z) :
  (0 < n)%Z -> (inject_Z k / inject_Z n * 100 == 0)%Q <-> k = 0%Z.
Proof.
  intros Hn.
  destruct n as [|p|p]; try lia.
  rewrite <- Qmake_Qdiv.
  unfold Qeq, Qmult, inject_Z; cbn [Qnum Qden]; lia.
Qed.

Lemma analyze_duplicates_severity (df : Pandas.DataFrame) :
  duplicates.severity (duplicates.analyze_duplicates df)
  = Some (if (Pandas.duplicate_count df =? 0)%Z then "None"
          else if (100 * Pandas.duplicate_count df <? Pandas.len df)%Z then "Low"
          else if (100 * Pandas.duplicate_count df <? 5 * Pandas.len df)%Z then "Medium"
          else "High").
Proof.
  unfold duplicates.analyze_duplicates; cbn [duplicates.severity].
  fold (Pandas.duplicate_count df).
  pose proof (count_true_bounds (Pandas.duplicated df)) as Hb.
  fold (Pandas.duplicate_count df) in Hb.
  assert (Ht : Py.len (Pandas.duplicated df) = Pandas.len df).
  { unfold Py.len, Pandas.len, Pandas.duplicated, Pandas.duplicated_rows.
    now rewrite duplicated_from_length. }
  rewrite Ht in Hb; clear Ht.
  generalize dependent (Pandas.duplicate_count df); intros dc Hb.
  generalize dependent (Pandas.len df); intros n Hb.
  f_equal; unfold duplicates.get_severity.
  destruct (Z.ltb_spec 0 n) as [Hn|Hn].
  - pose proof (ratio_percent_zero dc n Hn) as Hz.
    pose proof (ratio_percent_lt dc n 1 Hn eq_refl) as H1.
    pose proof (ratio_percent_lt dc n 5 Hn eq_refl) as H5.
    destruct (Qeq_bool _ 0) eqn:E0.
    + apply Qeq_bool_iff, Hz in E0; subst dc; reflexivity.
    + assert (dc <> 0%Z) as Hdc
        by (intros ->; apply Qeq_bool_neq in E0; apply E0, Hz; reflexivity).
      replace (dc =? 0)%Z with false by (symmetry; now apply Z.eqb_neq).
      destruct (Qlt_bool_spec (inject_Z dc / inject_Z n * 100) 1) as [Hlt|Hge].
      * apply H1 in Hlt.
        replace (100 * dc <? n)%Z with true by (symmetry; apply Z.ltb_lt; lia).
        reflexivity.
      * replace (100 * dc <? n)%Z with false
          by (symmetry; apply Z.ltb_ge;
              destruct (Z.lt_ge_cases (100 * dc) (1 * n)) as [Hc|Hc];
              [apply H1 in Hc; exfalso; apply (Qlt_not_le _ _ Hc Hge) | lia]).
        destruct (Qlt_bool_spec (inject_Z dc / inject_Z n * 100) 5) as [Hlt5|Hge5].
        -- apply H5 in Hlt5.
           replace (100 * dc <? 5 * n)%Z with true by (symmetry; now apply Z.ltb_lt).
           reflexivity.
        -- replace (100 * dc <? 5 * n)%Z with false
             by (symmetry; apply Z.ltb_ge;
                 destruct (Z.lt_ge_cases (100 * dc) (5 * n)) as [Hc|Hc];
                 [apply H5 in Hc; exfalso; apply (Qlt_not_le _ _ Hc Hge5) | lia]).
           reflexivity.
  - assert (dc = 0%Z) by lia; subst dc; reflexivity.
Qed.

(** X3: the severity in the report of the duplicate analyzer is "None"
    exactly when no row is a duplicate, "Low" below 1% of the rows, "Medium"
    from 1% and below 5%, and "High" from 5% on, all decided on the two
    whole-number counts. *)
Theorem duplicate_severity_by_counts (df : Pandas.DataFrame) :
  let r := duplicates.analyze_duplicates df in
  exists dc : Z,
    duplicates.duplicate_count r = Some dc
    /\ duplicates.severity r
       = Some (if (dc =? 0)%Z then "None"
               else if (100 * dc <? duplicates.total_rows r)%Z then "Low"
               else if (100 * dc <? 5 * duplicates.total_rows r)%Z then "Medium"
               else "High").
Proof.
  intros r; exists (Pandas.duplicate_count df); split; [reflexivity|].
  subst r; rewrite analyze_duplicates_severity; reflexivity.
Qed.

(** X4: with the report of the duplicate analyzer, strategy "auto" removes
    the duplicates when they are at least 1% of the rows and flags them
    otherwise. *)
Theorem auto_removes_from_one_percent (df : Pandas.DataFrame) :
  cleaning.handle_duplicates df (Some (duplicates.analyze_duplicates df)) "auto"
  = if (0 <? Pandas.duplicate_count df)%Z
       && (Pandas.len df <=? 100 * Pandas.duplicate_count df)%Z
    then Pandas.drop_duplicates df
    else cleaning.flag_duplicates df.
Proof.
  unfold cleaning.handle_duplicates.
  rewrite analyze_duplicates_severity.
  cbn [duplicates.analyze_duplicates duplicates.duplicate_count Py.get
       String.eqb Ascii.eqb Bool.eqb].
  pose proof (count_true_bounds (Pandas.duplicated df)) as Hb.
  fold (Pandas.duplicate_count df) in Hb.
  unfold Pandas.reset_index.
  destruct (Z.eqb_spec (Pandas.duplicate_count df) 0) as [->|Hne]; [reflexivity|].
  replace (0 <? Pandas.duplicate_count df)%Z with true
    by (symmetry; apply Z.ltb_lt; lia).
  destruct (Z.ltb_spec (100 * Pandas.duplicate_count df) (Pandas.len df)).
  - replace (Pandas.len df <=? 100 * Pandas.duplicate_count df)%Z with false
      by (symmetry; apply Z.leb_gt; lia).
    reflexivity.
  - replace (Pandas.len df <=? 100 * Pandas.duplicate_count df)%Z with true
      by (symmetry; apply Z.leb_le; lia).
    destruct (_ <? _)%Z; reflexivity.
Qed.

(** ** What duplicate removal keeps *)

Lemma duplicated_from_app (seen a b : list Pandas.row) :
  Pandas.duplicated_from seen (a ++ b)
  = Pandas.duplicated_from seen a ++ Pandas.duplicated_from (rev a ++ seen) b.
Proof.
  revert seen; induction a as [|r a IH]; intros seen; simpl; [reflexivity|].
  now rewrite IH, <- app_assoc.
Qed.

Lemma duplicated_from_all_seen (seen rs : list Pandas.row) :
  (forall r, In r rs -> existsb (Pandas.row_eqb r) seen = true) ->
  Pandas.duplicated_from seen rs = repeat true (List.length rs).
Proof.
  revert seen; induction rs as [|r rs IH]; intros seen Hseen; simpl; [reflexivity|].
  rewrite (Hseen r (or_introl eq_refl)); f_equal.
  apply IH; intros x Hx; simpl.
  rewrite (Hseen x (or_intror Hx)); apply orb_true_r.
Qed.

Lemma count_true_repeat (n : nat) : Py.count_true (repeat true n) = Z.of_nat n.
Proof.
  unfold Py.count_true, Py.len; induction n as [|n IH]; [reflexivity|].
  cbn [repeat filter List.length]; lia.
Qed.

Lemma existsb_row_of_In (r : Pandas.row) (rs : list Pandas.row) :
  In r rs -> existsb (Pandas.row_eqb r) rs = true.
Proof.
  intros Hin; apply existsb_exists; exists r; split; [assumption | apply row_eqb_refl].
Qed.

(** X5: on a dataset made of the rows of [df] followed by the same rows once
    more, the duplicate analyzer counts every row of [df] as a duplicate on
    top of those that [df] had. *)
Theorem duplicate_count_of_doubled (df : Pandas.DataFrame) :
  duplicates.duplicate_count
    (duplicates.analyze_duplicates
       {| Pandas.columns := Pandas.columns df;
          Pandas.rows := Pandas.rows df ++ Pandas.rows df |})
  = Some (Pandas.len df + Pandas.duplicate_count df)%Z.
Proof.
  unfold duplicates.analyze_duplicates; cbn [duplicates.duplicate_count]; f_equal.
  unfold Pandas.duplicated, Pandas.duplicated_rows; cbn [Pandas.rows].
  rewrite duplicated_from_app, count_true_app.
  rewrite (duplicated_from_all_seen (rev (Pandas.rows df) ++ []) (Pandas.rows df)).
  - rewrite count_true_repeat.
    unfold Pandas.duplicate_count, Pandas.duplicated, Pandas.duplicated_rows,
      Pandas.len, Py.len; lia.
  - intros r Hr; apply existsb_row_of_In, in_or_app; left; now apply in_rev in Hr.
Qed.

Lemma drop_keeps_a_twin (rs seen : list Pandas.row) (r : Pandas.row) :
  In r rs ->
  existsb (Pandas.row_eqb r)
          (Pandas.mask_filter (map negb (Pandas.duplicated_from seen rs)) rs ++ seen)
  = true.
Proof.
  revert seen; induction rs as [|a rs IH]; intros seen Hin; [contradiction|].
  cbn [Pandas.duplicated_from map Pandas.mask_filter].
  destruct (existsb (Pandas.row_eqb a) seen) eqn:Ea; cbn [negb].
  - destruct Hin as [->|Hin].
    + rewrite existsb_app, Ea; apply orb_true_r.
    + specialize (IH (a :: seen) Hin).
      rewrite existsb_app in *; cbn [existsb] in IH.
      destruct (existsb _ (Pandas.mask_filter _ _)); [reflexivity|].
      cbn [orb] in *.
      destruct (Pandas.row_eqb r a) eqn:Era; [|assumption].
      apply existsb_exists in Ea as (s & Hs & Eas).
      apply existsb_exists; exists s; split; [assumption|].
      eapply row_eqb_trans; eassumption.
  - cbn [app existsb].
    destruct Hin as [->|Hin]; [now rewrite row_eqb_refl|].
    specialize (IH (a :: seen) Hin).
    rewrite existsb_app in *; cbn [existsb] in IH.
    destruct (Pandas.row_eqb r a); [reflexivity|].
    assumption.
Qed.

Lemma drop_duplicates_keeps_rows (df : Pandas.DataFrame) :
  (forall r, In r (Pandas.rows df) ->
             exists r', In r' (Pandas.rows (Pandas.drop_duplicates df))
                        /\ Pandas.row_eqb r r' = true)
  /\ (forall r', In r' (Pandas.rows (Pandas.drop_duplicates df)) ->
                 In r' (Pandas.rows df)).
Proof.
  split.
  - intros r Hr.
    pose proof (drop_keeps_a_twin (Pandas.rows df) [] r Hr) as H.
    rewrite app_nil_r in H; apply existsb_exists in H as (r' & Hin & Heq).
    exists r'; split; assumption.
  - unfold Pandas.drop_duplicates; cbn [Pandas.rows].
    generalize (map negb (Pandas.duplicated df)); intros mask.
    revert mask; induction (Pandas.rows df) as [|a rs IH]; intros [|b mask] r' Hin;
      simpl in Hin; try contradiction.
    destruct b; [destruct Hin as [->|Hin]; [now left|]|]; right; eapply IH; eassumption.
Qed.

Lemma handle_duplicates_remove (df : Pandas.DataFrame) (r : duplicates.report) :
  duplicates.duplicate_count r <> None ->
  cleaning.handle_duplicates df (Some r) "remove" = Pandas.drop_duplicates df.
Proof.
  intros Hcount; unfold cleaning.handle_duplicates.
  destruct (duplicates.duplicate_count r); [reflexivity | congruence].
Qed.

(** X6: with strategy "remove" and a report that carries a duplicate count,
    [handle_duplicates] loses no distinct row and invents none: every row of
    the dataset is equal to a row that is kept, every kept row is a row of
    the dataset, and the schema is unchanged. *)
Theorem remove_keeps_every_distinct_row (df : Pandas.DataFrame)
    (report : duplicates.report) :
  duplicates.duplicate_count report <> None ->
  let out := cleaning.handle_duplicates df (Some report) "remove" in
  (forall r, In r (Pandas.rows df) ->
             exists r', In r' (Pandas.rows out) /\ Pandas.row_eqb r r' = true)
  /\ (forall r', In r' (Pandas.rows out) -> In r' (Pandas.rows df))
  /\ Pandas.columns out = Pandas.columns df.
Proof.
  intros Hcount out; subst out; rewrite (handle_duplicates_remove df report Hcount).
  destruct (drop_duplicates_keeps_rows df) as [Hall Hsub].
  repeat split; assumption.
Qed.

Lemma remove_keeps_every_distinct_row_witness :
  let out := cleaning.handle_duplicates samples.three_equal_names
               (Some (duplicates.analyze_duplicates samples.three_equal_names))
               "remove" in
  (forall r, In r (Pandas.rows samples.three_equal_names) ->
             exists r', In r' (Pandas.rows out) /\ Pandas.row_eqb r r' = true)
  /\ (forall r', In r' (Pandas.rows out) ->
                 In r' (Pandas.rows samples.three_equal_names))
  /\ Pandas.columns out = Pandas.columns samples.three_equal_names.
Proof.
  apply remove_keeps_every_distinct_row; discriminate.
Defined.

Lemma mask_filter_all {A : Type} (rs : list A) :
  Pandas.mask_filter (repeat true (List.length rs)) rs = rs.
Proof. induction rs as [|r rs IH]; simpl; [reflexivity | now rewrite IH]. Qed.

Lemma no_true_is_repeat_false (l : list bool) :
  filter (fun b : bool => b) l = [] -> map negb l = repeat true (List.length l).
Proof.
  induction l as [|b l IH]; simpl; [reflexivity|].
  destruct b; [discriminate|]; intros H; simpl; now rewrite IH.
Qed.

Lemma drop_duplicates_twice (df : Pandas.DataFrame) :
  Pandas.drop_duplicates (Pandas.drop_duplicates df) = Pandas.drop_duplicates df.
Proof.
  unfold Pandas.drop_duplicates at 1.
  pose proof (duplicated_after_drop (Pandas.rows df) [] [] (fun r H => H)) as Hnone.
  fold (Pandas.duplicated_rows (Pandas.rows df)) in Hnone.
  change (Pandas.mask_filter (map negb (Pandas.duplicated_rows (Pandas.rows df)))
                             (Pandas.rows df))
    with (Pandas.rows (Pandas.drop_duplicates df)) in Hnone.
  fold (Pandas.duplicated_rows (Pandas.rows (Pandas.drop_duplicates df))) in Hnone.
  unfold Pandas.duplicated.
  rewrite (no_true_is_repeat_false _ Hnone).
  unfold Pandas.duplicated_rows; rewrite duplicated_from_length, mask_filter_all.
  now destruct (Pandas.drop_duplicates df).
Qed.

(** X7: removing duplicates a second time (strategy "remove", a report that
    carries a duplicate count) changes nothing. *)
Theorem remove_twice_is_remove_once (df : Pandas.DataFrame)
    (report : duplicates.report) :
  duplicates.duplicate_count report <> None ->
  cleaning.handle_duplicates
    (cleaning.handle_duplicates df (Some report) "remove") (Some report) "remove"
  = cleaning.handle_duplicates df (Some report) "remove".
Proof.
  intros Hcount; rewrite !(handle_duplicates_remove _ report Hcount).
  apply drop_duplicates_twice.
Qed.

Lemma remove_twice_is_remove_once_witness :
  cleaning.handle_duplicates
    (cleaning.handle_duplicates samples.three_equal_names
       (Some (duplicates.analyze_duplicates samples.three_equal_names)) "remove")
    (Some (duplicates.analyze_duplicates samples.three_equal_names)) "remove"
  = cleaning.handle_duplicates samples.three_equal_names
      (Some (duplicates.analyze_duplicates samples.three_equal_names)) "remove".
Proof.
  apply remove_twice_is_remove_once; discriminate.
Defined.

(** ** Columns of a frame *)

Lemma index_of_nth_error (name : string) (names : list string) (k : nat) :
  Pandas.index_of name names = Some k -> nth_error names k = Some name.
Proof.
  revert k; induction names as [|n names IH]; intros k; simpl; [discriminate|].
  destruct (String.eqb_spec name n) as [->|Hne].
  - intros [= <-]; reflexivity.
  - destruct (Pandas.index_of name names) as [k'|]; simpl; [|discriminate].
    intros [= <-]; simpl; now apply IH.
Qed.

Lemma index_of_In (name : string) (names : list string) :
  In name names -> Pandas.index_of name names <> None.
Proof.
  induction names as [|n names IH]; simpl; [contradiction|].
  destruct (String.eqb_spec name n); [discriminate|].
  intros [->|Hin]; [congruence|].
  destruct (Pandas.index_of name names); [discriminate | now apply IH in Hin].
Qed.

Lemma column_at_index (df : Pandas.DataFrame) (name : string) (k : nat) :
  Pandas.index_of name (Pandas.column_names df) = Some k ->
  nth_error (Pandas.columns df) k = Some (name, Pandas.col_dtype df name)
  /\ (k < List.length (Pandas.columns df))%nat.
Proof.
  intros Hk; unfold Pandas.col_dtype; rewrite Hk.
  apply index_of_nth_error in Hk; unfold Pandas.column_names in Hk.
  rewrite nth_error_map in Hk.
  destruct (nth_error (Pandas.columns df) k) as [[n dt]|] eqn:E; [|discriminate].
  injection Hk as ->; split.
  - now rewrite (nth_error_nth _ _ _ E).
  - apply nth_error_Some; congruence.
Qed.

Lemma replace_nth_same {A : Type} (k : nat) (x : A) (l : list A) :
  nth_error l k = Some x -> Pandas.replace_nth k x l = l.
Proof.
  revert l; induction k as [|k IH]; intros [|y l]; simpl; try discriminate.
  - now intros [= ->].
  - intros H; now rewrite IH.
Qed.

Lemma replace_nth_length {A : Type} (k : nat) (x : A) (l : list A) :
  List.length (Pandas.replace_nth k x l) = List.length l.
Proof.
  revert l; induction k as [|k IH]; intros [|y l]; simpl; auto.
Qed.

Lemma nth_replace_nth_other {A : Type} (k k' : nat) (x d : A) (l : list A) :
  k' <> k -> nth k' (Pandas.replace_nth k x l) d = nth k' l d.
Proof.
  revert k' l; induction k as [|k IH]; intros [|k'] [|y l] Hne; simpl; auto; lia.
Qed.

Lemma nth_replace_nth_same {A : Type} (k : nat) (x d : A) (l : list A) :
  (k < List.length l)%nat -> nth k (Pandas.replace_nth k x l) d = x.
Proof.
  revert l; induction k as [|k IH]; intros [|y l] Hlt; simpl in *; try lia; auto.
  apply IH; lia.
Qed.

(** Assigning to a column that exists, under its own dtype, leaves the
    schema as it is. *)
Lemma assign_existing_columns (df : Pandas.DataFrame) (col : string)
    (vals : list Pandas.cell) :
  Pandas.has_column df col = true ->
  Pandas.columns (Pandas.assign df col (Pandas.col_dtype df col) vals)
  = Pandas.columns df.
Proof.
  unfold Pandas.has_column, Pandas.assign; cbn [Pandas.columns].
  destruct (Pandas.index_of col (Pandas.column_names df)) as [k|] eqn:Hk;
    [intros _ | discriminate].
  apply replace_nth_same, (column_at_index df col k Hk).
Qed.

Lemma assign_existing_rectangular (df : Pandas.DataFrame) (col : string)
    (vals : list Pandas.cell) :
  Pandas.has_column df col = true ->
  frames.rectangular df ->
  frames.rectangular (Pandas.assign df col (Pandas.col_dtype df col) vals).
Proof.
  intros Hcol Hrect; unfold frames.rectangular.
  rewrite (assign_existing_columns df col vals Hcol).
  unfold Pandas.assign; cbn [Pandas.rows].
  unfold frames.rectangular in Hrect.
  unfold Pandas.has_column in Hcol.
  destruct (Pandas.index_of col (Pandas.column_names df)) as [k|]; [|discriminate].
  revert vals; induction Hrect as [|r rs Hr _ IH]; intros vals; simpl; constructor.
  - now rewrite replace_nth_length.
  - apply IH.
Qed.

Lemma get_col_length (df : Pandas.DataFrame) (col : string) :
  Pandas.has_column df col = true ->
  List.length (Pandas.get_col df col) = List.length (Pandas.rows df).
Proof.
  unfold Pandas.has_column, Pandas.get_col.
  destruct (Pandas.index_of col (Pandas.column_names df)); [|discriminate].
  intros _; apply length_map.
Qed.

Lemma assign_rows_other (k k' : nat) (rs : list Pandas.row) (vals : list Pandas.cell) :
  k' <> k ->
  map (Pandas.cell_at k') (Pandas.assign_rows (Some k) rs vals)
  = map (Pandas.cell_at k') rs.
Proof.
  intros Hne; revert vals; induction rs as [|r rs IH]; intros vals; simpl;
    [reflexivity|].
  rewrite IH; f_equal; unfold Pandas.cell_at; now apply nth_replace_nth_other.
Qed.

Lemma assign_rows_same (k n : nat) (rs : list Pandas.row) (vals : list Pandas.cell) :
  Forall (fun r => List.length r = n) rs -> (k < n)%nat ->
  List.length vals = List.length rs ->
  map (Pandas.cell_at k) (Pandas.assign_rows (Some k) rs vals) = vals.
Proof.
  intros Hrect Hk; revert vals.
  induction Hrect as [|r rs Hr _ IH]; intros [|v vals] Hlen; simpl in *;
    try discriminate; [reflexivity|].
  injection Hlen as Hlen; rewrite (IH vals Hlen); f_equal.
  unfold Pandas.cell_at; apply nth_replace_nth_same; lia.
Qed.

Lemma assign_existing_names (df : Pandas.DataFrame) (col : string)
    (vals : list Pandas.cell) :
  Pandas.has_column df col = true ->
  Pandas.column_names (Pandas.assign df col (Pandas.col_dtype df col) vals)
  = Pandas.column_names df.
Proof.
  intros H; unfold Pandas.column_names; now rewrite assign_existing_columns.
Qed.

(** Reading back the column that was assigned, and any other one. *)
Lemma get_col_assign_same (df : Pandas.DataFrame) (col : string)
    (vals : list Pandas.cell) :
  Pandas.has_column df col = true ->
  frames.rectangular df ->
  List.length vals = List.length (Pandas.rows df) ->
  Pandas.get_col (Pandas.assign df col (Pandas.col_dtype df col) vals) col = vals.
Proof.
  intros Hcol Hrect Hlen; unfold Pandas.get_col.
  rewrite (assign_existing_names df col vals Hcol).
  unfold Pandas.has_column in Hcol.
  destruct (Pandas.index_of col (Pandas.column_names df)) as [k|] eqn:Hk;
    [|discriminate].
  unfold Pandas.assign; rewrite Hk; cbn [Pandas.rows].
  apply (assign_rows_same k (List.length (Pandas.columns df))); auto.
  apply (column_at_index df col k Hk).
Qed.

Lemma get_col_assign_other (df : Pandas.DataFrame) (col col' : string)
    (vals : list Pandas.cell) :
  Pandas.has_column df col = true ->
  col' <> col ->
  Pandas.get_col (Pandas.assign df col (Pandas.col_dtype df col) vals) col'
  = Pandas.get_col df col'.
Proof.
  intros Hcol Hne; unfold Pandas.get_col.
  rewrite (assign_existing_names df col vals Hcol).
  unfold Pandas.has_column in Hcol.
  destruct (Pandas.index_of col (Pandas.column_names df)) as [k|] eqn:Hk;
    [|discriminate].
  destruct (Pandas.index_of col' (Pandas.column_names df)) as [k'|] eqn:Hk';
    [|reflexivity].
  unfold Pandas.assign; rewrite Hk; cbn [Pandas.rows].
  apply assign_rows_other; intros ->.
  apply index_of_nth_error in Hk, Hk'; congruence.
Qed.

(** *** Assigning under another dtype *)

Lemma map_fst_replace_nth {A B : Type} (k : nat) (a : A) (b b' : B)
    (l : list (A * B)) :
  nth_error l k = Some (a, b) ->
  map fst (Pandas.replace_nth k (a, b') l) = map fst l.
Proof.
  revert l; induction k as [|k IH]; intros [|x l] H; simpl in *; try discriminate.
  - now injection H as ->.
  - f_equal; now apply IH.
Qed.

Lemma assign_names (df : Pandas.DataFrame) (col : string) (dt : Pandas.dtype)
    (vals : list Pandas.cell) :
  Pandas.has_column df col = true ->
  Pandas.column_names (Pandas.assign df col dt vals) = Pandas.column_names df.
Proof.
  intros Hcol; unfold Pandas.has_column in Hcol.
  destruct (Pandas.index_of col (Pandas.column_names df)) as [k|] eqn:Hk;
    [|discriminate].
  unfold Pandas.assign; rewrite Hk.
  unfold Pandas.column_names at 1; cbn [Pandas.columns].
  apply (map_fst_replace_nth k col (Pandas.col_dtype df col)).
  apply (column_at_index df col k Hk).
Qed.

Lemma assign_has_column (df : Pandas.DataFrame) (col c : string)
    (dt : Pandas.dtype) (vals : list Pandas.cell) :
  Pandas.has_column df col = true ->
  Pandas.has_column (Pandas.assign df col dt vals) c = Pandas.has_column df c.
Proof.
  intros H; unfold Pandas.has_column; now rewrite assign_names.
Qed.

Lemma assign_rectangular (df : Pandas.DataFrame) (col : string)
    (dt : Pandas.dtype) (vals : list Pandas.cell) :
  Pandas.has_column df col = true ->
  frames.rectangular df ->
  frames.rectangular (Pandas.assign df col dt vals).
Proof.
  intros Hcol Hrect; unfold frames.rectangular.
  assert (Hlen : List.length (Pandas.columns (Pandas.assign df col dt vals))
                 = List.length (Pandas.columns df)).
  { rewrite <- (length_map fst), <- (length_map fst (Pandas.columns df)).
    exact (f_equal (@List.length string) (assign_names df col dt vals Hcol)). }
  rewrite Hlen; clear Hlen.
  unfold Pandas.assign; cbn [Pandas.rows].
  unfold frames.rectangular in Hrect.
  unfold Pandas.has_column in Hcol.
  destruct (Pandas.index_of col (Pandas.column_names df)) as [k|]; [|discriminate].
  revert vals; induction Hrect as [|r rs Hr _ IH]; intros vals; simpl; constructor.
  - now rewrite replace_nth_length.
  - apply IH.
Qed.

Lemma get_col_assign (df : Pandas.DataFrame) (col : string) (dt : Pandas.dtype)
    (vals : list Pandas.cell) :
  Pandas.has_column df col = true ->
  frames.rectangular df ->
  List.length vals = List.length (Pandas.rows df) ->
  Pandas.get_col (Pandas.assign df col dt vals) col = vals.
Proof.
  intros Hcol Hrect Hlen; unfold Pandas.get_col.
  rewrite (assign_names df col dt vals Hcol).
  unfold Pandas.has_column in Hcol.
  destruct (Pandas.index_of col (Pandas.column_names df)) as [k|] eqn:Hk;
    [|discriminate].
  unfold Pandas.assign; rewrite Hk; cbn [Pandas.rows].
  apply (assign_rows_same k (List.length (Pandas.columns df))); auto.
  apply (column_at_index df col k Hk).
Qed.

Lemma get_col_assign_apart (df : Pandas.DataFrame) (col col' : string)
    (dt : Pandas.dtype) (vals : list Pandas.cell) :
  Pandas.has_column df col = true ->
  col' <> col ->
  Pandas.get_col (Pandas.assign df col dt vals) col' = Pandas.get_col df col'.
Proof.
  intros Hcol Hne; unfold Pandas.get_col.
  rewrite (assign_names df col dt vals Hcol).
  unfold Pandas.has_column in Hcol.
  destruct (Pandas.index_of col (Pandas.column_names df)) as [k|] eqn:Hk;
    [|discriminate].
  destruct (Pandas.index_of col' (Pandas.column_names df)) as [k'|] eqn:Hk';
    [|reflexivity].
  unfold Pandas.assign; rewrite Hk; cbn [Pandas.rows].
  apply assign_rows_other; intros ->.
  apply index_of_nth_error in Hk, Hk'; congruence.
Qed.

Lemma col_dtype_assign (df : Pandas.DataFrame) (col : string) (dt : Pandas.dtype)
    (vals : list Pandas.cell) :
  Pandas.has_column df col = true ->
  Pandas.col_dtype (Pandas.assign df col dt vals) col = dt.
Proof.
  intros Hcol; unfold Pandas.col_dtype.
  rewrite (assign_names df col dt vals Hcol).
  unfold Pandas.has_column in Hcol.
  destruct (Pandas.index_of col (Pandas.column_names df)) as [k|] eqn:Hk;
    [|discriminate].
  unfold Pandas.assign; rewrite Hk; cbn [Pandas.columns].
  rewrite nth_replace_nth_same; [reflexivity|].
  apply (column_at_index df col k Hk).
Qed.

Lemma col_dtype_assign_apart (df : Pandas.DataFrame) (col col' : string)
    (dt : Pandas.dtype) (vals : list Pandas.cell) :
  Pandas.has_column df col = true ->
  col' <> col ->
  Pandas.col_dtype (Pandas.assign df col dt vals) col' = Pandas.col_dtype df col'.
Proof.
  intros Hcol Hne; unfold Pandas.col_dtype.
  rewrite (assign_names df col dt vals Hcol).
  unfold Pandas.has_column in Hcol.
  destruct (Pandas.index_of col (Pandas.column_names df)) as [k|] eqn:Hk;
    [|discriminate].
  destruct (Pandas.index_of col' (Pandas.column_names df)) as [k'|] eqn:Hk';
    [|reflexivity].
  unfold Pandas.assign; rewrite Hk; cbn [Pandas.columns].
  rewrite nth_replace_nth_other; [reflexivity|].
  intros ->; apply index_of_nth_error in Hk, Hk'; congruence.
Qed.

(** Column by column: the names stay, and a dtype changes only as [R]
    allows. *)
Lemma Forall2_replace_nth {A B : Type} (R : A -> B -> Prop) (k : nat) (y : B)
    (l1 : list A) (l2 : list B) :
  Forall2 R l1 l2 ->
  (forall a, nth_error l1 k = Some a -> R a y) ->
  Forall2 R l1 (Pandas.replace_nth k y l2).
Proof.
  intros H; revert k; induction H as [|a b l1 l2 Hab Hrest IH]; intros k Hk.
  - destruct k; constructor.
  - destruct k as [|k]; simpl; constructor; auto.
Qed.

Lemma Forall2_nth_error {A B : Type} (R : A -> B -> Prop) (k : nat)
    (l1 : list A) (l2 : list B) (a : A) (b : B) :
  Forall2 R l1 l2 -> nth_error l1 k = Some a -> nth_error l2 k = Some b -> R a b.
Proof.
  intros H; revert k; induction H as [|x y l1 l2 Hxy _ IH]; intros [|k] Ha Hb;
    simpl in *; try discriminate.
  - congruence.
  - eauto.
Qed.

Lemma assign_columns_related (R : string * Pandas.dtype -> string * Pandas.dtype -> Prop)
    (original : list (string * Pandas.dtype)) (df : Pandas.DataFrame)
    (col : string) (dt : Pandas.dtype) (vals : list Pandas.cell) :
  Pandas.has_column df col = true ->
  Forall2 R original (Pandas.columns df) ->
  (forall a, R a (col, Pandas.col_dtype df col) -> R a (col, dt)) ->
  Forall2 R original (Pandas.columns (Pandas.assign df col dt vals)).
Proof.
  intros Hcol Hrel Hstep; unfold Pandas.has_column in Hcol.
  destruct (Pandas.index_of col (Pandas.column_names df)) as [k|] eqn:Hk;
    [|discriminate].
  unfold Pandas.assign; rewrite Hk; cbn [Pandas.columns].
  apply Forall2_replace_nth; [assumption|].
  intros a Ha; apply Hstep.
  apply (Forall2_nth_error R k original (Pandas.columns df)); try assumption.
  apply (column_at_index df col k Hk).
Qed.

(** ** Imputation *)

Lemma ffill_from_length (last : Pandas.cell) (cs : list Pandas.cell) :
  List.length (Pandas.ffill_from last cs) = List.length cs.
Proof.
  revert last; induction cs as [|c cs IH]; intros last; simpl; [reflexivity|].
  destruct (Pandas.isna c); simpl; now rewrite IH.
Qed.

Lemma bfill_ffill_length (cs : list Pandas.cell) :
  List.length (Pandas.bfill (Pandas.ffill cs)) = List.length cs.
Proof.
  unfold Pandas.bfill, Pandas.ffill.
  now rewrite length_rev, ffill_from_length, length_rev, ffill_from_length.
Qed.

Lemma count_true_isna_zero (cs : list Pandas.cell) :
  Py.count_true (map Pandas.isna cs) = 0%Z <-> frames.no_missing cs.
Proof.
  unfold Py.count_true, Py.len, frames.no_missing.
  induction cs as [|c cs IH]; simpl.
  - split; [constructor | reflexivity].
  - destruct (Pandas.isna c) eqn:E; simpl.
    + split; [lia | intros H; inversion H; congruence].
    + rewrite IH; split; [now constructor | intros H; now inversion H].
Qed.

(** What one turn of the loop does: nothing, or it assigns a series of the
    right length to a column that exists, under the column's dtype unless
    that is [object]. *)
Lemma impute_column_shape (strategy : string) (d : Pandas.DataFrame) (c : string) :
  cleaning.impute_column strategy d c = d
  \/ (Pandas.has_column d c = true
      /\ exists dt vals,
           List.length vals = List.length (Pandas.rows d)
           /\ (Pandas.col_dtype d c <> Pandas.object -> dt = Pandas.col_dtype d c)
           /\ cleaning.impute_column strategy d c = Pandas.assign d c dt vals).
Proof.
  unfold cleaning.impute_column.
  destruct (Py.count_true _ =? 0)%Z eqn:Ecount; [now left|].
  assert (Hcol : Pandas.has_column d c = true).
  { unfold Pandas.has_column; unfold Pandas.get_col in Ecount.
    destruct (Pandas.index_of c (Pandas.column_names d)); [reflexivity|].
    discriminate. }
  pose proof (get_col_length d c Hcol) as Hlen.
  assert (Hobj : forall vals,
             Pandas.col_dtype d c <> Pandas.object ->
             (if Pandas.dtype_eqb (Pandas.col_dtype d c) Pandas.object
              then Pandas.infer_objects vals else Pandas.col_dtype d c)
             = Pandas.col_dtype d c)
    by (intros vals; destruct (Pandas.col_dtype d c); simpl; congruence).
  destruct (Pandas.is_numeric _).
  - destruct (Pandas.numeric_values _); [|now left].
    destruct (cleaning.numeric_fill_value _ _); [|now left].
    destruct (_ && _); [now left|].
    right; split; [assumption|]; eexists; eexists; split; [|split; [|reflexivity]];
      [unfold Pandas.fillna; now rewrite length_map | reflexivity].
  - destruct (Pandas.dtype_eqb _ Pandas.datetime64).
    + right; split; [assumption|]; eexists; eexists; split; [|split; [|reflexivity]];
        [now rewrite bfill_ffill_length | reflexivity].
    + destruct (Pandas.mode0 _).
      * right; split; [assumption|]; eexists; eexists;
          split; [|split; [|reflexivity]];
          [unfold Pandas.fillna; now rewrite length_map | apply Hobj].
      * destruct (Pandas.dtype_eqb _ Pandas.category); [now left|].
        right; split; [assumption|]; eexists; eexists;
          split; [|split; [|reflexivity]];
          [unfold Pandas.fillna; now rewrite length_map | apply Hobj].
Qed.

Lemma impute_column_names (strategy : string) (d : Pandas.DataFrame) (c : string) :
  Pandas.column_names (cleaning.impute_column strategy d c) = Pandas.column_names d.
Proof.
  destruct (impute_column_shape strategy d c) as [->|(Hcol & dt & vals & _ & _ & ->)];
    [reflexivity | now apply assign_names].
Qed.

Lemma impute_column_len (strategy : string) (d : Pandas.DataFrame) (c : string) :
  Pandas.len (cleaning.impute_column strategy d c) = Pandas.len d.
Proof.
  destruct (impute_column_shape strategy d c) as [->|(Hcol & dt & vals & _ & _ & ->)];
    [reflexivity | apply assign_len].
Qed.

Lemma impute_column_rectangular (strategy : string) (d : Pandas.DataFrame) (c : string) :
  frames.rectangular d -> frames.rectangular (cleaning.impute_column strategy d c).
Proof.
  destruct (impute_column_shape strategy d c) as [->|(Hcol & dt & vals & _ & _ & ->)];
    [auto | now apply assign_rectangular].
Qed.

Lemma impute_column_other (strategy : string) (d : Pandas.DataFrame) (c col : string) :
  col <> c ->
  Pandas.get_col (cleaning.impute_column strategy d c) col = Pandas.get_col d col.
Proof.
  intros Hne.
  destruct (impute_column_shape strategy d c) as [->|(Hcol & dt & vals & _ & _ & ->)];
    [reflexivity | now apply get_col_assign_apart].
Qed.

Lemma impute_column_dtype_other (strategy : string) (d : Pandas.DataFrame)
    (c col : string) :
  col <> c ->
  Pandas.col_dtype (cleaning.impute_column strategy d c) col = Pandas.col_dtype d col.
Proof.
  intros Hne.
  destruct (impute_column_shape strategy d c) as [->|(Hcol & dt & vals & _ & _ & ->)];
    [reflexivity | now apply col_dtype_assign_apart].
Qed.

Lemma impute_len (df : Pandas.DataFrame) (strategy : string) :
  Pandas.len (cleaning.impute_missing_values df strategy) = Pandas.len df.
Proof.
  unfold cleaning.impute_missing_values, Pandas.copy.
  apply (fold_left_invariant (fun d => Pandas.len d = Pandas.len df)); [|reflexivity].
  intros d c Hd; now rewrite impute_column_len.
Qed.

Lemma impute_names (df : Pandas.DataFrame) (strategy : string) :
  Pandas.column_names (cleaning.impute_missing_values df strategy)
  = Pandas.column_names df.
Proof.
  unfold cleaning.impute_missing_values, Pandas.copy.
  apply (fold_left_invariant
           (fun d => Pandas.column_names d = Pandas.column_names df));
    [|reflexivity].
  intros d c Hd; now rewrite impute_column_names.
Qed.

Lemma Forall2_same {A : Type} (R : A -> A -> Prop) (l : list A) :
  (forall a, R a a) -> Forall2 R l l.
Proof. intros H; induction l; constructor; auto. Qed.


(** An object column of booleans with a blank is a [bool] column once it
    is filled, and a nullable integer column keeps a blank that only a
    fraction could fill. *)
Example impute_answers :
  let imputed := cleaning.impute_missing_values more_samples.answers "median" in
  Pandas.columns imputed = [("agreed", Pandas.boolean); ("visits", Pandas.Int64)]
  /\ Pandas.get_col imputed "agreed"
     = [Pandas.Bool true; Pandas.Bool true; Pandas.Bool false; Pandas.Bool true;
        Pandas.Bool true]
  /\ Pandas.get_col imputed "visits"
     = [Pandas.Num 1; Pandas.Num 4; Pandas.NaN; Pandas.Num 4; Pandas.Num 1].
Proof. vm_compute; auto. Qed.

(** X9: on a dataset in which no column has a missing value, imputation
    returns the dataset unchanged, whatever the strategy. *)
Theorem impute_complete_data_unchanged (df : Pandas.DataFrame) (strategy : string) :
  (forall col, In col (Pandas.column_names df) ->
               frames.no_missing (Pandas.get_col df col)) ->
  cleaning.impute_missing_values df strategy = df.
Proof.
  intros Hfull; unfold cleaning.impute_missing_values, Pandas.copy.
  assert (Hstep : forall names,
             (forall c, In c names -> In c (Pandas.column_names df)) ->
             fold_left (cleaning.impute_column strategy) names df = df).
  { induction names as [|c names IH]; intros Hsub; simpl; [reflexivity|].
    assert (Hc : cleaning.impute_column strategy df c = df).
    { unfold cleaning.impute_column.
      replace (Py.count_true (map Pandas.isna (Pandas.get_col df c)) =? 0)%Z with true;
        [reflexivity|].
      symmetry; apply Z.eqb_eq, count_true_isna_zero, Hfull, Hsub; now left. }
    rewrite Hc; apply IH; intros c' Hc'; apply Hsub; now right. }
  apply Hstep; auto.
Qed.

Lemma impute_complete_data_unchanged_witness :
  cleaning.impute_missing_values samples.amounts "mean" = samples.amounts.
Proof.
  apply impute_complete_data_unchanged.
  intros col [<-|[<-|[]]]; vm_compute; repeat constructor.
Defined.

(** *** Columns filled by imputation *)

Lemma no_missing_fillna (v : Pandas.cell) (cs : list Pandas.cell) :
  Pandas.isna v = false -> frames.no_missing (Pandas.fillna v cs).
Proof.
  intros Hv; unfold frames.no_missing, Pandas.fillna.
  apply Forall_forall; intros x Hx; apply in_map_iff in Hx as (c & <- & _).
  destruct (Pandas.isna c) eqn:E; assumption.
Qed.

Lemma ffill_from_value (last : Pandas.cell) (cs : list Pandas.cell) :
  Pandas.isna last = false -> frames.no_missing (Pandas.ffill_from last cs).
Proof.
  unfold frames.no_missing.
  revert last; induction cs as [|c cs IH]; intros last Hlast; simpl; [constructor|].
  destruct (Pandas.isna c) eqn:E; constructor; auto.
Qed.

Lemma ffill_from_tail (last : Pandas.cell) (cs : list Pandas.cell) :
  (exists c, In c cs /\ Pandas.isna c = false) ->
  exists pre post x,
    Pandas.ffill_from last cs = pre ++ post ++ [x]
    /\ frames.no_missing (post ++ [x]).
Proof.
  revert last; induction cs as [|c cs IH]; intros last (v & Hin & Hv);
    [contradiction|].
  simpl; destruct (Pandas.isna c) eqn:E.
  - destruct Hin as [->|Hin]; [congruence|].
    destruct (IH last (ex_intro _ v (conj Hin Hv))) as (pre & post & x & -> & Hgood).
    exists (last :: pre), post, x; split; [reflexivity | assumption].
  - pose proof (ffill_from_value c cs E) as Hgood.
    destruct (exists_last (l := c :: Pandas.ffill_from c cs)) as (post & x & Heq);
      [discriminate|].
    exists [], post, x; rewrite Heq; split; [reflexivity|].
    rewrite <- Heq; constructor; assumption.
Qed.

Lemma bfill_ffill_no_missing (cs : list Pandas.cell) :
  (exists c, In c cs /\ Pandas.isna c = false) ->
  frames.no_missing (Pandas.bfill (Pandas.ffill cs)).
Proof.
  intros Hval; unfold Pandas.bfill, Pandas.ffill.
  destruct (ffill_from_tail Pandas.NaN cs Hval) as (pre & post & x & -> & Hgood).
  rewrite !rev_app_distr; cbn [rev app].
  apply Forall_rev.
  apply Forall_app in Hgood as [_ Hx]; inversion Hx as [|? ? Hx' _]; subst.
  cbn [Pandas.ffill_from]; rewrite Hx'.
  constructor; [assumption | now apply ffill_from_value].
Qed.

Lemma unique_incl (cs : list Pandas.cell) (x : Pandas.cell) :
  In x (Pandas.unique cs) -> In x cs.
Proof.
  induction cs as [|c cs IH]; simpl; [auto|].
  intros [->|Hin]; [now left|].
  apply filter_In in Hin as [Hin _]; right; auto.
Qed.

Lemma mode0_not_missing (cs : list Pandas.cell) (v : Pandas.cell) :
  Pandas.mode0 cs = Some v -> Pandas.isna v = false.
Proof.
  unfold Pandas.mode0.
  set (vc := Pandas.value_counts cs).
  set (best := map fst (filter _ vc)).
  assert (Hbest : Forall (fun c => Pandas.isna c = false) best).
  { apply Forall_forall; intros x Hx.
    apply in_map_iff in Hx as ([y n] & <- & Hy); apply filter_In in Hy as [Hy _].
    unfold vc, Pandas.value_counts in Hy.
    apply in_map_iff in Hy as (c & [= <- _] & Hc).
    apply unique_incl, filter_In in Hc as [_ Hc].
    now apply negb_true_iff in Hc. }
  destruct best as [|b bs]; [discriminate|]; intros [= <-].
  inversion Hbest as [|? ? Hb Hbs]; subst.
  clear Hbest; induction Hbs as [|c bs Hc _ IH]; simpl; [assumption|].
  destruct (Pandas.cell_leb c _); assumption.
Qed.

Lemma numeric_values_nonempty (cs : list Pandas.cell) (xs : list Q) :
  Pandas.numeric_values cs = Some xs ->
  (exists c, In c cs /\ Pandas.isna c = false) -> xs <> [].
Proof.
  revert xs; induction cs as [|c cs IH]; intros xs Hxs (v & Hin & Hv);
    [contradiction|].
  destruct c as [|q|s|b|t]; simpl in Hxs; try discriminate.
  - destruct Hin as [<-|Hin]; [discriminate|].
    apply IH; eauto.
  - destruct (Pandas.numeric_values cs); [|discriminate].
    injection Hxs as <-; discriminate.
Qed.

Lemma numeric_fill_value_defined (strategy : string) (xs : list Q) :
  xs <> [] -> exists v, cleaning.numeric_fill_value strategy xs = Some v.
Proof.
  destruct xs as [|x xs]; [congruence|]; intros _.
  unfold cleaning.numeric_fill_value.
  destruct (median_of_values x xs) as (m & Hm).
  repeat match goal with
         | |- context [if ?b then _ else _] => destruct b
         end; rewrite ?Hm; simpl; eauto.
Qed.

Lemma most_frequent_exists (vc : list (Pandas.cell * nat)) :
  vc <> [] ->
  exists p, In p vc /\ snd p = fold_right (fun p m => Nat.max (snd p) m) 0%nat vc.
Proof.
  induction vc as [|p vc IH]; [congruence|]; intros _; simpl.
  destruct vc as [|q vc].
  - exists p; split; [now left | simpl; lia].
  - destruct IH as (best & Hin & Hbest); [discriminate|].
    destruct (Nat.le_gt_cases (snd best) (snd p)) as [Hle|Hgt].
    + exists p; split; [now left | rewrite <- Hbest; lia].
    + exists best; split; [now right | rewrite <- Hbest; lia].
Qed.

Lemma mode0_defined (cs : list Pandas.cell) :
  (exists c, In c cs /\ Pandas.isna c = false) ->
  exists v, Pandas.mode0 cs = Some v.
Proof.
  intros (c & Hin & Hc); unfold Pandas.mode0.
  assert (Hvc : Pandas.value_counts cs <> []).
  { unfold Pandas.value_counts.
    assert (Hdrop : Pandas.dropna cs <> []).
    { intros E; assert (H : In c (Pandas.dropna cs))
        by (apply filter_In; split; [assumption | now rewrite Hc]).
      rewrite E in H; destruct H. }
    destruct (Pandas.dropna cs); [congruence | discriminate]. }
  destruct (most_frequent_exists _ Hvc) as (p & Hp & Htop).
  set (top := fold_right _ _ _) in *.
  assert (Hbest : In (fst p)
                     (map fst (filter (fun p => (snd p =? top)%nat)
                                      (Pandas.value_counts cs)))).
  { apply in_map, filter_In; split; [assumption | now apply Nat.eqb_eq]. }
  destruct (map fst _) as [|b bs]; [destruct Hbest | eauto].
Qed.

Section ImputedColumn.

Variable df : Pandas.DataFrame.
Variable strategy : string.
Variable col : string.

Hypothesis rect : frames.rectangular df.
Hypothesis present : In col (Pandas.column_names df).
Hypothesis well_typed :
  Pandas.is_numeric (Pandas.col_dtype df col) = true ->
  Pandas.numeric_values (Pandas.get_col df col) <> None.
Hypothesis has_value :
  exists c, In c (Pandas.get_col df col) /\ Pandas.isna c = false.
Hypothesis not_nullable_integer : Pandas.col_dtype df col <> Pandas.Int64.

Let same_schema (d : Pandas.DataFrame) : Prop :=
  Pandas.column_names d = Pandas.column_names df
  /\ frames.rectangular d
  /\ Pandas.col_dtype d col = Pandas.col_dtype df col.

Let filled (d : Pandas.DataFrame) : Prop :=
  frames.no_missing (Pandas.get_col d col).

Lemma impute_column_same_schema (d : Pandas.DataFrame) (c : string) :
  col <> c -> same_schema d -> same_schema (cleaning.impute_column strategy d c).
Proof.
  intros Hne (Hc & Hr & Hdt); split; [|split].
  - now rewrite impute_column_names.
  - now apply impute_column_rectangular.
  - now rewrite impute_column_dtype_other.
Qed.

Lemma impute_column_keeps_filled (d : Pandas.DataFrame) (c : string) :
  filled d -> filled (cleaning.impute_column strategy d c).
Proof.
  intros Hfilled; unfold filled.
  destruct (String.eqb_spec col c) as [<-|Hne];
    [|now rewrite impute_column_other].
  unfold cleaning.impute_column.
  replace (Py.count_true (map Pandas.isna (Pandas.get_col d col)) =? 0)%Z with true;
    [assumption|].
  symmetry; now apply Z.eqb_eq, count_true_isna_zero.
Qed.

Lemma impute_column_fills (d : Pandas.DataFrame) :
  same_schema d -> Pandas.get_col d col = Pandas.get_col df col ->
  filled (cleaning.impute_column strategy d col).
Proof.
  intros (Hnames & Hrect & Hdt) Hdata; unfold filled.
  assert (Hcol : Pandas.has_column d col = true).
  { unfold Pandas.has_column; rewrite Hnames.
    pose proof (index_of_In col _ present) as H.
    destruct (Pandas.index_of col (Pandas.column_names df)); congruence. }
  pose proof (get_col_length d col Hcol) as Hlen.
  unfold cleaning.impute_column; rewrite Hdt, Hdata.
  destruct (Py.count_true _ =? 0)%Z eqn:Ecount.
  - rewrite Hdata; now apply count_true_isna_zero, Z.eqb_eq.
  - destruct (Pandas.is_numeric (Pandas.col_dtype df col)) eqn:Enum.
    + destruct (Pandas.numeric_values (Pandas.get_col df col)) as [xs|] eqn:Exs;
        [|exfalso; now apply well_typed].
      destruct (numeric_fill_value_defined strategy xs) as (v & ->);
        [now apply (numeric_values_nonempty _ _ Exs)|].
      replace (Pandas.dtype_eqb (Pandas.col_dtype df col) Pandas.Int64) with false
        by (destruct (Pandas.col_dtype df col); try reflexivity; congruence).
      cbn [andb].
      rewrite get_col_assign; auto.
      * now apply no_missing_fillna.
      * unfold Pandas.fillna; rewrite length_map; congruence.
    + destruct (Pandas.dtype_eqb _ Pandas.datetime64).
      * rewrite get_col_assign; auto.
        -- now apply bfill_ffill_no_missing.
        -- rewrite bfill_ffill_length; congruence.
      * destruct (mode0_defined _ has_value) as (v & Hv); rewrite Hv.
        rewrite get_col_assign; auto.
        -- apply no_missing_fillna; now apply mode0_not_missing in Hv.
        -- unfold Pandas.fillna; rewrite length_map; congruence.
Qed.

Lemma impute_loop_keeps_filled (names : list string) (d : Pandas.DataFrame) :
  filled d -> filled (fold_left (cleaning.impute_column strategy) names d).
Proof.
  revert d; induction names as [|c names IH]; intros d Hd; simpl; [assumption|].
  now apply IH, impute_column_keeps_filled.
Qed.

Lemma impute_loop_fills (names : list string) (d : Pandas.DataFrame) :
  In col names -> same_schema d ->
  Pandas.get_col d col = Pandas.get_col df col ->
  filled (fold_left (cleaning.impute_column strategy) names d).
Proof.
  revert d; induction names as [|c names IH]; intros d Hin Hd Hdata;
    [contradiction|].
  simpl; destruct (String.eqb_spec col c) as [<-|Hne].
  - now apply impute_loop_keeps_filled, impute_column_fills.
  - destruct Hin as [->|Hin]; [congruence|].
    apply IH; [assumption | now apply impute_column_same_schema |].
    now rewrite impute_column_other.
Qed.

(** X10: in a rectangular dataset, imputation leaves no missing value in
    a column that has at least one value, is not a nullable [Int64] column
    (where a fractional fill value is refused) and, if its dtype is
    numeric, holds numbers only, of moderate size; whatever the strategy. *)
Theorem impute_fills_column :
  frames.moderate (Pandas.get_col df col) ->
  frames.no_missing
    (Pandas.get_col (cleaning.impute_missing_values df strategy) col).
Proof.
  intros _; unfold cleaning.impute_missing_values, Pandas.copy.
  apply impute_loop_fills;
    [assumption | split; [reflexivity | split; [assumption | reflexivity]]
    | reflexivity].
Qed.

End ImputedColumn.

Lemma impute_fills_column_witness :
  frames.no_missing
    (Pandas.get_col (cleaning.impute_missing_values samples.readings "mean") "value").
Proof.
  apply impute_fills_column.
  - repeat constructor.
  - vm_compute; left; reflexivity.
  - vm_compute; discriminate.
  - exists (Pandas.Num 1); split; [vm_compute; left; reflexivity | reflexivity].
  - vm_compute; discriminate.
  - repeat constructor; vm_compute; discriminate.
Defined.

(** ** The other steps of the cleaning stage *)

Lemma handle_outlier_column_len_le (method : string) (d : Pandas.DataFrame)
    (col : string) :
  (Pandas.len (cleaning.handle_outlier_column method d col) <= Pandas.len d)%Z
  /\ (method <> "remove" ->
      Pandas.len (cleaning.handle_outlier_column method d col) = Pandas.len d).
Proof.
  unfold cleaning.handle_outlier_column.
  destruct (negb (Pandas.has_column d col)); [split; [lia | reflexivity]|].
  destruct (String.eqb_spec method "clip") as [->|Hclip].
  - destruct (cleaning.iqr_bounds _); [destruct (_ && _)|];
      rewrite ?assign_len; split; auto; lia.
  - destruct (String.eqb_spec method "flag") as [->|Hflag].
    + destruct (cleaning.iqr_bounds _); rewrite ?assign_len; split; auto; lia.
    + destruct (String.eqb_spec method "remove") as [->|Hremove].
      * split; [|congruence].
        destruct (cleaning.iqr_bounds _) as [bounds|]; [|lia].
        unfold Pandas.len, Py.len; cbn [Pandas.rows].
        pose proof (mask_filter_length_le
                      (map (cleaning.inside bounds) (Pandas.get_col d col))
                      (Pandas.rows d)).
        lia.
      * split; [lia | reflexivity].
Qed.

Lemma handle_outliers_len_le (df : Pandas.DataFrame)
    (outlier_report : option outliers.report) (method : string) :
  (Pandas.len (cleaning.handle_outliers df outlier_report method) <= Pandas.len df)%Z
  /\ (method <> "remove" ->
      Pandas.len (cleaning.handle_outliers df outlier_report method) = Pandas.len df).
Proof.
  destruct outlier_report as [r|]; simpl; [|split; [lia | reflexivity]].
  unfold Pandas.reset_index, Pandas.copy; split.
  - apply (fold_left_invariant (fun d => (Pandas.len d <= Pandas.len df)%Z)); [|lia].
    intros d col Hd.
    pose proof (proj1 (handle_outlier_column_len_le method d col)); lia.
  - intros Hm.
    apply (fold_left_invariant (fun d => Pandas.len d = Pandas.len df)); [|reflexivity].
    intros d col Hd.
    now rewrite (proj2 (handle_outlier_column_len_le method d col) Hm).
Qed.

(** X11: an outlier method other than "clip", "flag" and "remove" makes
    [handle_outliers] return the dataset unchanged, whatever the report. *)
Theorem handle_outliers_unknown_method (df : Pandas.DataFrame)
    (outlier_report : option outliers.report) (method : string) :
  method <> "clip" -> method <> "flag" -> method <> "remove" ->
  cleaning.handle_outliers df outlier_report method = df.
Proof.
  intros Hclip Hflag Hremove.
  destruct outlier_report as [r|]; simpl; [|reflexivity].
  unfold Pandas.reset_index, Pandas.copy.
  apply (fold_left_invariant (fun d => d = df)); [|reflexivity].
  intros d col ->; unfold cleaning.handle_outlier_column.
  apply String.eqb_neq in Hclip, Hflag, Hremove.
  rewrite Hclip, Hflag, Hremove.
  now destruct (negb _).
Qed.

Lemma handle_outliers_unknown_method_witness :
  cleaning.handle_outliers samples.readings (Some (samples.outlier_report 1)) "winsorize"
  = samples.readings.
Proof.
  apply handle_outliers_unknown_method; discriminate.
Defined.

Lemma handle_outlier_column_columns (method : string) (d : Pandas.DataFrame)
    (col : string) (original : list (string * Pandas.dtype)) :
  method <> "flag" ->
  Forall2 (fun before after : string * Pandas.dtype =>
             fst after = fst before
             /\ (snd after = snd before
                 \/ (method = "clip" /\ snd before = Pandas.int64
                     /\ snd after = Pandas.float64)))
          original (Pandas.columns d) ->
  Forall2 (fun before after : string * Pandas.dtype =>
             fst after = fst before
             /\ (snd after = snd before
                 \/ (method = "clip" /\ snd before = Pandas.int64
                     /\ snd after = Pandas.float64)))
          original (Pandas.columns (cleaning.handle_outlier_column method d col)).
Proof.
  intros Hflag Hd; unfold cleaning.handle_outlier_column.
  destruct (Pandas.has_column d col) eqn:Hcol; [|assumption]; cbn [negb].
  apply String.eqb_neq in Hflag; rewrite Hflag.
  destruct (String.eqb_spec method "clip") as [->|Hclip].
  - destruct (cleaning.iqr_bounds _); [|assumption].
    destruct (Pandas.dtype_eqb _ Pandas.Int64 && _); [assumption|].
    apply assign_columns_related; [assumption | assumption |].
    intros [name before] [Hname Hdt]; cbn [fst snd] in *; split; [assumption|].
    destruct (Pandas.dtype_eqb (Pandas.col_dtype d col) Pandas.int64 && _) eqn:E;
      [|assumption].
    apply andb_true_iff in E as [E _].
    assert (Hint : Pandas.col_dtype d col = Pandas.int64)
      by (destruct (Pandas.col_dtype d col); try discriminate; reflexivity).
    right; repeat split.
    destruct Hdt as [Hdt|(_ & _ & Hdt)]; congruence.
  - destruct (String.eqb method "remove"); [|assumption].
    now destruct (cleaning.iqr_bounds _).
Qed.

(** X12: for every method other than "flag", [handle_outliers] keeps the
    column names and their order, and every dtype but for one case: with
    "clip" an [int64] column can come back as [float64], which pandas
    makes of it when a bound with a fractional part takes the place of a
    value. *)
Theorem handle_outliers_keeps_schema (df : Pandas.DataFrame)
    (outlier_report : option outliers.report) (method : string) :
  method <> "flag" ->
  Forall2 (fun before after : string * Pandas.dtype =>
             fst after = fst before
             /\ (snd after = snd before
                 \/ (method = "clip" /\ snd before = Pandas.int64
                     /\ snd after = Pandas.float64)))
          (Pandas.columns df)
          (Pandas.columns (cleaning.handle_outliers df outlier_report method)).
Proof.
  intros Hflag.
  destruct outlier_report as [r|]; simpl; [|apply Forall2_same; auto].
  unfold Pandas.reset_index, Pandas.copy.
  apply (fold_left_invariant
           (fun d => Forall2 (fun before after : string * Pandas.dtype =>
                                fst after = fst before
                                /\ (snd after = snd before
                                    \/ (method = "clip" /\ snd before = Pandas.int64
                                        /\ snd after = Pandas.float64)))
                             (Pandas.columns df) (Pandas.columns d)));
    [|apply Forall2_same; auto].
  intros d col Hd; now apply handle_outlier_column_columns.
Qed.

Lemma handle_outliers_keeps_schema_witness :
  Forall2 (fun before after : string * Pandas.dtype =>
             fst after = fst before
             /\ (snd after = snd before
                 \/ ("clip" = "clip" /\ snd before = Pandas.int64
                     /\ snd after = Pandas.float64)))
    (Pandas.columns more_samples.visits)
    (Pandas.columns
       (cleaning.handle_outliers more_samples.visits
          (Some more_samples.visits_report) "clip")).
Proof.
  apply handle_outliers_keeps_schema; discriminate.
Defined.

(** Clipping to the bounds -2.5 and 9.5: the [int64] column becomes a
    [float64] column that holds 9.5, the nullable [Int64] column raises
    and is left as it was. *)
Example clip_visits :
  let clipped := cleaning.handle_outliers more_samples.visits
                   (Some more_samples.visits_report) "clip" in
  Pandas.columns clipped = [("visits", Pandas.float64); ("guests", Pandas.Int64)]
  /\ map (fun c => match c with Pandas.Num x => Pandas.Num (Qred x) | _ => c end)
         (Pandas.get_col clipped "visits")
     = [Pandas.Num 1; Pandas.Num 2; Pandas.Num 3; Pandas.Num 5; Pandas.Num (19 # 2)]
  /\ Pandas.get_col clipped "guests"
     = [Pandas.Num 1; Pandas.Num 2; Pandas.Num 3; Pandas.Num 5; Pandas.Num 100].
Proof. vm_compute; auto. Qed.

Lemma fix_data_types_len (to_datetime : string -> option Z) (df : Pandas.DataFrame)
    (dtype_report : option data_types.report) :
  Pandas.len (cleaning.fix_data_types to_datetime df dtype_report) = Pandas.len df.
Proof.
  destruct dtype_report as [r|]; simpl; [|reflexivity].
  unfold Pandas.copy.
  apply (fold_left_invariant (fun d => Pandas.len d = Pandas.len df)).
  - intros d col Hd.
    destruct (Pandas.has_column d col); [|assumption].
    destruct (cleaning.astype_Int64 _); [|assumption].
    now rewrite assign_len.
  - apply (fold_left_invariant (fun d => Pandas.len d = Pandas.len df)); [|reflexivity].
    intros d col Hd.
    destruct (Pandas.has_column d col); [|assumption].
    now rewrite assign_len.
Qed.

Lemma normalize_text_columns_len (df : Pandas.DataFrame) (aggressive : bool) :
  Pandas.len (cleaning.normalize_text_columns df aggressive) = Pandas.len df.
Proof.
  unfold cleaning.normalize_text_columns, Pandas.copy.
  apply (fold_left_invariant (fun d => Pandas.len d = Pandas.len df)); [|reflexivity].
  intros d col Hd; now rewrite assign_len.
Qed.

Lemma remove_constant_columns_len (df : Pandas.DataFrame) :
  Pandas.len (cleaning.remove_constant_columns df) = Pandas.len df.
Proof.
  unfold cleaning.remove_constant_columns.
  destruct (filter _ _); [reflexivity|].
  unfold Pandas.len, Py.len; cbn [Pandas.rows]; now rewrite length_map.
Qed.

Section CleanDataset.

Variable to_datetime : string -> option Z.
Variable df : Pandas.DataFrame.
Variable dtype_report : option data_types.report.
Variable inconsistency_report : option inconsistencies.report.
Variable outlier_report : option outliers.report.
Variable duplicate_report : option duplicates.report.
Variables duplicate_strategy missing_strategy outlier_method : string.
Variables normalize_text remove_constants : bool.

Let cleaned : Pandas.DataFrame :=
  cleaning.clean_dataset to_datetime df dtype_report inconsistency_report
    outlier_report duplicate_report duplicate_strategy missing_strategy
    outlier_method normalize_text remove_constants.

Let after_duplicates : Pandas.DataFrame :=
  cleaning.handle_duplicates (cleaning.impute_missing_values df missing_strategy)
    duplicate_report duplicate_strategy.

Lemma clean_dataset_len_after_duplicates :
  (Pandas.len cleaned <= Pandas.len after_duplicates)%Z
  /\ (outlier_method <> "remove" -> Pandas.len cleaned = Pandas.len after_duplicates).
Proof.
  unfold cleaned, cleaning.clean_dataset, Pandas.reset_index, Pandas.copy.
  fold after_duplicates.
  set (d1 := match dtype_report with
             | Some _ => cleaning.fix_data_types to_datetime after_duplicates dtype_report
             | None => after_duplicates
             end).
  assert (H1 : Pandas.len d1 = Pandas.len after_duplicates)
    by (unfold d1; destruct dtype_report; [apply fix_data_types_len | reflexivity]).
  set (d2 := if normalize_text then cleaning.normalize_text_columns d1 false else d1).
  assert (H2 : Pandas.len d2 = Pandas.len d1)
    by (unfold d2; destruct normalize_text;
        [apply normalize_text_columns_len | reflexivity]).
  set (d3 := match outlier_report with
             | Some _ => cleaning.handle_outliers d2 outlier_report outlier_method
             | None => d2
             end).
  assert (H3 : (Pandas.len d3 <= Pandas.len d2)%Z
               /\ (outlier_method <> "remove" -> Pandas.len d3 = Pandas.len d2)).
  { unfold d3; destruct outlier_report;
      [apply handle_outliers_len_le | split; [lia | reflexivity]]. }
  set (d4 := if remove_constants then cleaning.remove_constant_columns d3 else d3).
  assert (H4 : Pandas.len d4 = Pandas.len d3)
    by (unfold d4; destruct remove_constants;
        [apply remove_constant_columns_len | reflexivity]).
  destruct H3 as [H3 H3']; split; [lia|].
  intros Hm; rewrite H4, (H3' Hm); lia.
Qed.

(** X13: whatever the reports and the options, the cleaned dataset has at
    most as many rows as the input. *)
Theorem clean_dataset_never_adds_rows :
  (Pandas.len cleaned <= Pandas.len df)%Z.
Proof.
  pose proof (proj1 clean_dataset_len_after_duplicates) as Hafter.
  pose proof (handle_duplicates_len_le
                (cleaning.impute_missing_values df missing_strategy)
                duplicate_report duplicate_strategy) as Hdup.
  fold after_duplicates in Hdup.
  rewrite impute_len in Hdup; lia.
Qed.

(** X14: with duplicate strategy "keep" or "flag" and an outlier method
    other than "remove", the cleaned dataset has exactly as many rows as the
    input, whatever the reports and the other options. *)
Theorem clean_dataset_keeps_rows :
  duplicate_strategy = "keep" \/ duplicate_strategy = "flag" ->
  outlier_method <> "remove" ->
  Pandas.len cleaned = Pandas.len df.
Proof.
  intros Hdup Hout.
  rewrite (proj2 clean_dataset_len_after_duplicates Hout).
  rewrite <- (impute_len df missing_strategy).
  unfold after_duplicates, cleaning.handle_duplicates.
  destruct duplicate_report as [r|]; [|apply flag_duplicates_len].
  destruct (duplicates.duplicate_count r); [|apply flag_duplicates_len].
  destruct Hdup as [->| ->]; cbn; [reflexivity | apply flag_duplicates_len].
Qed.

End CleanDataset.

Lemma clean_dataset_keeps_rows_witness :
  Pandas.len
    (cleaning.clean_dataset samples.no_dates samples.readings None None
       (Some (samples.outlier_report 1))
       (Some (duplicates.analyze_duplicates samples.readings))
       "flag" "median" "clip" true false)
  = Pandas.len samples.readings.
Proof.
  apply clean_dataset_keeps_rows; [right; reflexivity | discriminate].
Defined.

(** ** Text normalisation *)

Lemma collapse_spaces_collapsed (b : bool) (x : string) :
  text_shape.collapsed b (cleaning.collapse_spaces b x) = true.
Proof.
  revert b; induction x as [|c x IH]; intros b; simpl; [reflexivity|].
  destruct (Py.isspace c) eqn:Ec.
  - destruct b; [apply IH|].
    simpl; rewrite IH; reflexivity.
  - simpl; rewrite Ec; apply IH.
Qed.

Lemma collapsed_fixed (b : bool) (y : string) :
  text_shape.collapsed b y = true -> cleaning.collapse_spaces b y = y.
Proof.
  revert b; induction y as [|c y IH]; intros b; simpl; [reflexivity|].
  destruct (Py.isspace c).
  - intros H; apply andb_true_iff in H as [H Hy]; apply andb_true_iff in H as [Hc Hb].
    apply Ascii.eqb_eq in Hc; subst c.
    destruct b; [discriminate|]; now rewrite IH.
  - intros H; now rewrite IH.
Qed.

Lemma collapsed_weaken (y : string) :
  text_shape.collapsed true y = true -> text_shape.collapsed false y = true.
Proof.
  destruct y as [|c y]; simpl; [reflexivity|].
  destruct (Py.isspace c); [|auto].
  rewrite andb_false_r; discriminate.
Qed.

Lemma collapsed_lstrip (y : string) :
  text_shape.collapsed true y = true -> Py.lstrip y = y.
Proof.
  destruct y as [|c y]; simpl; [reflexivity|].
  destruct (Py.isspace c); [|reflexivity].
  rewrite andb_false_r; discriminate.
Qed.

Lemma rstrip_cons_fixed (c : ascii) (t : string) :
  t <> EmptyString -> Py.rstrip t = t -> Py.rstrip (String c t) = String c t.
Proof.
  intros Hne Hfix; simpl; rewrite Hfix.
  destruct t; [congruence | reflexivity].
Qed.

Lemma rstrip_fixed_inv (c : ascii) (t : string) :
  Py.rstrip (String c t) = String c t ->
  (t = EmptyString /\ Py.isspace c = false) \/ (t <> EmptyString /\ Py.rstrip t = t).
Proof.
  simpl; destruct (Py.rstrip t) as [|c' t'] eqn:E.
  - destruct (Py.isspace c); [discriminate|].
    intros [= <-]; left; split; reflexivity.
  - intros [= <-]; right; split; [discriminate | reflexivity].
Qed.

Lemma rstrip_idempotent (s : string) : Py.rstrip (Py.rstrip s) = Py.rstrip s.
Proof.
  induction s as [|c s IH]; [reflexivity|].
  simpl; destruct (Py.rstrip s) as [|c' t] eqn:E.
  - destruct (Py.isspace c) eqn:Ec; simpl; [reflexivity | now rewrite Ec].
  - apply rstrip_cons_fixed; [discriminate | assumption].
Qed.

Lemma collapse_spaces_rstrip (b : bool) (x : string) :
  x <> EmptyString -> Py.rstrip x = x ->
  cleaning.collapse_spaces b x <> EmptyString
  /\ Py.rstrip (cleaning.collapse_spaces b x) = cleaning.collapse_spaces b x.
Proof.
  revert b; induction x as [|c x IH]; intros b Hne Hfix; [congruence|].
  apply rstrip_fixed_inv in Hfix as [[-> Hc]|[Hx Hfix]].
  - simpl; rewrite Hc; simpl; rewrite Hc; split; [discriminate | reflexivity].
  - simpl; destruct (Py.isspace c).
    + destruct b; [now apply IH|].
      destruct (IH true Hx Hfix) as [Hne' Hfix'].
      split; [discriminate | now apply rstrip_cons_fixed].
    + destruct (IH false Hx Hfix) as [Hne' Hfix'].
      split; [discriminate | now apply rstrip_cons_fixed].
Qed.

Lemma lstrip_head (s : string) :
  Py.lstrip s = EmptyString
  \/ exists c t, Py.lstrip s = String c t /\ Py.isspace c = false.
Proof.
  induction s as [|c s IH]; simpl; [now left|].
  destruct (Py.isspace c) eqn:Ec; [assumption | right; eauto].
Qed.

Lemma strip_head (s : string) :
  Py.strip s = EmptyString
  \/ exists c t, Py.strip s = String c t /\ Py.isspace c = false.
Proof.
  unfold Py.strip.
  destruct (lstrip_head s) as [->|(c & t & -> & Hc)]; [now left|].
  right; simpl; destruct (Py.rstrip t); rewrite ?Hc; eauto.
Qed.

(** Stripping and collapsing a text a second time changes nothing. *)
Lemma normalized_text_fixed (s : string) :
  let y := cleaning.collapse_spaces false (Py.strip s) in
  cleaning.collapse_spaces false (Py.strip y) = y.
Proof.
  intros y.
  assert (Hshape : text_shape.collapsed true y = true).
  { unfold y; destruct (strip_head s) as [->|(c & t & -> & Hc)]; [reflexivity|].
    simpl; rewrite Hc; simpl; rewrite Hc; apply collapse_spaces_collapsed. }
  assert (Hright : Py.rstrip y = y).
  { unfold y; destruct (Py.strip s) as [|c t] eqn:E; [reflexivity|].
    apply collapse_spaces_rstrip; [discriminate|].
    rewrite <- E; unfold Py.strip; apply rstrip_idempotent. }
  unfold Py.strip; rewrite (collapsed_lstrip y Hshape), Hright.
  apply collapsed_fixed, collapsed_weaken, Hshape.
Qed.

Lemma normalize_value_idempotent (c : Pandas.cell) :
  cleaning.normalize_value false (cleaning.normalize_value false c)
  = cleaning.normalize_value false c.
Proof.
  unfold cleaning.normalize_value; cbn [Pandas.astype_str].
  f_equal; apply normalized_text_fixed.
Qed.

Lemma replace_nth_nth {A : Type} (k : nat) (d : A) (l : list A) :
  Pandas.replace_nth k (nth k l d) l = l.
Proof.
  revert l; induction k as [|k IH]; intros [|y l]; simpl; auto.
  now rewrite IH.
Qed.

Lemma assign_rows_own_column (k : nat) (rs : list Pandas.row) :
  Pandas.assign_rows (Some k) rs (map (Pandas.cell_at k) rs) = rs.
Proof.
  induction rs as [|r rs IH]; simpl; [reflexivity|].
  rewrite IH; f_equal; unfold Pandas.cell_at; apply replace_nth_nth.
Qed.

(** Writing back the series that was read changes nothing. *)
Lemma assign_own_column (d : Pandas.DataFrame) (col : string) :
  Pandas.has_column d col = true ->
  Pandas.assign d col (Pandas.col_dtype d col) (Pandas.get_col d col) = d.
Proof.
  intros Hcol.
  pose proof (assign_existing_columns d col (Pandas.get_col d col) Hcol) as Hcols.
  unfold Pandas.has_column in Hcol.
  unfold Pandas.assign, Pandas.get_col in *.
  destruct (Pandas.index_of col (Pandas.column_names d)) as [k|]; [|discriminate].
  cbn [Pandas.columns] in Hcols; rewrite Hcols, assign_rows_own_column.
  now destruct d.
Qed.

Lemma col_dtype_of_entry (df : Pandas.DataFrame) (col : string) (dt : Pandas.dtype) :
  NoDup (Pandas.column_names df) -> In (col, dt) (Pandas.columns df) ->
  Pandas.has_column df col = true /\ Pandas.col_dtype df col = dt.
Proof.
  intros Hnodup Hin.
  assert (Hname : In col (Pandas.column_names df))
    by (unfold Pandas.column_names; apply in_map_iff; exists (col, dt); auto).
  pose proof (index_of_In col _ Hname) as Hidx.
  unfold Pandas.has_column.
  destruct (Pandas.index_of col (Pandas.column_names df)) as [k|] eqn:Hk;
    [|congruence].
  split; [reflexivity|].
  destruct (column_at_index df col k Hk) as [Hnth Hlt].
  apply In_nth_error in Hin as (j & Hj).
  assert (Hjk : j = k).
  { apply (proj1 (NoDup_nth_error (Pandas.column_names df)) Hnodup).
    - unfold Pandas.column_names; rewrite length_map.
      apply nth_error_Some; congruence.
    - unfold Pandas.column_names; rewrite !nth_error_map, Hj, Hnth; reflexivity. }
  subst j; congruence.
Qed.

Section NormalizedTwice.

Variable df : Pandas.DataFrame.

Hypothesis rect : frames.rectangular df.
Hypothesis distinct : NoDup (Pandas.column_names df).

Let step (d : Pandas.DataFrame) (col : string) : Pandas.DataFrame :=
  Pandas.assign d col Pandas.object
    (map (cleaning.normalize_value false) (Pandas.get_col d col)).

Let text_cols : list string := Pandas.select_dtypes cleaning.is_object df.

Let same_schema (d : Pandas.DataFrame) : Prop :=
  Pandas.columns d = Pandas.columns df /\ frames.rectangular d.

Let normalized (col : string) (d : Pandas.DataFrame) : Prop :=
  Forall (fun c => cleaning.normalize_value false c = c) (Pandas.get_col d col).

Lemma text_col_is_object (d : Pandas.DataFrame) (col : string) :
  In col text_cols -> Pandas.columns d = Pandas.columns df ->
  Pandas.has_column d col = true /\ Pandas.col_dtype d col = Pandas.object.
Proof.
  intros Hin Hcols.
  unfold text_cols, Pandas.select_dtypes in Hin.
  apply in_map_iff in Hin as ([c dt] & Hc & Hin); simpl in Hc; subst c.
  apply filter_In in Hin as [Hin Hobj]; simpl in Hobj.
  destruct dt; try discriminate.
  unfold Pandas.has_column, Pandas.col_dtype, Pandas.column_names; rewrite Hcols.
  now apply col_dtype_of_entry.
Qed.

Lemma step_same_schema (d : Pandas.DataFrame) (col : string) :
  In col text_cols -> same_schema d -> same_schema (step d col).
Proof.
  intros Hin [Hcols Hrect].
  destruct (text_col_is_object d col Hin Hcols) as [Hcol Hdt].
  unfold step; rewrite <- Hdt; split.
  - now rewrite assign_existing_columns.
  - now apply assign_existing_rectangular.
Qed.

Lemma step_normalizes (d : Pandas.DataFrame) (col : string) :
  In col text_cols -> same_schema d -> normalized col (step d col).
Proof.
  intros Hin [Hcols Hrect].
  destruct (text_col_is_object d col Hin Hcols) as [Hcol Hdt].
  unfold normalized, step; rewrite <- Hdt, get_col_assign_same; auto.
  - apply Forall_forall; intros x Hx; apply in_map_iff in Hx as (c & <- & _).
    apply normalize_value_idempotent.
  - rewrite length_map; now apply get_col_length.
Qed.

Lemma step_keeps_normalized (d : Pandas.DataFrame) (col c : string) :
  In c text_cols -> same_schema d -> normalized col d -> normalized col (step d c).
Proof.
  intros Hin Hd Hnorm.
  destruct (String.eqb_spec col c) as [->|Hne]; [now apply step_normalizes|].
  destruct Hd as [Hcols Hrect].
  destruct (text_col_is_object d c Hin Hcols) as [Hcol Hdt].
  unfold normalized, step; rewrite <- Hdt, get_col_assign_other; auto.
Qed.

Lemma loop_normalizes (names : list string) (d : Pandas.DataFrame) (col : string) :
  (forall c, In c names -> In c text_cols) -> same_schema d ->
  normalized col d \/ In col names ->
  normalized col (fold_left step names d).
Proof.
  revert d; induction names as [|c names IH]; intros d Hsub Hd Hcol; simpl.
  - destruct Hcol as [H|[]]; assumption.
  - assert (Hc : In c text_cols) by (apply Hsub; now left).
    apply IH; [intros c' Hc'; apply Hsub; now right | now apply step_same_schema |].
    destruct Hcol as [Hnorm|[->|Hin]].
    + left; now apply step_keeps_normalized.
    + left; now apply step_normalizes.
    + now right.
Qed.

Lemma loop_same_schema (names : list string) (d : Pandas.DataFrame) :
  (forall c, In c names -> In c text_cols) -> same_schema d ->
  same_schema (fold_left step names d).
Proof.
  revert d; induction names as [|c names IH]; intros d Hsub Hd; simpl; [assumption|].
  apply IH; [intros c' Hc'; apply Hsub; now right|].
  apply step_same_schema; [apply Hsub; now left | assumption].
Qed.

Lemma loop_on_normalized (names : list string) (d : Pandas.DataFrame) :
  (forall c, In c names -> In c text_cols) ->
  Pandas.columns d = Pandas.columns df ->
  (forall c, In c names -> normalized c d) ->
  fold_left step names d = d.
Proof.
  intros Hsub Hcols Hnorm.
  induction names as [|c names IH]; simpl; [reflexivity|].
  assert (Hc : step d c = d).
  { destruct (text_col_is_object d c (Hsub c (or_introl eq_refl)) Hcols) as [Hcol Hdt].
    unfold step; rewrite <- Hdt.
    rewrite (map_ext_Forall _ (fun x => x) (Hnorm c (or_introl eq_refl))).
    rewrite map_id; now apply assign_own_column. }
  rewrite Hc; apply IH; intros c' Hc'; [apply Hsub | apply Hnorm]; now right.
Qed.

(** X15: on a rectangular dataset with distinct column names, normalising
    the text columns (trim, collapse inner white space) a second time
    changes nothing. *)
Theorem normalize_text_columns_idempotent :
  cleaning.normalize_text_columns (cleaning.normalize_text_columns df false) false
  = cleaning.normalize_text_columns df false.
Proof.
  assert (Hfirst : cleaning.normalize_text_columns df false = fold_left step text_cols df)
    by reflexivity.
  pose proof (loop_same_schema text_cols df (fun c H => H)
                (conj eq_refl rect)) as [Hcols Hrect].
  rewrite Hfirst.
  unfold cleaning.normalize_text_columns at 1, Pandas.copy.
  unfold Pandas.select_dtypes at 1; rewrite Hcols.
  apply (loop_on_normalized text_cols); auto.
  intros c Hc; apply loop_normalizes; auto.
  split; [reflexivity | assumption].
Qed.

End NormalizedTwice.

Lemma normalize_text_columns_idempotent_witness :
  cleaning.normalize_text_columns
    (cleaning.normalize_text_columns samples.padded_names false) false
  = cleaning.normalize_text_columns samples.padded_names false.
Proof.
  apply normalize_text_columns_idempotent.
  - repeat constructor.
  - repeat constructor; simpl; intuition discriminate.
Defined.

(** ** Constant columns *)

Lemma mask_filter_map {A B : Type} (f : A -> B) (mask : list bool) (l : list A) :
  map f (Pandas.mask_filter mask l) = Pandas.mask_filter mask (map f l).
Proof.
  revert l; induction mask as [|b mask IH]; intros [|x l]; simpl; auto.
  destruct b; simpl; now rewrite IH.
Qed.

Lemma masked_In (keep : string -> bool) (names : list string) (c : string) :
  In c (Pandas.mask_filter (map keep names) names) -> In c names /\ keep c = true.
Proof.
  induction names as [|n names IH]; simpl; [contradiction|].
  destruct (keep n) eqn:En.
  - intros [<-|Hin]; [split; [now left | assumption]|].
    destruct (IH Hin); split; [now right | assumption].
  - intros Hin; destruct (IH Hin); split; [now right | assumption].
Qed.

(** Where a kept column goes when columns are dropped by name. *)
Lemma masked_index (keep : string -> bool) (names : list string) (c : string)
    (k : nat) :
  Pandas.index_of c names = Some k -> keep c = true ->
  exists k',
    Pandas.index_of c (Pandas.mask_filter (map keep names) names) = Some k'
    /\ forall r : Pandas.row,
         Pandas.cell_at k' (Pandas.mask_filter (map keep names) r)
         = Pandas.cell_at k r.
Proof.
  intros Hk Hkeep; revert k Hk.
  induction names as [|n names IH]; intros k Hk; simpl in Hk; [discriminate|].
  destruct (String.eqb_spec c n) as [<-|Hne].
  - injection Hk as <-; exists 0%nat; simpl; rewrite Hkeep; simpl.
    rewrite String.eqb_refl; split; [reflexivity|].
    intros [|x r]; reflexivity.
  - destruct (Pandas.index_of c names) as [k0|]; [|discriminate].
    injection Hk as <-.
    destruct (IH k0 eq_refl) as (k' & Hk' & Hcells).
    simpl; destruct (keep n).
    + exists (S k'); simpl.
      replace (String.eqb c n) with false by (symmetry; now apply String.eqb_neq).
      rewrite Hk'; split; [reflexivity|].
      intros [|x r]; [now destruct k' | apply Hcells].
    + exists k'; split; [assumption|].
      intros [|x r]; [|apply Hcells].
      unfold Pandas.cell_at; now destruct k'.
Qed.

(** X16: after [remove_constant_columns] no column has exactly one distinct
    value, and every column that is left holds the values it held. *)
Theorem remove_constant_columns_leaves_none (df : Pandas.DataFrame) (c : string) :
  In c (Pandas.column_names (cleaning.remove_constant_columns df)) ->
  Pandas.get_col (cleaning.remove_constant_columns df) c = Pandas.get_col df c
  /\ Pandas.nunique (Pandas.get_col (cleaning.remove_constant_columns df) c) <> 1%nat.
Proof.
  unfold cleaning.remove_constant_columns.
  set (constant := fun col => (Pandas.nunique (Pandas.get_col df col) =? 1)%nat).
  destruct (filter constant (Pandas.column_names df)) as [|c0 cs] eqn:Edrop.
  - intros Hin; split; [reflexivity|].
    intros Hone.
    assert (Hc : In c (filter constant (Pandas.column_names df)))
      by (apply filter_In; split; [assumption | now apply Nat.eqb_eq]).
    now rewrite Edrop in Hc.
  - set (keep := fun col => negb (existsb (String.eqb col) (c0 :: cs))).
    unfold Pandas.column_names at 1; cbn [Pandas.columns].
    rewrite mask_filter_map; fold (Pandas.column_names df).
    intros Hin; apply (masked_In keep) in Hin as [Hin Hkeep].
    assert (Hdata :
      Pandas.get_col
        {| Pandas.columns :=
             Pandas.mask_filter (map keep (Pandas.column_names df)) (Pandas.columns df);
           Pandas.rows :=
             map (Pandas.mask_filter (map keep (Pandas.column_names df)))
                 (Pandas.rows df) |} c
      = Pandas.get_col df c).
    { unfold Pandas.get_col, Pandas.column_names at 1; cbn [Pandas.columns Pandas.rows].
      rewrite mask_filter_map; fold (Pandas.column_names df).
      pose proof (index_of_In c _ Hin) as Hidx.
      destruct (Pandas.index_of c (Pandas.column_names df)) as [k|] eqn:Hk;
        [|congruence].
      destruct (masked_index keep _ c k Hk Hkeep) as (k' & -> & Hcells).
      rewrite map_map; apply map_ext, Hcells. }
    split; [exact Hdata|].
    rewrite Hdata; intros Hone.
    assert (Hc : In c (filter constant (Pandas.column_names df)))
      by (apply filter_In; split; [assumption | now apply Nat.eqb_eq]).
    rewrite Edrop in Hc.
    unfold keep in Hkeep; apply negb_true_iff in Hkeep.
    assert (existsb (String.eqb c) (c0 :: cs) = true)
      by (apply existsb_exists; exists c; split; [assumption | apply String.eqb_refl]).
    congruence.
Qed.

Lemma remove_constant_columns_leaves_none_witness :
  Pandas.get_col (cleaning.remove_constant_columns more_samples.weights) "weight"
  = Pandas.get_col more_samples.weights "weight"
  /\ Pandas.nunique
       (Pandas.get_col (cleaning.remove_constant_columns more_samples.weights)
                       "weight") <> 1%nat.
Proof.
  apply remove_constant_columns_leaves_none.
  vm_compute; left; reflexivity.
Defined.

Example remove_constant_columns_weights :
  Pandas.column_names (cleaning.remove_constant_columns more_samples.weights)
  = ["weight"].
Proof. vm_compute; reflexivity. Qed.

(** ** Rounding to two decimals *)

Lemma round2_le (x : Q) (C : Z) :
  (x * 100 <= inject_Z C)%Q -> (Py.round2 x <= inject_Z C / 100)%Q.
Proof.
  intros Hx; unfold Py.round2.
  set (y := (x * 100)%Q) in *.
  pose proof (Qfloor_le y) as Hfloor.
  assert (Hf : (Qfloor y <= C)%Z) by (rewrite Zle_Qle; lra).
  set (f := Qfloor y) in *.
  assert (Hn : forall n : Z, (n <= C)%Z -> (inject_Z n / 100 <= inject_Z C / 100)%Q).
  { intros n Hle; rewrite Zle_Qle in Hle.
    unfold Qdiv; apply Qmult_le_compat_r; [assumption | discriminate]. }
  destruct (Z.eq_dec f C) as [Heq|Hne].
  - assert (Hzero : (y - inject_Z f == 0)%Q) by (rewrite Heq in *; lra).
    destruct (Qlt_bool_spec (y - inject_Z f) (1 # 2)); [now apply Hn | lra].
  - destruct (Py.Qlt_bool _ _); [apply Hn; lia|].
    destruct (Py.Qlt_bool _ _); [apply Hn; lia|].
    destruct (Z.even f); apply Hn; lia.
Qed.

Lemma round2_ge (x : Q) (C : Z) :
  (inject_Z C <= x * 100)%Q -> (inject_Z C / 100 <= Py.round2 x)%Q.
Proof.
  intros Hx; unfold Py.round2.
  set (y := (x * 100)%Q) in *.
  assert (Hf : (C <= Qfloor y)%Z).
  { rewrite <- (Qfloor_Z C); now apply Qfloor_resp_le. }
  set (f := Qfloor y) in *.
  assert (Hn : forall n : Z, (C <= n)%Z -> (inject_Z C / 100 <= inject_Z n / 100)%Q).
  { intros n Hle; rewrite Zle_Qle in Hle.
    unfold Qdiv; apply Qmult_le_compat_r; [assumption | discriminate]. }
  destruct (Py.Qlt_bool _ _); [apply Hn; lia|].
  destruct (Py.Qlt_bool _ _); [apply Hn; lia|].
  destruct (Z.even f); apply Hn; lia.
Qed.

Lemma round2_not_above (x : Q) (c : Z) :
  (x * 100 <= inject_Z (100 * c))%Q -> Py.Qlt_bool (c # 1) (Py.round2 x) = false.
Proof.
  intros Hx; pose proof (round2_le x (100 * c) Hx) as Hle.
  change (c # 1) with (inject_Z c).
  destruct (Qlt_bool_spec (inject_Z c) (Py.round2 x)) as [Hlt|]; [|reflexivity].
  exfalso.
  assert (Hc : (inject_Z (100 * c) / 100 == inject_Z c)%Q)
    by (rewrite inject_Z_mult; field).
  rewrite Hc in Hle; lra.
Qed.

(** ** The scorer and the reports it reads *)

(** X17: the result of the scorer (score, grade and breakdown) depends on
    the four reports only through the per-column missing percentages, the
    duplicate percentage, the total outlier count and the number of strip,
    case and special-character columns; no other entry of the reports
    (mixed alphanumeric, rare categories, inconsistent formats, severities)
    has any influence. *)
Theorem quality_score_reads_four_inputs
    (m1 m2 : missing_values.report) (d1 d2 : duplicates.report)
    (o1 o2 : outliers.report) (i1 i2 : inconsistencies.report) :
  scorer_inputs.percentages m1 = scorer_inputs.percentages m2 ->
  scorer_inputs.dup_pct d1 = scorer_inputs.dup_pct d2 ->
  scorer_inputs.total_outliers o1 = scorer_inputs.total_outliers o2 ->
  scorer_inputs.issues i1 = scorer_inputs.issues i2 ->
  run_pipeline.calculate_quality_score m1 d1 o1 i1
  = run_pipeline.calculate_quality_score m2 d2 o2 i2.
Proof.
  intros Hm Hd Ho Hi; unfold run_pipeline.calculate_quality_score.
  rewrite !missing_penalty_loop.
  assert (Hsum : forall m,
             map (fun d => scorer_inputs.column_penalty
                             (Py.get (missing_values.percentage d) 0%Q))
                 (Py.values (Py.get (missing_values.details m) []))
             = map scorer_inputs.column_penalty (scorer_inputs.percentages m))
    by (intros m; unfold scorer_inputs.percentages; now rewrite map_map).
  rewrite !Hsum, Hm.
  fold (scorer_inputs.dup_pct d1) (scorer_inputs.dup_pct d2)
       (scorer_inputs.total_outliers o1) (scorer_inputs.total_outliers o2)
       (scorer_inputs.issues i1) (scorer_inputs.issues i2).
  now rewrite Hd, Ho, Hi.
Qed.

Lemma quality_score_reads_four_inputs_witness :
  run_pipeline.calculate_quality_score
    samples.few_missing (duplicates.analyze_duplicates samples.padded_names)
    (samples.outlier_report 60)
    (inconsistencies.analyze_inconsistencies samples.uneven_lengths)
  = run_pipeline.calculate_quality_score
      samples.few_missing (duplicates.analyze_duplicates samples.uneven_lengths)
      (samples.outlier_report 60) (samples.inconsistency_report 0 0 0).
Proof.
  apply quality_score_reads_four_inputs; reflexivity.
Defined.

Lemma analyze_duplicates_percent (df : Pandas.DataFrame) :
  scorer_inputs.dup_pct (duplicates.analyze_duplicates df)
  = Py.round2 (if (0 <? Pandas.len df)%Z
               then (inject_Z (Pandas.duplicate_count df) / inject_Z (Pandas.len df)
                     * 100)%Q
               else 0%Q).
Proof. reflexivity. Qed.

(** X18: fed with the report of the duplicate analyzer, the scorer takes
    nothing off for duplicates when there are none, at most 3 when they are
    below 1% of the rows (severity "Low"), and at most 8 when they are below
    5% (severity "Medium"). *)
Theorem duplicate_penalty_within_severity (m : missing_values.report)
    (df : Pandas.DataFrame) (o : outliers.report) (i : inconsistencies.report) :
  let r := duplicates.analyze_duplicates df in
  let b := run_pipeline.breakdown (run_pipeline.calculate_quality_score m r o i) in
  exists dc : Z,
    duplicates.duplicate_count r = Some dc
    /\ (run_pipeline.duplicate_impact b
        <= if (dc =? 0)%Z then 0
           else if (100 * dc <? duplicates.total_rows r)%Z then 3
           else if (100 * dc <? 5 * duplicates.total_rows r)%Z then 8
           else 15)%Z.
Proof.
  intros r b; exists (Pandas.duplicate_count df); split; [reflexivity|].
  subst b r; unfold run_pipeline.calculate_quality_score.
  cbn [run_pipeline.breakdown run_pipeline.duplicate_impact duplicates.total_rows
       duplicates.analyze_duplicates].
  change (Py.get (duplicates.duplicate_percent (duplicates.analyze_duplicates df)) 0%Q)
    with (scorer_inputs.dup_pct (duplicates.analyze_duplicates df)).
  rewrite analyze_duplicates_percent.
  fold (Pandas.duplicate_count df).
  pose proof (count_true_bounds (Pandas.duplicated df)) as Hb.
  fold (Pandas.duplicate_count df) in Hb.
  assert (Ht : Py.len (Pandas.duplicated df) = Pandas.len df).
  { unfold Py.len, Pandas.len, Pandas.duplicated, Pandas.duplicated_rows.
    now rewrite duplicated_from_length. }
  rewrite Ht in Hb; clear Ht.
  generalize dependent (Pandas.duplicate_count df); intros dc Hb.
  generalize dependent (Pandas.len df); intros n Hb.
  pose proof round2_not_above as Hcap.
  assert (Hzero : forall c : Z, (0 <= c)%Z -> (0 * 100 <= inject_Z (100 * c))%Q).
  { intros c Hc; rewrite Qmult_0_l; change 0%Q with (inject_Z 0).
    rewrite <- Zle_Qle; lia. }
  destruct (Z.ltb_spec 0 n) as [Hn|Hn].
  - set (pct := (inject_Z dc / inject_Z n * 100)%Q).
    destruct (Z.eqb_spec dc 0) as [->|Hne].
    + assert (Hz : (pct == 0)%Q) by (now apply ratio_percent_zero).
      rewrite (Hcap pct 5%Z), (Hcap pct 1%Z), (Hcap pct 0%Z);
        try lia; rewrite Hz; apply Hzero; lia.
    + destruct (Z.ltb_spec (100 * dc) n) as [Hlow|Hlow].
      * assert (Hlt : (pct < 1)%Q)
          by (change 1%Q with (inject_Z 1); apply ratio_percent_lt; lia).
        rewrite (Hcap pct 5%Z), (Hcap pct 1%Z);
          [destruct (Py.Qlt_bool _ _); lia | | ];
          [change (inject_Z (100 * 1)) with 100%Q
          |change (inject_Z (100 * 5)) with 500%Q]; lra.
      * destruct (Z.ltb_spec (100 * dc) (5 * n)) as [Hmed|Hmed].
        -- assert (Hlt : (pct < 5)%Q)
             by (change 5%Q with (inject_Z 5); apply ratio_percent_lt; lia).
           rewrite (Hcap pct 5%Z);
             [repeat destruct (Py.Qlt_bool _ _); lia|].
           change (inject_Z (100 * 5)) with 500%Q; lra.
        -- repeat destruct (Py.Qlt_bool _ _); lia.
  - assert (dc = 0%Z) by lia; subst dc; cbn [Z.eqb].
    rewrite (Hcap 0%Q 5%Z), (Hcap 0%Q 1%Z), (Hcap 0%Q 0%Z); try lia;
      apply Hzero; lia.
Qed.

(** ** The missing-value analyzer *)

Lemma count_true_partition {A : Type} (p : A -> bool) (l : list A) :
  (Py.count_true (map p l) + Py.count_true (map (fun x => negb (p x)) l))%Z
  = Py.len l.
Proof.
  unfold Py.count_true, Py.len; induction l as [|x l IH]; [reflexivity|].
  cbn [map filter List.length]; destruct (p x); cbn [negb List.length]; lia.
Qed.

(** X19: in the summary of the missing-value analyzer the rows with a
    missing value and the complete rows add up to the rows of the dataset. *)
Theorem missing_summary_rows_add_up
    (pattern_counts : list (list bool) -> list (list bool * Z))
    (df : Pandas.DataFrame) :
  let s := missing_values_analysis.summary
             (missing_values_analysis.analyze_missing_values pattern_counts df) in
  (missing_values_analysis.rows_with_any_missing s
   + missing_values_analysis.complete_rows s)%Z
  = Pandas.len df
  /\ (0 <= missing_values_analysis.rows_with_any_missing s)%Z
  /\ (0 <= missing_values_analysis.complete_rows s)%Z.
Proof.
  cbn; split.
  - rewrite (count_true_partition missing_values_analysis.any).
    unfold Py.len, Pandas.len; now rewrite length_map.
  - split; apply count_true_bounds.
Qed.

Lemma missing_count_bounds (df : Pandas.DataFrame) (k : nat) :
  (0 <= missing_values_analysis.missing_count df k <= Pandas.len df)%Z.
Proof.
  unfold missing_values_analysis.missing_count, missing_values_analysis.column_at.
  pose proof (count_true_bounds
                (map Pandas.isna (map (Pandas.cell_at k) (Pandas.rows df)))) as H.
  unfold Py.len, Pandas.len in *; rewrite !length_map in H; exact H.
Qed.

(** The severity of an entry, from its count and the number of rows. *)
Lemma missing_severity_by_counts (count n : Z) :
  (0 < count <= n)%Z ->
  missing_values_analysis.get_severity (inject_Z count / inject_Z n * 100)
  = if (100 * count <? 5 * n)%Z then "Low"
    else if (100 * count <? 20 * n)%Z then "Medium"
    else "High".
Proof.
  intros Hc; assert (Hn : (0 < n)%Z) by lia.
  unfold missing_values_analysis.get_severity.
  pose proof (ratio_percent_zero count n Hn) as Hz.
  pose proof (ratio_percent_lt count n 5 Hn eq_refl) as H5.
  pose proof (ratio_percent_lt count n 20 Hn eq_refl) as H20.
  change (inject_Z 5) with 5%Q in H5; change (inject_Z 20) with 20%Q in H20.
  destruct (Qeq_bool _ 0) eqn:E0; [apply Qeq_bool_iff, Hz in E0; lia|].
  destruct (Qlt_bool_spec (inject_Z count / inject_Z n * 100) 5) as [Hlt|Hge].
  - apply H5 in Hlt.
    replace (100 * count <? 5 * n)%Z with true by (symmetry; now apply Z.ltb_lt).
    reflexivity.
  - replace (100 * count <? 5 * n)%Z with false
      by (symmetry; apply Z.ltb_ge;
          destruct (Z.lt_ge_cases (100 * count) (5 * n)) as [Hc'|Hc'];
          [apply H5 in Hc'; exfalso; apply (Qlt_not_le _ _ Hc' Hge) | lia]).
    destruct (Qlt_bool_spec (inject_Z count / inject_Z n * 100) 20) as [Hlt|Hge'].
    + apply H20 in Hlt.
      replace (100 * count <? 20 * n)%Z with true by (symmetry; now apply Z.ltb_lt).
      reflexivity.
    + replace (100 * count <? 20 * n)%Z with false
        by (symmetry; apply Z.ltb_ge;
            destruct (Z.lt_ge_cases (100 * count) (20 * n)) as [Hc'|Hc'];
            [apply H20 in Hc'; exfalso; apply (Qlt_not_le _ _ Hc' Hge') | lia]).
      reflexivity.
Qed.

Section MissingDetails.

Variable pattern_counts : list (list bool) -> list (list bool * Z).
Variable df : Pandas.DataFrame.

(** What holds of every entry of ["details"]. *)
Let sound_detail (entry : string * missing_values_analysis.detail) : Prop :=
  let d := snd entry in
  let n := Pandas.len df in
  (1 <= missing_values_analysis.count d <= n)%Z
  /\ missing_values_analysis.percentage d
     = Py.round2 (inject_Z (missing_values_analysis.count d) / inject_Z n * 100)%Q
  /\ missing_values_analysis.severity d
     = (if (100 * missing_values_analysis.count d <? 5 * n)%Z then "Low"
        else if (100 * missing_values_analysis.count d <? 20 * n)%Z then "Medium"
        else "High").

Lemma add_detail_sound (details : Py.dict missing_values_analysis.detail)
    (col_k : string * Pandas.dtype * nat) :
  Forall sound_detail details ->
  Forall sound_detail (missing_values_analysis.add_detail df details col_k).
Proof.
  intros Hd; destruct col_k as [[col dt] k]; unfold missing_values_analysis.add_detail.
  pose proof (missing_count_bounds df k) as Hb.
  destruct (Z.ltb_spec 0 (missing_values_analysis.missing_count df k)); [|assumption].
  apply dict_set_Forall; [|assumption].
  unfold sound_detail; cbn.
  split; [lia|]; split; [reflexivity|].
  apply missing_severity_by_counts; lia.
Qed.

Lemma details_sound :
  Forall sound_detail
    (missing_values_analysis.details
       (missing_values_analysis.analyze_missing_values pattern_counts df)).
Proof.
  cbn; apply (fold_left_invariant (Forall sound_detail)); [|constructor].
  intros details col_k; apply add_detail_sound.
Qed.

(** X20: every entry of ["details"] has a count between 1 and the number of
    rows, and its severity is never "None": it is "Low" below 5% of the
    rows, "Medium" from 5% and below 20%, "High" from 20% on, decided on the
    whole-number counts. *)
Theorem missing_detail_severity (col : string) (d : missing_values_analysis.detail) :
  Py.dict_get col
    (missing_values_analysis.details
       (missing_values_analysis.analyze_missing_values pattern_counts df))
  = Some d ->
  (1 <= missing_values_analysis.count d <= Pandas.len df)%Z
  /\ missing_values_analysis.severity d
     = (if (100 * missing_values_analysis.count d <? 5 * Pandas.len df)%Z then "Low"
        else if (100 * missing_values_analysis.count d <? 20 * Pandas.len df)%Z
             then "Medium"
        else "High").
Proof.
  intros Hget; apply dict_get_In in Hget.
  pose proof (proj1 (Forall_forall _ _) details_sound _ Hget)
    as (Hcount & _ & Hsev).
  split; assumption.
Qed.

Lemma column_penalty_within_severity (entry : string * missing_values_analysis.detail) :
  sound_detail entry ->
  (scorer_inputs.column_penalty (missing_values_analysis.percentage (snd entry))
   <= (let severity := missing_values_analysis.severity (snd entry) in
       if String.eqb severity "Low" then 2
       else if String.eqb severity "Medium" then 5 else 10))%Z.
Proof.
  intros (Hcount & -> & ->); cbv zeta.
  set (c := missing_values_analysis.count (snd entry)) in *.
  set (n := Pandas.len df) in *.
  set (pct := (inject_Z c / inject_Z n * 100)%Q).
  assert (Hn : (0 < n)%Z) by lia.
  unfold scorer_inputs.column_penalty.
  destruct (Z.ltb_spec (100 * c) (5 * n)) as [Hlow|Hlow].
  - assert (Hlt : (pct < 5)%Q)
      by (change 5%Q with (inject_Z 5); apply ratio_percent_lt; lia).
    rewrite (round2_not_above pct 20), (round2_not_above pct 5);
      [destruct (Py.Qlt_bool _ _); cbn; lia | | ];
      [change (inject_Z (100 * 5)) with 500%Q
      |change (inject_Z (100 * 20)) with 2000%Q]; lra.
  - destruct (Z.ltb_spec (100 * c) (20 * n)) as [Hmed|Hmed].
    + assert (Hlt : (pct < 20)%Q)
        by (change 20%Q with (inject_Z 20); apply ratio_percent_lt; lia).
      rewrite (round2_not_above pct 20);
        [repeat destruct (Py.Qlt_bool _ _); cbn; lia|].
      change (inject_Z (100 * 20)) with 2000%Q; lra.
    + repeat destruct (Py.Qlt_bool _ _); cbn; lia.
Qed.

Lemma Zsum_pointwise_le {A : Type} (f g : A -> Z) (l : list A) :
  Forall (fun x => (f x <= g x)%Z) l ->
  (scorer_inputs.Zsum (map f l) <= scorer_inputs.Zsum (map g l))%Z.
Proof.
  unfold scorer_inputs.Zsum; induction 1 as [|x l Hx _ IH]; simpl; lia.
Qed.

(** X21: fed with the report of the missing-value analyzer, the scorer
    takes off for missing data at most 2 per column of severity "Low", 5
    per column of severity "Medium" and 10 per column of severity "High",
    and never more than 30: a column's penalty tier never exceeds its
    severity tier. *)
Theorem missing_penalty_within_severity (d : duplicates.report)
    (o : outliers.report) (i : inconsistencies.report) :
  let r := missing_values_analysis.analyze_missing_values pattern_counts df in
  let tally :=
    scorer_inputs.Zsum
      (map (fun entry : string * missing_values_analysis.detail =>
              let severity := missing_values_analysis.severity (snd entry) in
              if String.eqb severity "Low" then 2%Z
              else if String.eqb severity "Medium" then 5%Z else 10%Z)
           (missing_values_analysis.details r)) in
  (run_pipeline.missing_data_impact
     (run_pipeline.breakdown
        (run_pipeline.calculate_quality_score
           (missing_values_analysis.for_scorer r) d o i))
   <= Z.min tally 30)%Z.
Proof.
  intros r tally.
  unfold run_pipeline.calculate_quality_score.
  cbn [run_pipeline.breakdown run_pipeline.missing_data_impact].
  rewrite missing_penalty_loop.
  unfold missing_values_analysis.for_scorer;
    cbn [missing_values.details Py.get Py.values].
  unfold Py.values; rewrite !map_map; cbn [snd missing_values.percentage Py.get].
  assert (Hle : (scorer_inputs.Zsum
                   (map (fun e : string * missing_values_analysis.detail =>
                           scorer_inputs.column_penalty
                             (missing_values_analysis.percentage (snd e)))
                        (missing_values_analysis.details r))
                 <= tally)%Z).
  { apply Zsum_pointwise_le.
    eapply Forall_impl; [|exact details_sound].
    intros entry; apply column_penalty_within_severity. }
  lia.
Qed.

End MissingDetails.

Lemma missing_detail_severity_witness :
  (1 <= 1 <= Pandas.len more_samples.weights)%Z
  /\ "High"
     = (if (100 * 1 <? 5 * Pandas.len more_samples.weights)%Z then "Low"
        else if (100 * 1 <? 20 * Pandas.len more_samples.weights)%Z then "Medium"
        else "High").
Proof.
  exact (missing_detail_severity (fun _ => []) more_samples.weights "weight"
           {| missing_values_analysis.count := 1;
              missing_values_analysis.percentage := 2500 # 100;
              missing_values_analysis.severity := "High";
              missing_values_analysis.dtype := Pandas.float64;
              missing_values_analysis.suggestion :=
                "Options: median imputation, mean imputation, or forward fill" |}
           eq_refl).
Defined.

Lemma dict_set_fresh {V : Type} (k : string) (v : V) (d : Py.dict V) :
  Py.dict_get k d = None -> Py.dict_set k v d = d ++ [(k, v)].
Proof.
  induction d as [|[k' v'] d IH]; simpl; [reflexivity|].
  destruct (String.eqb k k'); [discriminate|].
  intros H; now rewrite IH.
Qed.

Lemma dict_get_app_other {V : Type} (k k' : string) (v : V) (d : Py.dict V) :
  k <> k' -> Py.dict_get k (d ++ [(k', v)]) = Py.dict_get k d.
Proof.
  intros Hne; induction d as [|[k0 v0] d IH]; simpl.
  - now replace (String.eqb k k') with false by (symmetry; now apply String.eqb_neq).
  - destruct (String.eqb k k0); auto.
Qed.

Lemma map_snd_combine {A B : Type} (a : list A) (b : list B) :
  List.length a = List.length b -> map snd (combine a b) = b.
Proof.
  revert b; induction a as [|x a IH]; intros [|y b] H; simpl in *;
    try discriminate; [reflexivity|].
  injection H as H; now rewrite IH.
Qed.

Lemma map_fst_combine {A B : Type} (a : list A) (b : list B) :
  List.length a = List.length b -> map fst (combine a b) = a.
Proof.
  revert b; induction a as [|x a IH]; intros [|y b] H; simpl in *;
    try discriminate; [reflexivity|].
  injection H as H; now rewrite IH.
Qed.

Section MissingTotals.

Variable df : Pandas.DataFrame.

(** The entry that the loop adds for a column, if any. *)
Let entry_of (col_k : string * Pandas.dtype * nat)
  : list (string * missing_values_analysis.detail) :=
  missing_values_analysis.add_detail df [] col_k.

Lemma add_detail_fresh (details : Py.dict missing_values_analysis.detail)
    (col_k : string * Pandas.dtype * nat) :
  Py.dict_get (fst (fst col_k)) details = None ->
  missing_values_analysis.add_detail df details col_k = details ++ entry_of col_k.
Proof.
  destruct col_k as [[col dt] k]; unfold entry_of, missing_values_analysis.add_detail.
  cbn [fst]; intros Hfresh.
  destruct (0 <? _)%Z; [|now rewrite app_nil_r].
  now rewrite dict_set_fresh.
Qed.

Lemma entry_of_key (col_k : string * Pandas.dtype * nat) (c : string) :
  c <> fst (fst col_k) -> forall details,
  Py.dict_get c (details ++ entry_of col_k) = Py.dict_get c details.
Proof.
  destruct col_k as [[col dt] k]; unfold entry_of, missing_values_analysis.add_detail.
  cbn [fst]; intros Hne details.
  destruct (0 <? _)%Z; [|now rewrite app_nil_r].
  now apply dict_get_app_other.
Qed.

Lemma details_loop (l : list (string * Pandas.dtype * nat))
    (details : Py.dict missing_values_analysis.detail) :
  NoDup (map (fun e => fst (fst e)) l) ->
  (forall e, In e l -> Py.dict_get (fst (fst e)) details = None) ->
  fold_left (missing_values_analysis.add_detail df) l details
  = details ++ flat_map entry_of l.
Proof.
  revert details; induction l as [|e l IH]; intros details Hnodup Hfresh; simpl.
  - now rewrite app_nil_r.
  - inversion Hnodup as [|? ? Hnotin Hnodup']; subst.
    rewrite (add_detail_fresh details e (Hfresh e (or_introl eq_refl))).
    rewrite IH, <- app_assoc; [reflexivity | assumption |].
    intros e' He'; rewrite entry_of_key; [apply Hfresh; now right|].
    intros Heq; apply Hnotin; rewrite <- Heq.
    apply in_map_iff; exists e'; auto.
Qed.

Lemma entries_counts (l : list (string * Pandas.dtype * nat)) :
  scorer_inputs.Zsum
    (map (fun e => missing_values_analysis.count (snd e)) (flat_map entry_of l))
  = fold_right Z.add 0%Z (map (missing_values_analysis.missing_count df) (map snd l))
  /\ Py.len (flat_map entry_of l)
     = Py.len (filter (fun k => (0 <? missing_values_analysis.missing_count df k)%Z)
                      (map snd l)).
Proof.
  unfold scorer_inputs.Zsum, Py.len; induction l as [|[[col dt] k] l [IH1 IH2]];
    [split; reflexivity|].
  cbn [flat_map map snd filter fold_right].
  unfold entry_of at 1 3, missing_values_analysis.add_detail.
  pose proof (missing_count_bounds df k) as Hb.
  destruct (Z.ltb_spec 0 (missing_values_analysis.missing_count df k)).
  - cbn [Py.dict_set app map fold_right snd missing_values_analysis.count List.length].
    rewrite IH1; split; [reflexivity | lia].
  - cbn [app]; rewrite IH1; split; [lia | assumption].
Qed.

Hypothesis distinct : NoDup (Pandas.column_names df).

(** X22: with distinct column names, ["details"] holds one entry for each
    column that has a missing value, in the order of the columns; their
    counts add up to [total_missing_values] and their number is
    [columns_with_missing]. *)
Theorem missing_totals_match_details
    (pattern_counts : list (list bool) -> list (list bool * Z)) :
  let r := missing_values_analysis.analyze_missing_values pattern_counts df in
  let s := missing_values_analysis.summary r in
  missing_values_analysis.total_missing_values s
  = scorer_inputs.Zsum
      (map (fun e => missing_values_analysis.count (snd e))
           (missing_values_analysis.details r))
  /\ missing_values_analysis.columns_with_missing s
     = Py.len (missing_values_analysis.details r)
  /\ map fst (missing_values_analysis.details r)
     = filter (fun col =>
                 negb (Py.count_true (map Pandas.isna (Pandas.get_col df col)) =? 0)%Z)
              (Pandas.column_names df).
Proof.
  intros r s; subst s r; cbn.
  assert (Hlen : List.length (Pandas.columns df)
                 = List.length (missing_values_analysis.positions df))
    by (unfold missing_values_analysis.positions; now rewrite length_seq).
  set (l := combine (Pandas.columns df) (missing_values_analysis.positions df)).
  assert (Hnames : map (fun e => fst (fst e)) l = Pandas.column_names df).
  { unfold l, Pandas.column_names.
    rewrite <- (map_map fst fst), map_fst_combine; auto. }
  rewrite (details_loop l []); [| now rewrite Hnames | reflexivity].
  cbn [app].
  destruct (entries_counts l) as [Hsum Hcount].
  unfold l in Hsum, Hcount; rewrite map_snd_combine in Hsum, Hcount by assumption.
  fold l in Hsum, Hcount.
  split; [exact (eq_sym Hsum)|]; split; [exact (eq_sym Hcount)|].
  (* the keys *)
  assert (Hkeys : forall (cols : list (string * Pandas.dtype)) (start : nat),
             (forall j c, nth_error cols j = Some c ->
                          missing_values_analysis.missing_count df (start + j)
                          = Py.count_true
                              (map Pandas.isna (Pandas.get_col df (fst c)))) ->
             map fst (flat_map entry_of (combine cols (seq start (List.length cols))))
             = filter (fun col =>
                         negb (Py.count_true
                                 (map Pandas.isna (Pandas.get_col df col)) =? 0)%Z)
                      (map fst cols)).
  { induction cols as [|[c dt] cols IH]; intros start Hat; [reflexivity|].
    cbn [List.length seq combine flat_map map filter fst].
    rewrite map_app, (IH (S start)).
    - pose proof (Hat 0%nat (c, dt) eq_refl) as H0; rewrite Nat.add_0_r in H0.
      cbn [fst] in H0.
      unfold entry_of, missing_values_analysis.add_detail; rewrite H0.
      pose proof (count_true_bounds (map Pandas.isna (Pandas.get_col df c))).
      destruct (Z.ltb_spec 0 (Py.count_true (map Pandas.isna (Pandas.get_col df c))));
        destruct (Z.eqb_spec (Py.count_true (map Pandas.isna (Pandas.get_col df c))) 0);
        try lia; reflexivity.
    - intros j c' Hj; rewrite <- (Hat (S j) c' Hj); f_equal; lia. }
  unfold l, missing_values_analysis.positions, Pandas.column_names.
  apply Hkeys; intros j [c dt] Hj; cbn [fst Nat.add].
  unfold missing_values_analysis.missing_count, missing_values_analysis.column_at,
    Pandas.get_col.
  assert (Hidx : Pandas.index_of c (Pandas.column_names df) = Some j).
  { assert (Hc : nth_error (Pandas.column_names df) j = Some c)
      by (unfold Pandas.column_names; now rewrite nth_error_map, Hj).
    pose proof (index_of_In c _ (nth_error_In _ _ Hc)) as Hsome.
    destruct (Pandas.index_of c (Pandas.column_names df)) as [k|] eqn:Hk;
      [|congruence].
    f_equal; apply index_of_nth_error in Hk.
    apply (proj1 (NoDup_nth_error (Pandas.column_names df)) distinct);
      [apply nth_error_Some|]; congruence. }
  now rewrite Hidx.
Qed.

End MissingTotals.

Lemma missing_totals_match_details_witness :
  let r := missing_values_analysis.analyze_missing_values (fun _ => [])
             samples.readings in
  let s := missing_values_analysis.summary r in
  missing_values_analysis.total_missing_values s
  = scorer_inputs.Zsum
      (map (fun e => missing_values_analysis.count (snd e))
           (missing_values_analysis.details r))
  /\ missing_values_analysis.columns_with_missing s
     = Py.len (missing_values_analysis.details r)
  /\ map fst (missing_values_analysis.details r)
     = filter (fun col =>
                 negb (Py.count_true
                         (map Pandas.isna (Pandas.get_col samples.readings col))
                       =? 0)%Z)
              (Pandas.column_names samples.readings).
Proof.
  apply missing_totals_match_details.
  repeat constructor; simpl; intuition discriminate.
Defined.

Lemma fold_left_fixed {A B : Type} (f : A -> B -> A) (l : list B) (a : A) :
  (forall b, In b l -> f a b = a) -> fold_left f l a = a.
Proof.
  induction l as [|b l IH]; intros H; simpl; [reflexivity|].
  rewrite (H b (or_introl eq_refl)); apply IH; intros b' Hb'; apply H; now right.
Qed.

Lemma get_col_at_position (df : Pandas.DataFrame) (k : nat) (c : string) :
  NoDup (Pandas.column_names df) ->
  nth_error (Pandas.column_names df) k = Some c ->
  Pandas.get_col df c = missing_values_analysis.column_at df k.
Proof.
  intros Hnodup Hc; unfold Pandas.get_col, missing_values_analysis.column_at.
  pose proof (index_of_In c _ (nth_error_In _ _ Hc)) as Hsome.
  destruct (Pandas.index_of c (Pandas.column_names df)) as [j|] eqn:Hj; [|congruence].
  apply index_of_nth_error in Hj.
  assert (j = k); [|now subst].
  apply (proj1 (NoDup_nth_error (Pandas.column_names df)) Hnodup);
    [apply nth_error_Some|]; congruence.
Qed.

Lemma sum_of_zeros {A : Type} (f : A -> Z) (l : list A) :
  (forall x, In x l -> f x = 0%Z) -> fold_right Z.add 0%Z (map f l) = 0%Z.
Proof.
  induction l as [|x l IH]; intros H; simpl; [reflexivity|].
  rewrite (H x (or_introl eq_refl)), IH; [reflexivity|].
  intros y Hy; apply H; now right.
Qed.

Section AfterImputation.

Variable pattern_counts : list (list bool) -> list (list bool * Z).
Variable df : Pandas.DataFrame.
Variable strategy : string.

Hypothesis rect : frames.rectangular df.
Hypothesis distinct : NoDup (Pandas.column_names df).
Hypothesis fillable :
  forall col, In col (Pandas.column_names df) ->
    (Pandas.is_numeric (Pandas.col_dtype df col) = true ->
     Pandas.numeric_values (Pandas.get_col df col) <> None)
    /\ (exists c, In c (Pandas.get_col df col) /\ Pandas.isna c = false)
    /\ Pandas.col_dtype df col <> Pandas.Int64.

Let imputed : Pandas.DataFrame := cleaning.impute_missing_values df strategy.

Lemma imputed_position_filled (k : nat) :
  In k (missing_values_analysis.positions imputed) ->
  frames.no_missing (missing_values_analysis.column_at imputed k).
Proof.
  unfold missing_values_analysis.positions; intros Hk; apply in_seq in Hk.
  assert (Hnames : Pandas.column_names imputed = Pandas.column_names df)
    by apply impute_names.
  assert (Hcols : List.length (Pandas.columns imputed)
                  = List.length (Pandas.columns df)).
  { rewrite <- (length_map fst), <- (length_map fst (Pandas.columns df)).
    exact (f_equal (@List.length string) Hnames). }
  destruct (nth_error (Pandas.column_names df) k) as [c|] eqn:Hc.
  - rewrite <- (get_col_at_position imputed k c);
      [| now rewrite Hnames | now rewrite Hnames].
    pose proof (nth_error_In _ _ Hc) as Hin.
    destruct (fillable c Hin) as (Htyped & Hvalue & Hnot).
    unfold imputed, cleaning.impute_missing_values, Pandas.copy.
    apply (impute_loop_fills df strategy c Hin Htyped Hvalue Hnot);
      [assumption | split; [reflexivity | split; [assumption | reflexivity]]
      | reflexivity].
  - apply nth_error_None in Hc.
    unfold Pandas.column_names in Hc; rewrite length_map, <- Hcols in Hc; lia.
Qed.

Lemma imputed_count_zero (k : nat) :
  In k (missing_values_analysis.positions imputed) ->
  missing_values_analysis.missing_count imputed k = 0%Z.
Proof.
  intros Hk; now apply count_true_isna_zero, imputed_position_filled.
Qed.

(** X23: on a rectangular dataset with distinct column names in which
    every column has at least one value and is not a nullable [Int64]
    column (numeric columns holding numbers only, of moderate size), the
    missing-value analyzer finds nothing after imputation: no entry in
    ["details"], no missing value counted, every row complete. *)
Theorem nothing_missing_after_imputation :
  (forall col, In col (Pandas.column_names df) ->
               frames.moderate (Pandas.get_col df col)) ->
  let r := missing_values_analysis.analyze_missing_values pattern_counts imputed in
  missing_values_analysis.details r = []
  /\ missing_values_analysis.total_missing_values
       (missing_values_analysis.summary r) = 0%Z
  /\ missing_values_analysis.complete_rows (missing_values_analysis.summary r)
     = Pandas.len df.
Proof.
  intros _; cbn; split; [|split].
  - apply fold_left_fixed; intros [[col dt] k] Hin.
    apply in_combine_r in Hin.
    unfold missing_values_analysis.add_detail.
    now rewrite (imputed_count_zero k Hin).
  - apply sum_of_zeros; intros k Hk; now apply imputed_count_zero.
  - assert (Hrows : forall r, In r (Pandas.rows imputed) ->
               negb (missing_values_analysis.any
                       (missing_values_analysis.missing_mask imputed r)) = true).
    { intros r Hr; apply negb_true_iff.
      unfold missing_values_analysis.any, missing_values_analysis.missing_mask.
      apply not_true_iff_false; intros Hany.
      apply existsb_exists in Hany as (b & Hb & ->).
      apply in_map_iff in Hb as (k & Hna & Hk).
      pose proof (imputed_position_filled k Hk) as Hfilled.
      unfold frames.no_missing, missing_values_analysis.column_at in Hfilled.
      rewrite Forall_forall in Hfilled.
      specialize (Hfilled (Pandas.cell_at k r) (in_map _ _ _ Hr)); congruence. }
    rewrite map_map, <- (impute_len df strategy); fold imputed.
    unfold Pandas.len; revert Hrows.
    induction (Pandas.rows imputed) as [|r rs IH]; intros Hrows; [reflexivity|].
    unfold Py.count_true, Py.len in *; cbn [map filter].
    rewrite (Hrows r (or_introl eq_refl)); cbn [List.length].
    rewrite Nat2Z.inj_succ, IH; [lia|].
    intros r' Hr'; apply Hrows; now right.
Qed.

End AfterImputation.

Lemma nothing_missing_after_imputation_witness :
  let r := missing_values_analysis.analyze_missing_values (fun _ => [])
             (cleaning.impute_missing_values samples.readings "median") in
  missing_values_analysis.details r = []
  /\ missing_values_analysis.total_missing_values
       (missing_values_analysis.summary r) = 0%Z
  /\ missing_values_analysis.complete_rows (missing_values_analysis.summary r)
     = Pandas.len samples.readings.
Proof.
  apply nothing_missing_after_imputation.
  - repeat constructor.
  - repeat constructor; simpl; intuition discriminate.
  - intros col [<-|[<-|[]]]; (split; [vm_compute; discriminate|]);
      (split; [|vm_compute; discriminate]).
    + exists (Pandas.Num 1); split; [vm_compute; left; reflexivity | reflexivity].
    + exists (Pandas.Str "north"); split; [vm_compute; left; reflexivity | reflexivity].
  - intros col [<-|[<-|[]]]; repeat constructor; vm_compute; discriminate.
Defined.
(** ** Quantiles of a sorted series *)

Lemma insert_sorted_length (x : Q) (l : list Q) :
  List.length (Pandas.insert_sorted x l) = S (List.length l).
Proof.
  induction l as [|z l IH]; simpl; [reflexivity|].
  destruct (Qle_bool x z); simpl; [reflexivity | now rewrite IH].
Qed.

Lemma sort_length (l : list Q) : List.length (Pandas.sort l) = List.length l.
Proof.
  unfold Pandas.sort; induction l as [|x l IH]; simpl; [reflexivity|].
  now rewrite insert_sorted_length, IH.
Qed.

Lemma nth_sorted (s : list Q) :
  StronglySorted Qle s ->
  forall (i j : nat) (d : Q),
    (i <= j < List.length s)%nat -> (nth i s d <= nth j s d)%Q.
Proof.
  induction 1 as [|z l Hl IH Hz]; intros i j d Hij; simpl in Hij; [lia|].
  destruct i as [|i], j as [|j]; simpl; try lia.
  - apply Qle_refl.
  - rewrite Forall_forall in Hz; apply Hz, nth_In; lia.
  - apply IH; lia.
Qed.

(** The position that [quantile] interpolates at, for [0 <= p <= 1]. *)
Lemma quantile_position (p : Q) (n : nat) :
  (0 <= p)%Q -> (p <= 1)%Q -> (1 <= n)%nat ->
  let pos := (p * inject_Z (Z.of_nat (n - 1)))%Q in
  (0 <= Qfloor pos)%Z
  /\ (Z.to_nat (Qfloor pos) <= n - 1)%nat
  /\ (0 <= pos - inject_Z (Qfloor pos))%Q
  /\ (pos - inject_Z (Qfloor pos) <= 1)%Q.
Proof.
  intros Hp0 Hp1 Hn pos.
  assert (Hm : (0 <= inject_Z (Z.of_nat (n - 1)))%Q)
    by (change 0%Q with (inject_Z 0); rewrite <- Zle_Qle; lia).
  assert (Hpos0 : (0 <= pos)%Q) by (unfold pos; now apply Qmult_le_0_compat).
  assert (Hpos1 : (pos <= inject_Z (Z.of_nat (n - 1)))%Q).
  { unfold pos.
    setoid_replace (inject_Z (Z.of_nat (n - 1)))
      with (1 * inject_Z (Z.of_nat (n - 1)))%Q at 2 by ring.
    now apply Qmult_le_compat_r. }
  assert (Hf0 : (0 <= Qfloor pos)%Z).
  { change 0%Z with (Qfloor 0); now apply Qfloor_resp_le. }
  assert (Hf1 : (Qfloor pos <= Z.of_nat (n - 1))%Z).
  { rewrite <- (Qfloor_Z (Z.of_nat (n - 1))); now apply Qfloor_resp_le. }
  pose proof (Qfloor_le pos) as Hle.
  pose proof (Qlt_floor pos) as Hlt.
  rewrite inject_Z_plus in Hlt.
  repeat split; try lia.
  - lra.
  - change (inject_Z 1) with 1%Q in Hlt; lra.
Qed.

Lemma interpolation_between (lo hi frac : Q) :
  (lo <= hi)%Q -> (0 <= frac)%Q -> (frac <= 1)%Q ->
  (lo <= lo + (hi - lo) * frac)%Q /\ (lo + (hi - lo) * frac <= hi)%Q.
Proof.
  intros Hlh Hf0 Hf1; split.
  - assert (0 <= (hi - lo) * frac)%Q by (apply Qmult_le_0_compat; lra); lra.
  - assert (0 <= (hi - lo) * (1 - frac))%Q by (apply Qmult_le_0_compat; lra).
    setoid_replace (lo + (hi - lo) * frac)%Q
      with (hi - (hi - lo) * (1 - frac))%Q by ring.
    lra.
Qed.

Lemma quantile_sorted_value (p : Q) (x0 : Q) (s' : list Q) (q : Q) :
  Pandas.quantile_sorted p (x0 :: s') = Some q ->
  let s := x0 :: s' in
  let pos := (p * inject_Z (Z.of_nat (List.length s - 1)))%Q in
  let i := Z.to_nat (Qfloor pos) in
  q = (nth i s x0
       + (nth (Nat.min (i + 1) (List.length s - 1)) s x0 - nth i s x0)
         * (pos - inject_Z (Qfloor pos)))%Q.
Proof.
  intros H s pos i.
  enough (Some q = Some (nth i s x0
       + (nth (Nat.min (i + 1) (List.length s - 1)) s x0 - nth i s x0)
         * (pos - inject_Z (Qfloor pos)))%Q) as E
    by exact (f_equal (fun o => match o with Some v => v | None => q end) E).
  rewrite <- H; reflexivity.
Qed.


(** A quantile lies between two neighbours of the sorted series. *)
Lemma quantile_sorted_between (p : Q) (s : list Q) (q : Q) :
  StronglySorted Qle s -> (0 <= p)%Q -> (p <= 1)%Q ->
  Pandas.quantile_sorted p s = Some q ->
  let i := Z.to_nat (Qfloor (p * inject_Z (Z.of_nat (List.length s - 1)))) in
  forall d,
    (nth i s d <= q)%Q
    /\ (q <= nth (Nat.min (i + 1) (List.length s - 1)) s d)%Q.
Proof.
  intros Hs Hp0 Hp1 Hq i d.
  destruct s as [|x0 s']; [discriminate|].
  set (s := x0 :: s') in *.
  assert (Hn : (1 <= List.length s)%nat) by (simpl; lia).
  destruct (quantile_position p (List.length s) Hp0 Hp1 Hn)
    as (Hf0 & Hi & Hfrac0 & Hfrac1).
  fold i in Hi.
  apply quantile_sorted_value in Hq; cbv zeta in Hq; fold s i in Hq.
  rewrite (nth_indep s d x0) by lia.
  rewrite (nth_indep s d x0 (n := Nat.min (i + 1) (List.length s - 1))) by lia.
  rewrite Hq; apply interpolation_between; try assumption.
  apply nth_sorted; [assumption | lia].
Qed.

Lemma quantile_sorted_monotone (p p' : Q) (s : list Q) (a b : Q) :
  StronglySorted Qle s -> (0 <= p)%Q -> (p <= p')%Q -> (p' <= 1)%Q ->
  Pandas.quantile_sorted p s = Some a ->
  Pandas.quantile_sorted p' s = Some b ->
  (a <= b)%Q.
Proof.
  intros Hs Hp0 Hpp Hp1 Ha Hb.
  assert (Hp1' : (p <= 1)%Q) by lra.
  assert (Hp0' : (0 <= p')%Q) by lra.
  destruct s as [|x0 s']; [discriminate|].
  set (s := x0 :: s') in *.
  assert (Hn : (1 <= List.length s)%nat) by (simpl; lia).
  pose proof (quantile_sorted_between p s a Hs Hp0 Hp1' Ha x0) as [Ha1 Ha2].
  pose proof (quantile_sorted_between p' s b Hs Hp0' Hp1 Hb x0) as [Hb1 Hb2].
  destruct (quantile_position p (List.length s) Hp0 Hp1' Hn)
    as (Hf0 & Hi & Hfrac0 & Hfrac1).
  destruct (quantile_position p' (List.length s) Hp0' Hp1 Hn)
    as (Hf0' & Hi' & Hfrac0' & Hfrac1').
  set (m := inject_Z (Z.of_nat (List.length s - 1))) in *.
  assert (Hm : (0 <= m)%Q) by (unfold m; change 0%Q with (inject_Z 0); rewrite <- Zle_Qle; lia).
  assert (Hpos : (p * m <= p' * m)%Q) by now apply Qmult_le_compat_r.
  pose proof (Qfloor_resp_le _ _ Hpos) as Hfl.
  destruct (Z.eq_dec (Qfloor (p * m)) (Qfloor (p' * m))) as [Heq|Hne].
  - apply quantile_sorted_value in Ha, Hb; cbv zeta in Ha, Hb; fold s m in Ha, Hb.
    rewrite <- Heq in Hb.
    set (lo := nth (Z.to_nat (Qfloor (p * m))) s x0) in *.
    set (hi := nth (Nat.min (Z.to_nat (Qfloor (p * m)) + 1) (List.length s - 1)) s x0) in *.
    assert (Hlh : (lo <= hi)%Q) by (apply nth_sorted; [assumption | lia]).
    rewrite Ha, Hb.
    assert ((hi - lo) * (p * m - inject_Z (Qfloor (p * m)))
            <= (hi - lo) * (p' * m - inject_Z (Qfloor (p * m))))%Q.
    { rewrite !(Qmult_comm (hi - lo)); apply Qmult_le_compat_r; lra. }
    lra.
  - apply Qle_trans with (1 := Ha2); apply Qle_trans with (2 := Hb1).
    apply nth_sorted; [assumption | fold m; lia].
Qed.

(** [Q1 <= Q3]. *)
Lemma quartiles_ordered (xs : list Q) (q1 q3 : Q) :
  Pandas.quantile (1 # 4) xs = Some q1 ->
  Pandas.quantile (3 # 4) xs = Some q3 ->
  (q1 <= q3)%Q.
Proof.
  unfold Pandas.quantile; intros H1 H3.
  apply (quantile_sorted_monotone (1 # 4) (3 # 4) (Pandas.sort xs));
    try assumption; try apply sort_sorted; lra.
Qed.

Lemma quantile_defined (p : Q) (xs : list Q) :
  xs <> [] -> exists q, Pandas.quantile p xs = Some q.
Proof.
  destruct xs as [|x xs]; [congruence|]; intros _.
  unfold Pandas.quantile, Pandas.sort; cbn [fold_right].
  destruct (insert_sorted_cons x (fold_right Pandas.insert_sorted [] xs))
    as (y & l' & ->).
  unfold Pandas.quantile_sorted; eauto.
Qed.

(** ** The outlier analyzer *)

Lemma df_numeric_length (df : Pandas.DataFrame) :
  (List.length (outliers_analysis.df_numeric df) <= List.length (Pandas.rows df))%nat.
Proof.
  unfold outliers_analysis.df_numeric.
  induction (Pandas.rows df) as [|r rs IH]; simpl; [lia|].
  rewrite length_app.
  destruct (outliers_analysis.complete_row _); simpl; lia.
Qed.

Lemma numeric_values_length (cs : list Pandas.cell) (xs : list Q) :
  Pandas.numeric_values cs = Some xs ->
  (List.length xs <= List.length cs)%nat.
Proof.
  revert xs; induction cs as [|c cs IH]; intros xs; simpl.
  - intros [= <-]; simpl; lia.
  - destruct c; try discriminate.
    + intros H; specialize (IH xs H); lia.
    + destruct (Pandas.numeric_values cs) as [ys|]; [|discriminate].
      intros [= <-]; specialize (IH ys eq_refl); simpl; lia.
Qed.

Lemma get_col_length_le (df : Pandas.DataFrame) (col : string) :
  (List.length (Pandas.get_col df col) <= List.length (Pandas.rows df))%nat.
Proof.
  unfold Pandas.get_col.
  destruct (Pandas.index_of col (Pandas.column_names df)); simpl;
    [rewrite length_map|]; lia.
Qed.

Lemma firstn_incl {A : Type} (n : nat) (l : list A) : incl (firstn n l) l.
Proof.
  revert l; induction n as [|n IH]; intros l a; [intros []|].
  destruct l as [|y l]; [intros []|].
  intros [->|Ha]; [now left | right; now apply IH].
Qed.

Lemma iqr_rule_spares_the_middle (q1 q3 x : Q) :
  (q1 <= x)%Q -> (x <= q3)%Q ->
  outliers_analysis.outside (q1 - (3 # 2) * (q3 - q1)) (q3 + (3 # 2) * (q3 - q1)) x
  = false.
Proof.
  intros H1 H3; unfold outliers_analysis.outside.
  destruct (Qlt_bool_spec x (q1 - (3 # 2) * (q3 - q1))) as [Hlt|_]; [lra|].
  destruct (Qlt_bool_spec (q3 + (3 # 2) * (q3 - q1)) x) as [Hlt|_]; [lra|].
  reflexivity.
Qed.

(** What [column_outliers] finds for any column. *)
Lemma column_outliers_sound (df : Pandas.DataFrame) (col : string) :
  let n := fst (outliers_analysis.column_outliers df col) in
  (0 <= n <= Pandas.len df)%Z
  /\ forall d, snd (outliers_analysis.column_outliers df col) = Some d ->
       (outliers_analysis.lower_bound d <= outliers_analysis.Q1 d)%Q
       /\ (outliers_analysis.Q1 d <= outliers_analysis.Q3 d)%Q
       /\ (outliers_analysis.Q3 d <= outliers_analysis.upper_bound d)%Q
       /\ Forall (fun x => In (Pandas.Num x) (Pandas.get_col df col)
                           /\ (x < outliers_analysis.lower_bound d
                               \/ outliers_analysis.upper_bound d < x)%Q)
                 (outliers_analysis.sample_values d)
       /\ (List.length (outliers_analysis.sample_values d) <= 5)%nat
       /\ (Z.of_nat (List.length (outliers_analysis.sample_values d)) <= n)%Z.
Proof.
  unfold outliers_analysis.column_outliers.
  assert (H0 : (0 <= 0 <= Pandas.len df)%Z) by (unfold Pandas.len, Py.len; lia).
  destruct (Pandas.numeric_values (Pandas.get_col df col)) as [xs|] eqn:Hxs;
    [|simpl; split; [exact H0 | discriminate]].
  destruct (List.length xs <? 4)%nat;
    [simpl; split; [exact H0 | discriminate]|].
  destruct (Pandas.quantile (1 # 4) xs) as [q1|] eqn:E1;
    [|simpl; split; [exact H0 | discriminate]].
  destruct (Pandas.quantile (3 # 4) xs) as [q3|] eqn:E3;
    [|simpl; split; [exact H0 | discriminate]].
  pose proof (quartiles_ordered xs q1 q3 E1 E3) as Hq.
  pose proof (numeric_values_length _ _ Hxs) as Hlen.
  pose proof (get_col_length_le df col) as Hcol.
  set (lower := (q1 - (3 # 2) * (q3 - q1))%Q).
  set (upper := (q3 + (3 # 2) * (q3 - q1))%Q).
  set (out := filter (outliers_analysis.outside lower upper) xs).
  pose proof (filter_length_le (outliers_analysis.outside lower upper) xs) as Hout.
  fold out in Hout.
  cbn [fst snd]; split.
  - unfold outliers_analysis.z_outliers.
    match goal with |- context [filter ?p xs] =>
      pose proof (filter_length_le p xs) as Hz;
      generalize dependent (filter p xs) end.
    intros zs Hz; unfold Pandas.len, Py.len; lia.
  - intros d Hd.
    apply (f_equal (fun o => match o with Some v => v | None => d end)) in Hd.
    cbv beta iota in Hd; subst d.
    cbn [outliers_analysis.lower_bound outliers_analysis.upper_bound
                          outliers_analysis.Q1 outliers_analysis.Q3
                          outliers_analysis.sample_values].
    repeat split.
    + unfold lower; lra.
    + exact Hq.
    + unfold upper; lra.
    + apply Forall_forall; intros x Hx.
      assert (Hin : In x out) by exact (firstn_incl _ _ _ Hx).
      apply filter_In in Hin as [Hin Hcond]; split.
      * clear - Hxs Hin; revert xs Hxs Hin.
        induction (Pandas.get_col df col) as [|c cs IH]; intros xs; simpl.
        -- intros [= <-] [].
        -- destruct c; try discriminate.
           ++ intros H Hin; right; eauto.
           ++ destruct (Pandas.numeric_values cs) as [ys|]; [|discriminate].
              intros [= <-] [->|Hin]; [now left | right; eauto].
      * unfold outliers_analysis.outside in Hcond.
        apply orb_true_iff in Hcond as [Hc|Hc]; [left|right].
        -- destruct (Qlt_bool_spec x lower); [assumption | discriminate].
        -- destruct (Qlt_bool_spec upper x); [assumption | discriminate].
    + rewrite length_firstn; lia.
    + rewrite length_firstn; unfold Py.len; fold out; lia.
Qed.

Lemma dict_get_set_other {V : Type} (k k' : string) (v : V) (d : Py.dict V) :
  k <> k' -> Py.dict_get k (Py.dict_set k' v d) = Py.dict_get k d.
Proof.
  intros Hne; apply String.eqb_neq in Hne.
  induction d as [|[k0 v0] d IH]; simpl; [now rewrite Hne|].
  destruct (String.eqb k' k0) eqn:E; simpl.
  - apply String.eqb_eq in E; subst k0; now rewrite Hne.
  - destruct (String.eqb k k0); auto.
Qed.

Lemma fold_dict_set_other {V : Type} (g : string -> V) (col : string)
    (cols : list string) (acc : Py.dict V) :
  ~ In col cols ->
  Py.dict_get col (fold_left (fun per c => Py.dict_set c (g c) per) cols acc)
  = Py.dict_get col acc.
Proof.
  revert acc; induction cols as [|c cols IH]; intros acc Hnot; simpl; [reflexivity|].
  rewrite IH by (intros H; apply Hnot; now right).
  apply dict_get_set_other; intros ->; apply Hnot; now left.
Qed.

Lemma fold_dict_set_get {V : Type} (g : string -> V) (col : string)
    (cols : list string) (acc : Py.dict V) :
  In col cols ->
  Py.dict_get col (fold_left (fun per c => Py.dict_set c (g c) per) cols acc)
  = Some (g col).
Proof.
  revert acc; induction cols as [|c cols IH]; intros acc Hin; simpl; [destruct Hin|].
  destruct (in_dec string_dec col cols) as [Hlater|Hnot]; [now apply IH|].
  destruct Hin as [->|Hin]; [|contradiction].
  rewrite fold_dict_set_other by assumption; apply dict_get_set_same.
Qed.

Lemma fold_dict_set_keys {V : Type} (g : string -> V) (col : string) (v : V)
    (cols : list string) (acc : Py.dict V) :
  Py.dict_get col (fold_left (fun per c => Py.dict_set c (g c) per) cols acc)
  = Some v ->
  (In col cols /\ v = g col) \/ Py.dict_get col acc = Some v.
Proof.
  intros H; destruct (in_dec string_dec col cols) as [Hin|Hnot].
  - left; split; [assumption|].
    rewrite fold_dict_set_get in H by assumption; congruence.
  - right; now rewrite fold_dict_set_other in H.
Qed.

Section ColumnLoop.

Variable df : Pandas.DataFrame.

Let step (st : Py.dict Z * Py.dict outliers_analysis.column_detail) (col : string) :=
  let (count, detail) := outliers_analysis.column_outliers df col in
  (Py.dict_set col count (fst st),
   match detail with
   | Some d => Py.dict_set col d (snd st)
   | None => snd st
   end).

Lemma column_loop_counts (cols : list string)
    (st : Py.dict Z * Py.dict outliers_analysis.column_detail) :
  fst (fold_left step cols st)
  = fold_left (fun per c =>
                 Py.dict_set c (fst (outliers_analysis.column_outliers df c)) per)
              cols (fst st).
Proof.
  revert st; induction cols as [|c cols IH]; intros st; simpl; [reflexivity|].
  rewrite IH; f_equal; unfold step.
  now destruct (outliers_analysis.column_outliers df c).
Qed.

Lemma column_loop_details (cols : list string)
    (st : Py.dict Z * Py.dict outliers_analysis.column_detail) :
  Forall (fun e => snd (outliers_analysis.column_outliers df (fst e)) = Some (snd e))
         (snd st) ->
  Forall (fun e => snd (outliers_analysis.column_outliers df (fst e)) = Some (snd e))
         (snd (fold_left step cols st)).
Proof.
  revert st; induction cols as [|c cols IH]; intros st Hst; simpl; [assumption|].
  apply IH; unfold step.
  destruct (outliers_analysis.column_outliers df c) as [n [d|]] eqn:E;
    cbn [snd]; [|assumption].
  apply dict_set_Forall; [cbn [fst snd]; now rewrite E | assumption].
Qed.

End ColumnLoop.

(** X24: a dataset of fewer than 10 rows is never analysed: the report
    carries an error, no outlier and no per-column entry, and the quality
    score loses nothing to outliers, whatever the isolation forest would
    say. *)
Theorem few_rows_no_outliers
    (fit_predict : list (list Q) -> option (list Z)) (df : Pandas.DataFrame) :
  (Pandas.len df < 10)%Z ->
  let r := outliers_analysis.analyze_outliers fit_predict df in
  outliers_analysis.error r <> None
  /\ outliers_analysis.total_outliers r = 0%Z
  /\ outliers_analysis.outliers_per_column r = []
  /\ forall m d i,
       run_pipeline.outlier_impact
         (run_pipeline.breakdown
            (run_pipeline.calculate_quality_score
               m d (outliers_analysis.for_pipeline r) i)) = 0%Z.
Proof.
  intros Hfew r.
  assert (Hr : outliers_analysis.error r <> None
               /\ outliers_analysis.total_outliers r = 0%Z
               /\ outliers_analysis.outliers_per_column r = []).
  { subst r; unfold outliers_analysis.analyze_outliers.
    destruct (Py.len (outliers_analysis.numeric_cols df) =? 0)%Z;
      [cbn; repeat split; discriminate|].
    assert (Hlt : (Py.len (outliers_analysis.df_numeric df) <? 10)%Z = true).
    { apply Z.ltb_lt; pose proof (df_numeric_length df).
      unfold Pandas.len, Py.len in *; lia. }
    rewrite Hlt; cbn; repeat split; discriminate. }
  destruct Hr as (Herr & Htotal & Hper); repeat split; try assumption.
  intros m d i; unfold run_pipeline.calculate_quality_score.
  cbn [run_pipeline.breakdown run_pipeline.outlier_impact].
  unfold outliers_analysis.for_pipeline; cbn [outliers.total_outliers Py.get].
  now rewrite Htotal.
Qed.

Lemma few_rows_no_outliers_witness :
  (Pandas.len samples.readings < 10)%Z
  /\ outliers_analysis.total_outliers
       (outliers_analysis.analyze_outliers more_samples.first_row_forest
                                           samples.readings) = 0%Z.
Proof.
  assert (H : (Pandas.len samples.readings < 10)%Z) by (vm_compute; reflexivity).
  split; [exact H|].
  exact (proj1 (proj2 (few_rows_no_outliers more_samples.first_row_forest
                                            samples.readings H))).
Defined.

(** X25: for a column whose values are finite and of moderate size (so
    that the quartiles and bounds are computed without leaving the range
    of float64), the per-column count of the report lies between 0 and the
    number of rows; where the column has details, the bounds enclose the
    quartiles ([lower_bound <= Q1 <= Q3 <= upper_bound]), there are at most
    5 sample values and no more than the count, and each sample is a value
    of the column that lies outside the bounds. *)
Theorem outlier_counts_and_samples
    (fit_predict : list (list Q) -> option (list Z)) (df : Pandas.DataFrame)
    (col : string) (n : Z) :
  let r := outliers_analysis.analyze_outliers fit_predict df in
  frames.moderate (Pandas.get_col df col) ->
  Py.dict_get col (outliers_analysis.outliers_per_column r) = Some n ->
  In col (outliers_analysis.numeric_columns r)
  /\ (0 <= n <= Pandas.len df)%Z
  /\ forall d,
       Py.dict_get col (Py.get (outliers_analysis.outlier_details r) []) = Some d ->
       (outliers_analysis.lower_bound d <= outliers_analysis.Q1 d)%Q
       /\ (outliers_analysis.Q1 d <= outliers_analysis.Q3 d)%Q
       /\ (outliers_analysis.Q3 d <= outliers_analysis.upper_bound d)%Q
       /\ Forall (fun x => In (Pandas.Num x) (Pandas.get_col df col)
                           /\ (x < outliers_analysis.lower_bound d
                               \/ outliers_analysis.upper_bound d < x)%Q)
                 (outliers_analysis.sample_values d)
       /\ (List.length (outliers_analysis.sample_values d) <= 5)%nat
       /\ (Z.of_nat (List.length (outliers_analysis.sample_values d)) <= n)%Z.
Proof.
  intros r; subst r; unfold outliers_analysis.analyze_outliers.
  destruct (Py.len (outliers_analysis.numeric_cols df) =? 0)%Z; [discriminate|].
  destruct (Py.len (outliers_analysis.df_numeric df) <? 10)%Z; [discriminate|].
  cbn [outliers_analysis.outliers_per_column outliers_analysis.outlier_details
       outliers_analysis.numeric_columns Py.get].
  rewrite column_loop_counts; cbn [fst]; intros _ Hget.
  apply fold_dict_set_keys in Hget as [[Hin ->]|Hget]; [|discriminate].
  pose proof (column_outliers_sound df col) as [Hn Hd].
  split; [assumption|]; split; [exact Hn|].
  intros d Hdet; apply Hd.
  apply dict_get_In in Hdet.
  pose proof (column_loop_details df (outliers_analysis.numeric_cols df) ([], [])
                (Forall_nil _)) as Hall.
  rewrite Forall_forall in Hall; exact (Hall _ Hdet).
Qed.

Lemma outlier_counts_and_samples_witness :
  Py.dict_get "celsius"
    (outliers_analysis.outliers_per_column
       (outliers_analysis.analyze_outliers more_samples.first_row_forest
                                           more_samples.temperatures)) = Some 1%Z
  /\ (0 <= 1 <= Pandas.len more_samples.temperatures)%Z.
Proof.
  assert (H : Py.dict_get "celsius"
    (outliers_analysis.outliers_per_column
       (outliers_analysis.analyze_outliers more_samples.first_row_forest
                                           more_samples.temperatures)) = Some 1%Z)
    by (vm_compute; reflexivity).
  split; [exact H|].
  refine (proj1 (proj2 (outlier_counts_and_samples more_samples.first_row_forest
                          more_samples.temperatures "celsius" 1%Z _ H))).
  repeat constructor; vm_compute; discriminate.
Defined.

(** ** Columns without spread *)

Lemma Qsum_constant (v : Q) (xs : list Q) :
  Forall (fun x => x == v)%Q xs ->
  (Pandas.Qsum xs == inject_Z (Z.of_nat (List.length xs)) * v)%Q.
Proof.
  unfold Pandas.Qsum; induction 1 as [|x xs Hx _ IH].
  - simpl; ring.
  - cbn [fold_right List.length]; rewrite IH, Hx, Nat2Z.inj_succ.
    unfold Z.succ; rewrite inject_Z_plus; ring.
Qed.

Lemma Qsquare_nonneg (y : Q) : (0 <= y * y)%Q.
Proof.
  destruct (Qlt_le_dec y 0) as [Hneg|Hpos].
  - setoid_replace (y * y)%Q with ((- y) * (- y))%Q by ring.
    apply Qmult_le_0_compat; lra.
  - now apply Qmult_le_0_compat.
Qed.

Lemma Qsum_squares_nonneg (m : Q) (xs : list Q) :
  (0 <= Pandas.Qsum (map (fun x => (x - m) * (x - m)) xs))%Q.
Proof.
  unfold Pandas.Qsum; induction xs as [|x xs IH]; simpl; [apply Qle_refl|].
  pose proof (Qsquare_nonneg (x - m)); lra.
Qed.

Lemma filter_none {A : Type} (p : A -> bool) (l : list A) :
  (forall x, In x l -> p x = false) -> filter p l = [].
Proof.
  induction l as [|x l IH]; intros H; simpl; [reflexivity|].
  rewrite (H x (or_introl eq_refl)); apply IH; intros y Hy; apply H; now right.
Qed.

Lemma z_outliers_constant (v : Q) (xs : list Q) :
  xs <> [] -> Forall (fun x => x == v)%Q xs -> outliers_analysis.z_outliers xs = 0%Z.
Proof.
  intros Hne Hall; unfold outliers_analysis.z_outliers.
  set (n := inject_Z (Z.of_nat (List.length xs))).
  assert (Hn : (0 < n)%Q).
  { unfold n; change 0%Q with (inject_Z 0); rewrite <- Zlt_Qlt.
    destruct xs; [congruence | simpl; lia]. }
  set (m := (Pandas.Qsum xs / n)%Q).
  assert (Hm : (m == v)%Q).
  { unfold m; rewrite (Qsum_constant v xs Hall); fold n; field; lra. }
  set (var := (Pandas.Qsum (map (fun x => (x - m) * (x - m)) xs) / n)%Q).
  assert (Hvar : (0 <= var)%Q).
  { unfold var, Qdiv; apply Qmult_le_0_compat;
      [apply Qsum_squares_nonneg | apply Qinv_le_0_compat; lra]. }
  rewrite filter_none; [reflexivity|].
  intros x Hx; rewrite Forall_forall in Hall; specialize (Hall x Hx).
  destruct (Qlt_bool_spec (9 * var) ((x - m) * (x - m))) as [Hlt|_]; [|reflexivity].
  assert (Hzero : ((x - m) * (x - m) == 0)%Q) by (rewrite Hall, Hm; ring).
  rewrite Hzero in Hlt; lra.
Qed.

(** A quantile lies between two values of the series. *)
Lemma quantile_within_values (p : Q) (xs : list Q) (q : Q) :
  (0 <= p)%Q -> (p <= 1)%Q -> Pandas.quantile p xs = Some q ->
  exists a b, In a xs /\ In b xs /\ (a <= q)%Q /\ (q <= b)%Q.
Proof.
  unfold Pandas.quantile; intros Hp0 Hp1 Hq.
  pose proof (quantile_sorted_between p (Pandas.sort xs) q (sort_sorted xs)
                Hp0 Hp1 Hq q) as [Hlo Hhi].
  cbv zeta in Hlo, Hhi.
  assert (Hn : (1 <= List.length (Pandas.sort xs))%nat).
  { destruct (Pandas.sort xs); [discriminate | simpl; lia]. }
  destruct (quantile_position p _ Hp0 Hp1 Hn) as (_ & Hi & _).
  eexists; eexists; repeat split; [| |exact Hlo|exact Hhi];
    apply sort_In, nth_In; lia.
Qed.

Lemma numeric_values_In (cs : list Pandas.cell) (xs : list Q) (x : Q) :
  Pandas.numeric_values cs = Some xs -> In x xs -> In (Pandas.Num x) cs.
Proof.
  revert xs; induction cs as [|c cs IH]; intros xs; simpl.
  - intros [= <-] [].
  - destruct c; try discriminate.
    + intros H Hin; right; eauto.
    + destruct (Pandas.numeric_values cs) as [ys|]; [|discriminate].
      intros [= <-] [->|Hin]; [now left | right; eauto].
Qed.

Lemma constant_column_outliers (df : Pandas.DataFrame) (col : string) (v : Q) :
  Forall (fun c => match c with
                   | Pandas.NaN => True
                   | Pandas.Num x => (x == v)%Q
                   | _ => False
                   end) (Pandas.get_col df col) ->
  fst (outliers_analysis.column_outliers df col) = 0%Z.
Proof.
  intros Hconst; unfold outliers_analysis.column_outliers.
  destruct (Pandas.numeric_values (Pandas.get_col df col)) as [xs|] eqn:Hxs;
    [|reflexivity].
  assert (Hall : Forall (fun x => x == v)%Q xs).
  { apply Forall_forall; intros x Hx.
    apply (numeric_values_In _ _ _ Hxs) in Hx.
    rewrite Forall_forall in Hconst; exact (Hconst _ Hx). }
  destruct (Nat.ltb_spec (List.length xs) 4) as [|Hlen]; [reflexivity|].
  destruct (Pandas.quantile (1 # 4) xs) as [q1|] eqn:E1; [|reflexivity].
  destruct (Pandas.quantile (3 # 4) xs) as [q3|] eqn:E3; [|reflexivity].
  cbn [fst].
  assert (Hne : xs <> []) by (destruct xs; [simpl in Hlen; lia | discriminate]).
  rewrite (z_outliers_constant v xs Hne Hall).
  rewrite filter_none; [reflexivity|].
  intros x Hx; apply iqr_rule_spares_the_middle.
  - destruct (quantile_within_values (1 # 4) xs q1) as (a & b & Ha & Hb & Haq & Hqb);
      [lra | lra | assumption |].
    rewrite Forall_forall in Hall.
    rewrite (Hall x Hx), <- (Hall b Hb); assumption.
  - destruct (quantile_within_values (3 # 4) xs q3) as (a & b & Ha & Hb & Haq & Hqb);
      [lra | lra | assumption |].
    rewrite Forall_forall in Hall.
    rewrite (Hall x Hx), <- (Hall a Ha); assumption.
Qed.

(** X26: when the analysis runs, a column whose values are all equal
    (missing values apart) is reported with 0 outliers. *)
Theorem constant_column_no_outliers
    (fit_predict : list (list Q) -> option (list Z)) (df : Pandas.DataFrame)
    (col : string) (v : Q) :
  let r := outliers_analysis.analyze_outliers fit_predict df in
  outliers_analysis.error r = None ->
  In col (outliers_analysis.numeric_columns r) ->
  Forall (fun c => match c with
                   | Pandas.NaN => True
                   | Pandas.Num x => (x == v)%Q
                   | _ => False
                   end) (Pandas.get_col df col) ->
  Py.dict_get col (outliers_analysis.outliers_per_column r) = Some 0%Z.
Proof.
  intros r; subst r; unfold outliers_analysis.analyze_outliers.
  destruct (Py.len (outliers_analysis.numeric_cols df) =? 0)%Z; [discriminate|].
  destruct (Py.len (outliers_analysis.df_numeric df) <? 10)%Z; [discriminate|].
  cbn [outliers_analysis.outliers_per_column outliers_analysis.numeric_columns].
  intros _ Hin Hconst.
  rewrite column_loop_counts; cbn [fst].
  rewrite fold_dict_set_get by assumption.
  now rewrite (constant_column_outliers df col v Hconst).
Qed.

Lemma constant_column_no_outliers_witness :
  Py.dict_get "room"
    (outliers_analysis.outliers_per_column
       (outliers_analysis.analyze_outliers more_samples.first_row_forest
                                           more_samples.temperatures)) = Some 0%Z.
Proof.
  apply (constant_column_no_outliers more_samples.first_row_forest
           more_samples.temperatures "room" 21).
  - vm_compute; reflexivity.
  - vm_compute; auto.
  - vm_compute; repeat constructor.
Defined.

(** ** Clipping the columns of the outlier report *)

Lemma select_dtypes_NoDup (include : Pandas.dtype -> bool) (df : Pandas.DataFrame) :
  NoDup (Pandas.column_names df) -> NoDup (Pandas.select_dtypes include df).
Proof.
  unfold Pandas.column_names, Pandas.select_dtypes.
  induction (Pandas.columns df) as [|[name dt] cols IH]; simpl; [auto|].
  intros Hnd; apply NoDup_cons_iff in Hnd as [Hfresh Hrest].
  destruct (include dt); simpl; [|auto].
  constructor; [|auto].
  intros Hin; apply Hfresh.
  apply in_map_iff in Hin as ([name' dt'] & Hname & Hin).
  apply filter_In in Hin as [Hin _].
  apply in_map_iff; exists (name', dt'); auto.
Qed.

Lemma numeric_cols_NoDup (df : Pandas.DataFrame) :
  NoDup (Pandas.column_names df) -> NoDup (outliers_analysis.numeric_cols df).
Proof.
  intros Hnd; unfold outliers_analysis.numeric_cols.
  now apply NoDup_filter, select_dtypes_NoDup.
Qed.

Lemma numeric_cols_present (df : Pandas.DataFrame) (col : string) :
  In col (outliers_analysis.numeric_cols df) -> In col (Pandas.column_names df).
Proof.
  unfold outliers_analysis.numeric_cols, Pandas.select_dtypes, Pandas.column_names.
  intros Hin; apply filter_In in Hin as [Hin _].
  apply in_map_iff in Hin as (c & <- & Hc).
  apply filter_In in Hc as [Hc _]; now apply in_map.
Qed.

Lemma clip_within (lo hi : Q) (c : Pandas.cell) :
  (lo <= hi)%Q ->
  match c with Pandas.NaN | Pandas.Num _ => True | _ => False end ->
  match Pandas.clip (Some lo) (Some hi) c with
  | Pandas.NaN => True
  | Pandas.Num x => (lo <= x)%Q /\ (x <= hi)%Q
  | _ => False
  end.
Proof.
  intros Hlh; destruct c as [|q| | |]; simpl; try tauto; intros _.
  destruct (Qlt_bool_spec q lo) as [Hq|Hq].
  - destruct (Qlt_bool_spec hi lo); lra.
  - destruct (Qlt_bool_spec hi q); lra.
Qed.

Lemma iqr_bounds_ordered (series : list Pandas.cell) (lo hi : Q) :
  cleaning.iqr_bounds series = Some (Some (lo, hi)) ->
  (lo <= hi)%Q
  /\ Forall (fun c => match c with Pandas.NaN | Pandas.Num _ => True | _ => False end)
            series.
Proof.
  unfold cleaning.iqr_bounds.
  destruct (Pandas.numeric_values series) as [xs|] eqn:Hxs; [|discriminate].
  destruct (Pandas.quantile (1 # 4) xs) as [q1|] eqn:E1; [|discriminate].
  destruct (Pandas.quantile (3 # 4) xs) as [q3|] eqn:E3; [|discriminate].
  pose proof (quartiles_ordered xs q1 q3 E1 E3) as Hq.
  intros H.
  assert (Hlo : lo = (q1 - (3 # 2) * (q3 - q1))%Q) by congruence.
  assert (Hhi : hi = (q3 + (3 # 2) * (q3 - q1))%Q) by congruence.
  split; [subst lo hi; lra|].
  clear - Hxs; revert xs Hxs.
  induction series as [|c cs IH]; intros xs; simpl; [constructor|].
  destruct c; try discriminate.
  - intros H; constructor; eauto.
  - destruct (Pandas.numeric_values cs) as [ys|]; [|discriminate].
    intros _; constructor; eauto.
Qed.

Section ClippedColumn.

Variable df : Pandas.DataFrame.
Variable col : string.
Variables lo hi : Q.

Hypothesis rect : frames.rectangular df.
Hypothesis bounds :
  cleaning.iqr_bounds (Pandas.get_col df col) = Some (Some (lo, hi)).
Hypothesis not_nullable_integer : Pandas.col_dtype df col <> Pandas.Int64.

Let same_schema (d : Pandas.DataFrame) : Prop :=
  Pandas.column_names d = Pandas.column_names df
  /\ frames.rectangular d
  /\ Pandas.col_dtype d col = Pandas.col_dtype df col.

(** What one turn of the loop does under "clip": nothing, or it assigns a
    series of the right length to a column that exists. *)
Lemma clip_column_shape (d : Pandas.DataFrame) (c : string) :
  cleaning.handle_outlier_column "clip" d c = d
  \/ (Pandas.has_column d c = true
      /\ exists dt vals,
           List.length vals = List.length (Pandas.rows d)
           /\ cleaning.handle_outlier_column "clip" d c = Pandas.assign d c dt vals).
Proof.
  unfold cleaning.handle_outlier_column.
  destruct (Pandas.has_column d c) eqn:Hhas; cbn [negb]; [|now left].
  cbn [String.eqb Ascii.eqb Bool.eqb andb].
  destruct (cleaning.iqr_bounds (Pandas.get_col d c)); [|now left].
  destruct (Pandas.dtype_eqb _ Pandas.Int64 && _); [now left|].
  right; split; [reflexivity|]; eexists; eexists; split; [|reflexivity].
  rewrite length_map; now apply get_col_length.
Qed.

Lemma clip_column_same_schema (d : Pandas.DataFrame) (c : string) :
  col <> c -> same_schema d ->
  same_schema (cleaning.handle_outlier_column "clip" d c).
Proof.
  intros Hne (Hc & Hr & Hdt).
  destruct (clip_column_shape d c) as [->|(Hcol & dt & vals & _ & ->)];
    [now repeat split|].
  split; [|split].
  - now rewrite assign_names.
  - now apply assign_rectangular.
  - now rewrite col_dtype_assign_apart.
Qed.

Lemma clip_column_other (d : Pandas.DataFrame) (c : string) :
  col <> c ->
  Pandas.get_col (cleaning.handle_outlier_column "clip" d c) col = Pandas.get_col d col.
Proof.
  intros Hne.
  destruct (clip_column_shape d c) as [->|(Hcol & dt & vals & _ & ->)];
    [reflexivity | now apply get_col_assign_apart].
Qed.

Lemma clip_loop_other (names : list string) (d : Pandas.DataFrame) :
  ~ In col names ->
  Pandas.get_col (fold_left (cleaning.handle_outlier_column "clip") names d) col
  = Pandas.get_col d col.
Proof.
  revert d; induction names as [|c names IH]; intros d Hnot; simpl; [reflexivity|].
  rewrite IH by (intros H; apply Hnot; now right).
  apply clip_column_other; intros ->; apply Hnot; now left.
Qed.

Lemma clip_column_clips (d : Pandas.DataFrame) :
  In col (Pandas.column_names df) ->
  same_schema d -> Pandas.get_col d col = Pandas.get_col df col ->
  Pandas.get_col (cleaning.handle_outlier_column "clip" d col) col
  = map (Pandas.clip (Some lo) (Some hi)) (Pandas.get_col df col).
Proof.
  intros Hin (Hc & Hr & Hdt) Hdata; unfold cleaning.handle_outlier_column.
  assert (Hhas : Pandas.has_column d col = true).
  { unfold Pandas.has_column; rewrite Hc.
    apply index_of_In in Hin.
    destruct (Pandas.index_of col (Pandas.column_names df)); congruence. }
  rewrite Hhas; cbn [negb String.eqb Ascii.eqb Bool.eqb andb].
  rewrite Hdata, bounds, Hdt; cbn [option_map fst snd].
  replace (Pandas.dtype_eqb (Pandas.col_dtype df col) Pandas.Int64) with false
    by (destruct (Pandas.col_dtype df col); try reflexivity; congruence).
  cbn [andb].
  apply get_col_assign; try assumption.
  rewrite length_map, <- Hdata; now apply get_col_length.
Qed.

Lemma clip_loop_clips (names : list string) (d : Pandas.DataFrame) :
  NoDup names -> In col names -> In col (Pandas.column_names df) ->
  same_schema d -> Pandas.get_col d col = Pandas.get_col df col ->
  Pandas.get_col (fold_left (cleaning.handle_outlier_column "clip") names d) col
  = map (Pandas.clip (Some lo) (Some hi)) (Pandas.get_col df col).
Proof.
  revert d; induction names as [|c names IH]; intros d Hnd Hin Hpresent Hd Hdata;
    [contradiction|].
  apply NoDup_cons_iff in Hnd as [Hc Hnd]; simpl.
  destruct (String.eqb_spec col c) as [<-|Hne].
  - rewrite clip_loop_other by assumption; now apply clip_column_clips.
  - destruct Hin as [->|Hin]; [congruence|].
    apply IH; try assumption; [now apply clip_column_same_schema|].
    now rewrite clip_column_other.
Qed.

(** X27: on a rectangular dataset with distinct column names, clipping
    with the analyzer's own report replaces each reported column that is
    not a nullable [Int64] column, and whose values are finite and of
    moderate size, by its values clipped to the IQR bounds of the original
    column, so that afterwards every value of the column lies within
    them; this also holds when the report only says that the data were
    insufficient. *)
Theorem clip_brings_column_within_bounds
    (fit_predict : list (list Q) -> option (list Z)) :
  NoDup (Pandas.column_names df) ->
  frames.moderate (Pandas.get_col df col) ->
  let r := outliers_analysis.analyze_outliers fit_predict df in
  In col (outliers_analysis.numeric_columns r) ->
  let cleaned :=
    cleaning.handle_outliers df (Some (outliers_analysis.for_pipeline r)) "clip" in
  (lo <= hi)%Q
  /\ Pandas.get_col cleaned col
     = map (Pandas.clip (Some lo) (Some hi)) (Pandas.get_col df col)
  /\ Forall (fun c => match c with
                      | Pandas.NaN => True
                      | Pandas.Num x => (lo <= x)%Q /\ (x <= hi)%Q
                      | _ => False
                      end) (Pandas.get_col cleaned col).
Proof.
  intros Hnames _ r Hin cleaned.
  destruct (iqr_bounds_ordered _ _ _ bounds) as [Hlh Hcells].
  assert (Hcols : outliers_analysis.numeric_columns r = outliers_analysis.numeric_cols df).
  { subst r; revert Hin; unfold outliers_analysis.analyze_outliers.
    destruct (Py.len (outliers_analysis.numeric_cols df) =? 0)%Z; [intros []|].
    now destruct (Py.len (outliers_analysis.df_numeric df) <? 10)%Z. }
  rewrite Hcols in Hin.
  assert (Hclip : Pandas.get_col cleaned col
                  = map (Pandas.clip (Some lo) (Some hi)) (Pandas.get_col df col)).
  { subst cleaned; unfold cleaning.handle_outliers, Pandas.reset_index, Pandas.copy.
    unfold outliers_analysis.for_pipeline; cbn [outliers.numeric_columns Py.get].
    rewrite Hcols.
    apply clip_loop_clips;
      [now apply numeric_cols_NoDup | assumption | now apply numeric_cols_present
      | split; [reflexivity | split; [assumption | reflexivity]] | reflexivity]. }
  split; [assumption|]; split; [assumption|].
  rewrite Hclip; apply Forall_forall; intros c Hc.
  apply in_map_iff in Hc as (c0 & <- & Hc0).
  apply clip_within; [assumption|].
  rewrite Forall_forall in Hcells; now apply Hcells.
Qed.

End ClippedColumn.

Lemma clip_brings_column_within_bounds_witness :
  Forall (fun c => match c with
                   | Pandas.NaN => True
                   | Pandas.Num x => ((2160 # 128) <= x)%Q /\ (x <= (2800 # 128))%Q
                   | _ => False
                   end)
    (Pandas.get_col
       (cleaning.handle_outliers more_samples.temperatures
          (Some (outliers_analysis.for_pipeline
                   (outliers_analysis.analyze_outliers more_samples.first_row_forest
                                                       more_samples.temperatures)))
          "clip")
       "celsius").
Proof.
  refine (proj2 (proj2 (clip_brings_column_within_bounds more_samples.temperatures
            "celsius" (2160 # 128) (2800 # 128) _ _ _ more_samples.first_row_forest
            _ _ _))).
  - vm_compute; repeat constructor.
  - vm_compute; reflexivity.
  - vm_compute; discriminate.
  - repeat constructor; vm_compute; intuition discriminate.
  - repeat constructor; vm_compute; discriminate.
  - vm_compute; auto.
Defined.

(** ** Serialising a report *)

(** Induction on a value and, below it, on the items of its containers. *)
Lemma value_induction (P : api.value -> Prop) :
  (forall items, Forall (fun item => P (snd item)) items -> P (api.PyDict items)) ->
  (forall items, Forall P items -> P (api.PyList items)) ->
  (forall items, Forall P items -> P (api.PyTuple items)) ->
  (forall s, P (api.Numpy s)) ->
  (forall s, P (api.Python s)) ->
  (forall items, P (api.Ndarray items)) ->
  P api.PyNone ->
  (forall s, P (api.PyStr s)) ->
  forall v, P v.
Proof.
  intros Hdict Hlist Htuple Hnumpy Hpython Harray Hnone Hstr.
  fix IH 1; intros [items|items|items|s|s|items| |s];
    [| | |apply Hnumpy|apply Hpython|apply Harray|exact Hnone|apply Hstr].
  - apply Hdict; induction items as [|[key x] items IHitems]; constructor;
      [apply IH | exact IHitems].
  - apply Hlist; induction items as [|x items IHitems]; constructor;
      [apply IH | exact IHitems].
  - apply Htuple; induction items as [|x items IHitems]; constructor;
      [apply IH | exact IHitems].
Qed.

Lemma forallb_map_true {A B : Type} (f : A -> B) (p : B -> bool) (l : list A) :
  Forall (fun x => p (f x) = true) l -> forallb p (map f l) = true.
Proof.
  induction 1 as [|x l Hx _ IH]; simpl; [reflexivity | now rewrite Hx].
Qed.

Lemma existsb_map_same {A B : Type} (f : A -> B) (p : B -> bool) (q : A -> bool)
    (l : list A) :
  Forall (fun x => p (f x) = q x) l -> existsb p (map f l) = existsb q l.
Proof.
  induction 1 as [|x l Hx _ IH]; simpl; [reflexivity | now rewrite Hx, IH].
Qed.

(** X28: whatever the report holds, convert_to_serializable leaves no
    NumPy scalar and no array in it; a NaN is left in the result exactly
    when the report held a NumPy NaN or an array with a NaN: a built-in
    NaN becomes [None], a NumPy one stays a NaN. *)
Theorem convert_to_serializable_result (obj : api.value) :
  api.builtin_only (api.convert_to_serializable obj) = true
  /\ api.has_nan (api.convert_to_serializable obj) = api.has_numpy_nan obj.
Proof.
  induction obj as [items IH|items IH|items IH|s|s|items| |s] using value_induction.
  - cbn [api.convert_to_serializable api.builtin_only api.has_nan api.has_numpy_nan].
    split.
    + apply forallb_map_true; eapply Forall_impl; [|exact IH].
      intros [key x]; cbn [snd]; tauto.
    + apply existsb_map_same; eapply Forall_impl; [|exact IH].
      intros [key x]; cbn [snd]; tauto.
  - cbn [api.convert_to_serializable api.builtin_only api.has_nan api.has_numpy_nan].
    split.
    + apply forallb_map_true; eapply Forall_impl; [|exact IH]; cbv beta; tauto.
    + apply existsb_map_same; eapply Forall_impl; [|exact IH]; cbv beta; tauto.
  - cbn [api.convert_to_serializable api.builtin_only api.has_nan api.has_numpy_nan].
    split.
    + apply forallb_map_true; eapply Forall_impl; [|exact IH]; cbv beta; tauto.
    + apply existsb_map_same; eapply Forall_impl; [|exact IH]; cbv beta; tauto.
  - destruct s as [n|[x|]|b]; split; reflexivity.
  - destruct s as [n|[x|]|b]; split; reflexivity.
  - cbn [api.convert_to_serializable api.builtin_only api.has_nan api.has_numpy_nan].
    split.
    + apply forallb_map_true, Forall_forall; reflexivity.
    + apply existsb_map_same, Forall_forall; reflexivity.
  - split; reflexivity.
  - split; reflexivity.
Qed.

(** ** The endpoints and the job storage *)

Lemma dict_get_del_same {V : Type} (k : string) (d : Py.dict V) :
  Py.dict_get k (api.dict_del k d) = None.
Proof.
  unfold api.dict_del; induction d as [|[k' v] d IH]; simpl; [reflexivity|].
  destruct (String.eqb_spec k' k) as [->|Hne]; simpl; [assumption|].
  destruct (String.eqb_spec k k'); [congruence | assumption].
Qed.

Lemma dict_get_del_other {V : Type} (j k : string) (d : Py.dict V) :
  j <> k -> Py.dict_get j (api.dict_del k d) = Py.dict_get j d.
Proof.
  intros Hne; unfold api.dict_del; induction d as [|[k' v] d IH]; simpl; [reflexivity|].
  destruct (String.eqb_spec k' k) as [->|Hk]; simpl.
  - destruct (String.eqb_spec j k); [congruence | assumption].
  - destruct (String.eqb_spec j k'); [reflexivity | assumption].
Qed.

Lemma replace_csv_suffix (stem : string) :
  Forall (fun c => c <> "."%char) (list_ascii_of_string stem) ->
  api.replace ".csv" "_cleaned.csv" (String.append stem ".csv")
  = String.append stem "_cleaned.csv".
Proof.
  unfold api.replace; induction stem as [|c stem IH]; intros Hdots; [reflexivity|].
  apply Forall_cons_iff in Hdots as [Hc Hdots].
  cbn [String.append api.replace_from String.prefix].
  destruct (ascii_dec "." c) as [<-|_]; [congruence|].
  now rewrite IH.
Qed.

Section Endpoints.

Variable run_full_pipeline :
  list Byte.byte -> string -> api.result (api.value * Pandas.DataFrame).
Variable to_csv : Pandas.DataFrame -> api.result (list Byte.byte).
Variable str : api.exn -> string.

(** X29: POST /analyze answers a failure with status 400 or 500 and
    leaves the job storage as it was: 400 exactly for a file name that
    does not end in ".csv"; an upload of more than 100 MB is answered with
    500, the 413 raised for it being caught and wrapped like any other
    error.  A success means a ".csv" name, at most 100 MB and a pipeline
    that returned.  POST /clean gives the same answer whatever
    missing_strategy and outlier_method are. *)
Theorem upload_error_handling (filename : string) (content : list Byte.byte)
    (duplicate_strategy uuid4 now : string) (job_storage : Py.dict api.job) :
  let answer := api.analyze_file run_full_pipeline str filename content
                                 duplicate_strategy uuid4 now job_storage in
  match fst answer with
  | api.Returns r =>
      api.endswith filename ".csv" = true
      /\ (Py.len content <= api.max_upload)%Z
      /\ exists report cleaned,
           run_full_pipeline content duplicate_strategy = api.Returns (report, cleaned)
  | api.Raises e =>
      snd answer = job_storage
      /\ (if api.endswith filename ".csv"
          then exists cause,
                 e = api.HTTPException 500 (String.append "Analysis failed: " (str cause))
                 /\ ((api.max_upload < Py.len content)%Z ->
                     cause = api.HTTPException 413 "File too large. Maximum 100MB allowed")
          else e = api.HTTPException 400 "Only CSV files are supported")
  end
  /\ forall missing_strategy outlier_method missing_strategy' outlier_method',
       api.clean_file run_full_pipeline str filename content duplicate_strategy
                      missing_strategy outlier_method uuid4 now job_storage
       = api.clean_file run_full_pipeline str filename content duplicate_strategy
                        missing_strategy' outlier_method' uuid4 now job_storage.
Proof.
  intros answer; split; [|reflexivity].
  subst answer; unfold api.analyze_file, api.read_and_run.
  destruct (api.endswith filename ".csv"); cbn [negb fst snd]; [|split; reflexivity].
  destruct (Z.ltb_spec api.max_upload (Py.len content)) as [Hbig|Hsmall].
  - cbn [fst snd]; split; [reflexivity|]; eexists; split; [reflexivity | auto].
  - destruct (run_full_pipeline content duplicate_strategy) as [[report cleaned]|e];
      cbn [fst snd].
    + repeat split; [assumption | eauto].
    + split; [reflexivity|]; exists e; split; [reflexivity | lia].
Qed.

(** X30: after a successful POST /analyze, GET /download for the returned
    job id answers with the CSV of the frame that the pipeline returned
    (or 500 when writing it fails), under the uploaded name with ".csv"
    replaced by "_cleaned.csv"; DELETE /job for it succeeds, after which
    download and a second delete answer 404, while every other job is as
    it was before the upload. *)
Theorem job_round_trip (filename : string) (content : list Byte.byte)
    (duplicate_strategy uuid4 now : string) (job_storage stored : Py.dict api.job)
    (r : api.analysis) :
  api.analyze_file run_full_pipeline str filename content duplicate_strategy
                   uuid4 now job_storage = (api.Returns r, stored) ->
  let job_id := api.analysis_job_id r in
  let deleted := api.delete_job job_id stored in
  (exists report cleaned,
     run_full_pipeline content duplicate_strategy = api.Returns (report, cleaned)
     /\ api.analysis_report r = api.convert_to_serializable report
     /\ api.download_cleaned_file to_csv str job_id stored
        = match to_csv cleaned with
          | api.Returns buffer =>
              api.Returns
                {| api.body := buffer;
                   api.media_type := "text/csv";
                   api.content_disposition :=
                     String.append "attachment; filename="
                       (api.replace ".csv" "_cleaned.csv" filename) |}
          | api.Raises e =>
              api.Raises (api.HTTPException 500
                            (String.append "Download failed: " (str e)))
          end)
  /\ (forall stem,
        filename = String.append stem ".csv" ->
        Forall (fun c => c <> "."%char) (list_ascii_of_string stem) ->
        api.replace ".csv" "_cleaned.csv" filename = String.append stem "_cleaned.csv")
  /\ fst deleted = api.Returns ("success", "Job deleted")
  /\ api.download_cleaned_file to_csv str job_id (snd deleted)
     = api.Raises (api.HTTPException 404 "Job not found or expired")
  /\ fst (api.delete_job job_id (snd deleted))
     = api.Raises (api.HTTPException 404 "Job not found")
  /\ forall other, other <> job_id ->
       Py.dict_get other (snd deleted) = Py.dict_get other job_storage.
Proof.
  intros Hanswer job_id deleted; unfold api.analyze_file in Hanswer.
  destruct (api.endswith filename ".csv"); cbn [negb] in Hanswer; [|discriminate].
  destruct (api.read_and_run run_full_pipeline content duplicate_strategy)
    as [[report cleaned]|e] eqn:Hrun; [|discriminate].
  assert (Hr : r = {| api.analysis_status := "success";
                      api.analysis_job_id := uuid4;
                      api.analysis_report := api.convert_to_serializable report;
                      api.analysis_message :=
                        "Analysis complete. Use job_id to download cleaned data." |})
    by congruence.
  assert (Hstored : stored
                    = Py.dict_set uuid4 {| api.cleaned_df := cleaned;
                                           api.timestamp := now;
                                           api.original_filename := filename |}
                                  job_storage) by congruence.
  clear Hanswer; subst r; cbn [api.analysis_job_id api.analysis_report] in *.
  subst job_id.
  assert (Hget : Py.dict_get uuid4 stored
                 = Some {| api.cleaned_df := cleaned;
                           api.timestamp := now;
                           api.original_filename := filename |})
    by (subst stored; apply dict_get_set_same).
  assert (Hdeleted : deleted = (api.Returns ("success", "Job deleted"),
                                api.dict_del uuid4 stored)).
  { subst deleted; unfold api.delete_job, api.dict_in; now rewrite Hget. }
  rewrite Hdeleted; cbn [fst snd].
  split; [|split; [|split; [|split; [|split]]]].
  - exists report, cleaned; repeat split.
    + unfold api.read_and_run in Hrun.
      destruct (api.max_upload <? Py.len content)%Z; [discriminate | assumption].
    + unfold api.download_cleaned_file; rewrite Hget; reflexivity.
  - intros stem -> Hdots; now apply replace_csv_suffix.
  - reflexivity.
  - unfold api.download_cleaned_file; now rewrite dict_get_del_same.
  - unfold api.delete_job, api.dict_in; now rewrite dict_get_del_same.
  - intros other Hother; rewrite dict_get_del_other by assumption.
    subst stored; now apply dict_get_set_other.
Qed.

End Endpoints.

Lemma job_round_trip_witness :
  api.download_cleaned_file more_samples.csv_writer more_samples.message "job-1"
    (snd (api.delete_job "job-1"
            [("job-1", {| api.cleaned_df := samples.readings;
                          api.timestamp := "2024-05-01T10:00:00";
                          api.original_filename := "readings.csv" |})]))
  = api.Raises (api.HTTPException 404 "Job not found or expired").
Proof.
  apply (job_round_trip more_samples.fixed_pipeline more_samples.csv_writer
           more_samples.message "readings.csv" [] "flag" "job-1"
           "2024-05-01T10:00:00" []
           [("job-1", {| api.cleaned_df := samples.readings;
                         api.timestamp := "2024-05-01T10:00:00";
                         api.original_filename := "readings.csv" |})]
           {| api.analysis_status := "success";
              api.analysis_job_id := "job-1";
              api.analysis_report :=
                api.PyDict [("summary",
                             api.PyDict [("rows_original", api.Python (api.Integer 6))])];
              api.analysis_message :=
                "Analysis complete. Use job_id to download cleaned data." |}).
  vm_compute; reflexivity.
Defined.

